(** * Dispatch engine of the cold-outreach platform: campaign worker,
      warmup worker, template rendering.

    Shallow embedding of [backend/spintax.py], [backend/email_sender.py],
    [backend/campaign_worker.py], [backend/warmup_worker.py] and of the
    route handlers that write [CampaignLead] rows, over the tables of
    [backend/db.py].

    Conventions.
    - A Python [str] is a [string]; one [ascii] stands for one character
      with a code point below 256.  [str.lower] and [str.strip] are
      Python's on these characters.
    - A [datetime] is a [Z]: microseconds since 1970-01-01T00:00:00 UTC.
    - A table is the list of its rows in insertion order; a query without
      [order_by] returns rows in table order, [first()] its head.
    - Everything the code asks of the outside (the clock, the random module,
      uuid4, the SMTP transport, the token issuer) is an explicit input. *)

From Stdlib Require Import ZArith List Bool Ascii String Lia Arith Sorted
  Permutation.
From Stdlib Require QArith.
Import ListNotations.
Open Scope string_scope.

(* ================================================================== *)
(** * Python string operations *)
(* ================================================================== *)

Module PyStr.

(** [s.startswith(p)] *)
Fixpoint startswith (p s : string) : bool :=
  match p, s with
  | EmptyString, _ => true
  | String a p', String b s' => Ascii.eqb a b && startswith p' s'
  | String _ _, EmptyString => false
  end.

(** [p in s] *)
Fixpoint contains (p s : string) : bool :=
  startswith p s ||
  match s with
  | EmptyString => false
  | String _ s' => contains p s'
  end.

(** [s[:n]] for [n >= 0] *)
Fixpoint take (n : nat) (s : string) : string :=
  match n, s with
  | S k, String c s' => String c (take k s')
  | _, _ => EmptyString
  end.

(** The upper-case letters below U+0100 are A to Z and U+00C0 to U+00DE
    without the multiplication sign U+00D7; each has its lower-case form 32
    places further. *)
Definition lower_char (c : ascii) : ascii :=
  let n := nat_of_ascii c in
  if ((65 <=? n)%nat && (n <=? 90)%nat)
     || ((192 <=? n)%nat && (n <=? 222)%nat && negb (n =? 215)%nat)
  then ascii_of_nat (n + 32) else c.

(** [s.lower()] *)
Fixpoint lower (s : string) : string :=
  match s with
  | EmptyString => EmptyString
  | String c s' => String (lower_char c) (lower s')
  end.

(** Characters removed by [str.strip()]: TAB, LF, VT, FF, CR, FS, GS, RS,
    US, the space, NEL (U+0085) and the no-break space (U+00A0). *)
Definition is_space (c : ascii) : bool :=
  let n := nat_of_ascii c in
  ((9 <=? n)%nat && (n <=? 13)%nat) || ((28 <=? n)%nat && (n <=? 32)%nat)
  || (n =? 133)%nat || (n =? 160)%nat.

Fixpoint lstrip (s : string) : string :=
  match s with
  | EmptyString => EmptyString
  | String c s' => if is_space c then lstrip s' else s
  end.

Fixpoint rstrip (s : string) : string :=
  match s with
  | EmptyString => EmptyString
  | String c s' =>
      match rstrip s' with
      | EmptyString => if is_space c then EmptyString else String c EmptyString
      | r => String c r
      end
  end.

(** [s.strip()] *)
Definition strip (s : string) : string := rstrip (lstrip s).

(** [s.split(sep)] for a one-character separator *)
Fixpoint split (sep : ascii) (s : string) : list string :=
  match s with
  | EmptyString => [EmptyString]
  | String c s' =>
      if Ascii.eqb c sep then EmptyString :: split sep s'
      else match split sep s' with
           | [] => [String c EmptyString]
           | w :: ws => String c w :: ws
           end
  end.

(** [sep.join(l)] *)
Fixpoint join (sep : string) (l : list string) : string :=
  match l with
  | [] => EmptyString
  | [x] => x
  | x :: r => x ++ sep ++ join sep r
  end.

(** [s.replace(old, new)] scans left to right and replaces the
    non-overlapping occurrences; [skip] counts the characters of an
    occurrence that are still to be dropped. *)
Fixpoint replace_from (old new : string) (skip : nat) (s : string) : string :=
  match s with
  | EmptyString => EmptyString
  | String c s' =>
      match skip with
      | S k => replace_from old new k s'
      | O =>
          if startswith old s
          then new ++ replace_from old new (String.length old - 1) s'
          else String c (replace_from old new 0 s')
      end
  end.

(** With an empty [old], Python inserts [new] before every character and
    at the end. *)
Fixpoint interleave (new s : string) : string :=
  match s with
  | EmptyString => new
  | String c s' => new ++ String c (interleave new s')
  end.

Definition replace (old new s : string) : string :=
  match old with
  | EmptyString => interleave new s
  | _ => replace_from old new 0 s
  end.

(** Longest prefix of characters satisfying [p], and the rest. *)
Fixpoint span (p : ascii -> bool) (s : string) : string * string :=
  match s with
  | EmptyString => (EmptyString, EmptyString)
  | String c s' =>
      if p c then let (a, b) := span p s' in (String c a, b)
      else (EmptyString, s)
  end.

End PyStr.

(* ================================================================== *)
(** * spintax.py *)
(* ================================================================== *)

Module Spintax.

Definition is_brace (c : ascii) : bool :=
  Ascii.eqb c "{"%char || Ascii.eqb c "}"%char.

(** The regular expression [\{([^{}]+)\}] anchored at the start of [s]:
    the group and what follows the match. *)
Definition match_block (s : string) : option (string * string) :=
  match s with
  | String c r =>
      if Ascii.eqb c "{"%char then
        let (inner, rest) := PyStr.span (fun c => negb (is_brace c)) r in
        match inner, rest with
        | EmptyString, _ => None
        | _, String c' after =>
            if Ascii.eqb c' "}"%char then Some (inner, after) else None
        | _, EmptyString => None
        end
      else None
  | EmptyString => None
  end.

(** [re.search(r'\{([^{}]+)\}', text)]: the leftmost match, as
    [(text[:match.start()], match.group(1), text[match.end():])]. *)
Fixpoint search_block (s : string) : option (string * string * string) :=
  match match_block s with
  | Some (inner, after) => Some (EmptyString, inner, after)
  | None =>
      match s with
      | EmptyString => None
      | String c s' =>
          match search_block s' with
          | Some (before, inner, after) => Some (String c before, inner, after)
          | None => None
          end
      end
  end.

(** [random.choice(options)], the draw being the raw random number. *)
Definition choice (draw : nat) (options : list string) : string :=
  nth (draw mod List.length options) options EmptyString.

(** The [for _ in range(max_iterations)] loop; [i] is the number of the
    iteration and [draws i] the random number it would use. *)
Fixpoint render_loop (fuel i : nat) (draws : nat -> nat) (text : string) : string :=
  match fuel with
  | O => text
  | S fuel' =>
      match search_block text with
      | None => text
      | Some (before, inner, after) =>
          if PyStr.contains "|" inner then
            let options := PyStr.split "|"%char inner in
            let replacement := PyStr.strip (choice (draws i) options) in
            render_loop fuel' (S i) draws (before ++ replacement ++ after)
          else
            render_loop fuel' (S i) draws
              (before ++ "__BRACE__" ++ inner ++ "__BRACE__" ++ after)
      end
  end.

Definition max_iterations : nat := 10.

Definition render (draws : nat -> nat) (text : string) : string :=
  match text with
  | EmptyString => text
  | _ =>
      let text := render_loop max_iterations 0 draws text in
      let text := PyStr.replace "__BRACE__" "}" (PyStr.replace "__BRACE__" "{" text) in
      PyStr.replace "__BRACE__" "{" text
  end.

End Spintax.

(* ================================================================== *)
(** * email_sender.py: render_template *)
(* ================================================================== *)

Module EmailSender.

(** The [lead] dict that [_send_one] builds; a column value may be
    [None].  [custom_fields] is the JSON object, each value already
    passed through [str(value or "")]. *)
Record LeadData := {
  ld_first_name : option string;
  ld_last_name : option string;
  ld_email : option string;
  ld_company : option string;
  ld_title : option string;
  ld_website : option string;
  ld_phone : option string;
  ld_city : option string;
  ld_state : option string;
  ld_country : option string;
  ld_industry : option string;
  ld_custom_fields : list (string * string)
}.

Record SenderData := {
  sd_from_name : option string;
  sd_email : option string
}.

(** [str(value or "")] *)
Definition str_or_empty (v : option string) : string :=
  match v with Some s => s | None => EmptyString end.

(** [d[k] = v] on a dict kept as the list of its items in insertion
    order: an existing key keeps its place. *)
Fixpoint dict_set (k v : string) (d : list (string * string)) : list (string * string) :=
  match d with
  | [] => [(k, v)]
  | (k', v') :: r =>
      if String.eqb k' k then (k, v) :: r else (k', v') :: dict_set k v r
  end.

(** [d.update(other)] *)
Definition dict_update (d other : list (string * string)) : list (string * string) :=
  fold_left (fun acc kv => dict_set (fst kv) (snd kv) acc) other d.

Definition variables (lead : LeadData) (sender : option SenderData)
  : list (string * string) :=
  let base :=
    [ ("first_name", str_or_empty (ld_first_name lead));
      ("last_name", str_or_empty (ld_last_name lead));
      ("email", str_or_empty (ld_email lead));
      ("company", str_or_empty (ld_company lead));
      ("title", str_or_empty (ld_title lead));
      ("website", str_or_empty (ld_website lead));
      ("phone", str_or_empty (ld_phone lead));
      ("city", str_or_empty (ld_city lead));
      ("state", str_or_empty (ld_state lead));
      ("country", str_or_empty (ld_country lead));
      ("industry", str_or_empty (ld_industry lead)) ] in
  let with_sender :=
    match sender with
    | Some s =>
        dict_set "sender_email" (str_or_empty (sd_email s))
          (dict_set "sender_name" (str_or_empty (sd_from_name s)) base)
    | None => base
    end in
  dict_update with_sender (ld_custom_fields lead).

(** Length of the match of [\{\{[^}]+\}\}] anchored at the start of [s]. *)
Definition match_placeholder (s : string) : option nat :=
  match s with
  | String c1 (String c2 r) =>
      if Ascii.eqb c1 "{"%char && Ascii.eqb c2 "{"%char then
        let (name, rest) := PyStr.span (fun c => negb (Ascii.eqb c "}"%char)) r in
        match name, rest with
        | EmptyString, _ => None
        | _, String c3 (String c4 _) =>
            if Ascii.eqb c3 "}"%char && Ascii.eqb c4 "}"%char
            then Some (String.length name + 4) else None
        | _, _ => None
        end
      else None
  | _ => None
  end.

(** [re.sub(r'\{\{[^}]+\}\}', '', text)] *)
Fixpoint strip_placeholders_from (skip : nat) (s : string) : string :=
  match s with
  | EmptyString => EmptyString
  | String c s' =>
      match skip with
      | S k => strip_placeholders_from k s'
      | O =>
          match match_placeholder s with
          | Some n => strip_placeholders_from (n - 1) s'
          | None => String c (strip_placeholders_from 0 s')
          end
      end
  end.

Definition strip_placeholders (s : string) : string := strip_placeholders_from 0 s.

Definition substitute (vars : list (string * string)) (text : string) : string :=
  fold_left (fun t kv => PyStr.replace ("{{" ++ fst kv ++ "}}") (snd kv) t) vars text.

Definition render_template (draws : nat -> nat) (text : string)
    (lead : LeadData) (sender : option SenderData) : string :=
  match text with
  | EmptyString => text
  | _ =>
      let text := substitute (variables lead sender) text in
      let text := strip_placeholders text in
      Spintax.render draws text
  end.

(** No custom field is named [first_name]. *)
Definition keeps_first_name (custom : list (string * string)) : bool :=
  forallb (fun kv => negb (String.eqb (fst kv) "first_name")) custom.

End EmailSender.

(* ================================================================== *)
(** * db.py: the tables *)
(* ================================================================== *)

Module Db.

Definition datetime := Z.
Definition usec_per_second : Z := 1000000.
Definition usec_per_day : Z := 86400 * usec_per_second.

(** [timedelta(days=d)] *)
Definition days (d : Z) : Z := d * usec_per_day.

Inductive AccountStatus := AccActive | AccWarming | AccError | AccPaused.
Inductive CampaignStatus := CampDraft | CampActive | CampPaused | CampCompleted.
Inductive Rotation := RoundRobin | Weighted | RandomChoice.
Inductive LeadStatus := LeadActive | LeadUnsubscribed | LeadBounced | LeadReplied.
Inductive LinkStatus :=
  Active | Paused | Completed | Unsubscribed | Bounced | Replied.
Inductive BounceType := Hard | Soft.

Definition link_active (s : LinkStatus) : bool :=
  match s with Active => true | _ => false end.

Record Smtp := {
  smtp_host : string;
  smtp_port : Z;
  smtp_username : string;
  smtp_password_encrypted : string
}.

Record Imap := {
  imap_host : string;
  imap_port : Z;
  imap_username : string;
  imap_password_encrypted : string
}.

Record EmailAccount := {
  ea_id : string;
  ea_user_id : string;
  ea_email : string;
  ea_from_name : option string;
  ea_smtp : Smtp;
  ea_imap : Imap;
  ea_daily_limit : Z;
  ea_sends_today : Z;
  ea_warmup_enabled : bool;
  ea_warmup_daily_target : option Z;
  ea_warmup_ramp_days : option Z;
  ea_warmup_score : QArith_base.Q;
  ea_warmup_started_at : option datetime;
  ea_status : AccountStatus;
  ea_signature_html : option string;
  ea_last_error : option string;
  ea_last_sent_at : option datetime
}.

Record Campaign := {
  c_id : string;
  c_user_id : string;
  c_name : string;
  c_status : CampaignStatus;
  c_rotation_strategy : Rotation;
  c_send_window_start : Z;
  c_send_window_end : Z;
  c_send_days : option string
}.

Record CampaignAccount := {
  ca_campaign_id : string;
  ca_account_id : string;
  ca_weight : Z;
  ca_sends_today : Z
}.

(** One entry of [Step.variants]; [None] is an absent key. *)
Record Variant := {
  v_subject : option string;
  v_body : option string
}.

Record Step := {
  st_id : string;
  st_campaign_id : string;
  st_step_number : Z;
  st_delay_days : Z;
  st_subject : string;
  st_body : string;
  st_variants : list Variant
}.

Record Lead := {
  l_id : string;
  l_user_id : string;
  l_email : string;
  l_first_name : option string;
  l_last_name : option string;
  l_company : option string;
  l_title : option string;
  l_phone : option string;
  l_website : option string;
  l_city : option string;
  l_state : option string;
  l_country : option string;
  l_industry : option string;
  l_status : LeadStatus;
  l_custom_fields : list (string * string)
}.

Record CampaignLead := {
  cl_id : string;
  cl_campaign_id : string;
  cl_lead_id : string;
  cl_current_step : Z;
  cl_status : LinkStatus;
  cl_last_sent_at : option datetime;
  cl_next_send_at : option datetime
}.

Record SentEmail := {
  se_id : string;
  se_campaign_id : string;
  se_lead_id : string;
  se_account_id : string;
  se_step_id : string;
  se_message_id : option string;
  se_subject : string;
  se_body_preview : string;
  se_sent_at : datetime;
  se_replied_at : option datetime;
  se_variant_index : nat;
  se_tracking_id : option string
}.

Record WarmupLog := {
  wl_sender_account_id : string;
  wl_receiver_account_id : string;
  wl_direction : string;
  wl_sent_at : datetime;
  wl_replied_at : option datetime
}.

Record Unsubscribe := {
  u_user_id : string;
  u_email : string;
  u_source : string
}.

Record Bounce := {
  b_user_id : string;
  b_email : string;
  b_bounce_type : BounceType;
  b_bounced_at : datetime;
  b_campaign_id : option string
}.

Record DB := {
  email_accounts : list EmailAccount;
  campaigns : list Campaign;
  campaign_accounts : list CampaignAccount;
  steps : list Step;
  leads : list Lead;
  campaign_leads : list CampaignLead;
  sent_emails : list SentEmail;
  warmup_logs : list WarmupLog;
  unsubscribes : list Unsubscribe;
  bounces : list Bounce
}.

(** ** Attribute assignment on a mapped object *)

Definition account_with_counters (sends : Z) (sent_at : option datetime)
    (a : EmailAccount) : EmailAccount :=
  {| ea_id := ea_id a; ea_user_id := ea_user_id a; ea_email := ea_email a;
     ea_from_name := ea_from_name a; ea_smtp := ea_smtp a; ea_imap := ea_imap a;
     ea_daily_limit := ea_daily_limit a; ea_sends_today := sends;
     ea_warmup_enabled := ea_warmup_enabled a;
     ea_warmup_daily_target := ea_warmup_daily_target a;
     ea_warmup_ramp_days := ea_warmup_ramp_days a;
     ea_warmup_score := ea_warmup_score a;
     ea_warmup_started_at := ea_warmup_started_at a;
     ea_status := ea_status a; ea_signature_html := ea_signature_html a;
     ea_last_error := ea_last_error a; ea_last_sent_at := sent_at |}.

Definition account_with_last_error (e : option string) (a : EmailAccount)
  : EmailAccount :=
  {| ea_id := ea_id a; ea_user_id := ea_user_id a; ea_email := ea_email a;
     ea_from_name := ea_from_name a; ea_smtp := ea_smtp a; ea_imap := ea_imap a;
     ea_daily_limit := ea_daily_limit a; ea_sends_today := ea_sends_today a;
     ea_warmup_enabled := ea_warmup_enabled a;
     ea_warmup_daily_target := ea_warmup_daily_target a;
     ea_warmup_ramp_days := ea_warmup_ramp_days a;
     ea_warmup_score := ea_warmup_score a;
     ea_warmup_started_at := ea_warmup_started_at a;
     ea_status := ea_status a; ea_signature_html := ea_signature_html a;
     ea_last_error := e; ea_last_sent_at := ea_last_sent_at a |}.

Definition account_with_warmup (score : QArith_base.Q) (st : AccountStatus)
    (a : EmailAccount) : EmailAccount :=
  {| ea_id := ea_id a; ea_user_id := ea_user_id a; ea_email := ea_email a;
     ea_from_name := ea_from_name a; ea_smtp := ea_smtp a; ea_imap := ea_imap a;
     ea_daily_limit := ea_daily_limit a; ea_sends_today := ea_sends_today a;
     ea_warmup_enabled := ea_warmup_enabled a;
     ea_warmup_daily_target := ea_warmup_daily_target a;
     ea_warmup_ramp_days := ea_warmup_ramp_days a;
     ea_warmup_score := score;
     ea_warmup_started_at := ea_warmup_started_at a;
     ea_status := st; ea_signature_html := ea_signature_html a;
     ea_last_error := ea_last_error a; ea_last_sent_at := ea_last_sent_at a |}.

Definition link_with_sends_today (n : Z) (l : CampaignAccount) : CampaignAccount :=
  {| ca_campaign_id := ca_campaign_id l; ca_account_id := ca_account_id l;
     ca_weight := ca_weight l; ca_sends_today := n |}.

Definition cl_with_status (s : LinkStatus) (cl : CampaignLead) : CampaignLead :=
  {| cl_id := cl_id cl; cl_campaign_id := cl_campaign_id cl;
     cl_lead_id := cl_lead_id cl; cl_current_step := cl_current_step cl;
     cl_status := s; cl_last_sent_at := cl_last_sent_at cl;
     cl_next_send_at := cl_next_send_at cl |}.

Definition cl_with_next_send_at (t : option datetime) (cl : CampaignLead)
  : CampaignLead :=
  {| cl_id := cl_id cl; cl_campaign_id := cl_campaign_id cl;
     cl_lead_id := cl_lead_id cl; cl_current_step := cl_current_step cl;
     cl_status := cl_status cl; cl_last_sent_at := cl_last_sent_at cl;
     cl_next_send_at := t |}.

Definition cl_with_progress (step : Z) (sent_at : datetime) (cl : CampaignLead)
  : CampaignLead :=
  {| cl_id := cl_id cl; cl_campaign_id := cl_campaign_id cl;
     cl_lead_id := cl_lead_id cl; cl_current_step := step;
     cl_status := cl_status cl; cl_last_sent_at := Some sent_at;
     cl_next_send_at := cl_next_send_at cl |}.

Definition lead_with_status (s : LeadStatus) (l : Lead) : Lead :=
  {| l_id := l_id l; l_user_id := l_user_id l; l_email := l_email l;
     l_first_name := l_first_name l; l_last_name := l_last_name l;
     l_company := l_company l; l_title := l_title l; l_phone := l_phone l;
     l_website := l_website l; l_city := l_city l; l_state := l_state l;
     l_country := l_country l; l_industry := l_industry l;
     l_status := s; l_custom_fields := l_custom_fields l |}.

Definition campaign_with_status (s : CampaignStatus) (c : Campaign) : Campaign :=
  {| c_id := c_id c; c_user_id := c_user_id c; c_name := c_name c;
     c_status := s; c_rotation_strategy := c_rotation_strategy c;
     c_send_window_start := c_send_window_start c;
     c_send_window_end := c_send_window_end c; c_send_days := c_send_days c |}.

Definition sent_with_replied_at (t : option datetime) (e : SentEmail) : SentEmail :=
  {| se_id := se_id e;
     se_campaign_id := se_campaign_id e; se_lead_id := se_lead_id e;
     se_account_id := se_account_id e; se_step_id := se_step_id e;
     se_message_id := se_message_id e; se_subject := se_subject e;
     se_body_preview := se_body_preview e; se_sent_at := se_sent_at e;
     se_replied_at := t; se_variant_index := se_variant_index e;
     se_tracking_id := se_tracking_id e |}.

(** ** Writing a table back *)

Definition with_email_accounts (l : list EmailAccount) (db : DB) : DB :=
  {| email_accounts := l; campaigns := campaigns db;
     campaign_accounts := campaign_accounts db; steps := steps db;
     leads := leads db; campaign_leads := campaign_leads db;
     sent_emails := sent_emails db; warmup_logs := warmup_logs db;
     unsubscribes := unsubscribes db; bounces := bounces db |}.

Definition with_campaigns (l : list Campaign) (db : DB) : DB :=
  {| email_accounts := email_accounts db; campaigns := l;
     campaign_accounts := campaign_accounts db; steps := steps db;
     leads := leads db; campaign_leads := campaign_leads db;
     sent_emails := sent_emails db; warmup_logs := warmup_logs db;
     unsubscribes := unsubscribes db; bounces := bounces db |}.

Definition with_campaign_accounts (l : list CampaignAccount) (db : DB) : DB :=
  {| email_accounts := email_accounts db; campaigns := campaigns db;
     campaign_accounts := l; steps := steps db;
     leads := leads db; campaign_leads := campaign_leads db;
     sent_emails := sent_emails db; warmup_logs := warmup_logs db;
     unsubscribes := unsubscribes db; bounces := bounces db |}.

Definition with_leads (l : list Lead) (db : DB) : DB :=
  {| email_accounts := email_accounts db; campaigns := campaigns db;
     campaign_accounts := campaign_accounts db; steps := steps db;
     leads := l; campaign_leads := campaign_leads db;
     sent_emails := sent_emails db; warmup_logs := warmup_logs db;
     unsubscribes := unsubscribes db; bounces := bounces db |}.

Definition with_campaign_leads (l : list CampaignLead) (db : DB) : DB :=
  {| email_accounts := email_accounts db; campaigns := campaigns db;
     campaign_accounts := campaign_accounts db; steps := steps db;
     leads := leads db; campaign_leads := l;
     sent_emails := sent_emails db; warmup_logs := warmup_logs db;
     unsubscribes := unsubscribes db; bounces := bounces db |}.

Definition with_sent_emails (l : list SentEmail) (db : DB) : DB :=
  {| email_accounts := email_accounts db; campaigns := campaigns db;
     campaign_accounts := campaign_accounts db; steps := steps db;
     leads := leads db; campaign_leads := campaign_leads db;
     sent_emails := l; warmup_logs := warmup_logs db;
     unsubscribes := unsubscribes db; bounces := bounces db |}.

Definition with_warmup_logs (l : list WarmupLog) (db : DB) : DB :=
  {| email_accounts := email_accounts db; campaigns := campaigns db;
     campaign_accounts := campaign_accounts db; steps := steps db;
     leads := leads db; campaign_leads := campaign_leads db;
     sent_emails := sent_emails db; warmup_logs := l;
     unsubscribes := unsubscribes db; bounces := bounces db |}.

Definition with_unsubscribes (l : list Unsubscribe) (db : DB) : DB :=
  {| email_accounts := email_accounts db; campaigns := campaigns db;
     campaign_accounts := campaign_accounts db; steps := steps db;
     leads := leads db; campaign_leads := campaign_leads db;
     sent_emails := sent_emails db; warmup_logs := warmup_logs db;
     unsubscribes := l; bounces := bounces db |}.

Definition with_bounces (l : list Bounce) (db : DB) : DB :=
  {| email_accounts := email_accounts db; campaigns := campaigns db;
     campaign_accounts := campaign_accounts db; steps := steps db;
     leads := leads db; campaign_leads := campaign_leads db;
     sent_emails := sent_emails db; warmup_logs := warmup_logs db;
     unsubscribes := unsubscribes db; bounces := l |}.

(** ** Session operations *)

(** Flushing the changed attributes of a mapped object issues
    [UPDATE ... WHERE id = ?]: every row selected by [p] is rewritten. *)
Definition update_where {A : Type} (p : A -> bool) (f : A -> A) (l : list A)
  : list A :=
  map (fun x => if p x then f x else x) l.

Definition update_account (id : string) (f : EmailAccount -> EmailAccount)
    (db : DB) : DB :=
  with_email_accounts
    (update_where (fun a => String.eqb (ea_id a) id) f (email_accounts db)) db.

Definition update_cl (id : string) (f : CampaignLead -> CampaignLead)
    (db : DB) : DB :=
  with_campaign_leads
    (update_where (fun c => String.eqb (cl_id c) id) f (campaign_leads db)) db.

Definition update_lead (id : string) (f : Lead -> Lead) (db : DB) : DB :=
  with_leads (update_where (fun l => String.eqb (l_id l) id) f (leads db)) db.

Definition update_campaign (id : string) (f : Campaign -> Campaign) (db : DB) : DB :=
  with_campaigns
    (update_where (fun c => String.eqb (c_id c) id) f (campaigns db)) db.

Definition get_account (id : string) (db : DB) : option EmailAccount :=
  find (fun a => String.eqb (ea_id a) id) (email_accounts db).

Definition get_cl (id : string) (db : DB) : option CampaignLead :=
  find (fun c => String.eqb (cl_id c) id) (campaign_leads db).

Definition get_lead (id : string) (db : DB) : option Lead :=
  find (fun l => String.eqb (l_id l) id) (leads db).

Definition get_campaign (id : string) (db : DB) : option Campaign :=
  find (fun c => String.eqb (c_id c) id) (campaigns db).

End Db.

(* ================================================================== *)
(** * email_sender.py: the transport boundary *)
(* ================================================================== *)

Module Transport.
Import Db.

(** The arguments of one [send_email] call. *)
Record SendRequest := {
  rq_smtp : Smtp;
  rq_from_email : string;
  rq_from_name : option string;
  rq_to_email : string;
  rq_subject : string;
  rq_body_html : string;
  rq_signature_html : string;
  rq_in_reply_to : option string;
  rq_references : option string
}.

(** [(True, message_id)] or [(False, str(e))]. *)
Inductive SendResult :=
| SendOk (message_id : string)
| SendError (error : string).

(** Truth value of an optional string. *)
Definition truthy (m : option string) : bool :=
  match m with
  | Some (String _ _) => true
  | _ => false
  end.

(** The [In-Reply-To] and [References] headers [send_email] writes. *)
Definition threading_headers (rq : SendRequest) : option (string * string) :=
  match rq_in_reply_to rq with
  | Some irt =>
      if truthy (Some irt)
      then Some (irt, if truthy (rq_references rq)
                      then EmailSender.str_or_empty (rq_references rq) else irt)
      else None
  | None => None
  end.

End Transport.

(* ================================================================== *)
(** * campaign_worker.py *)
(* ================================================================== *)

Module CampaignWorker.
Import Db Transport.

(** What one [_send_one] call reads from outside the database. *)
Record SendEnv := {
  pick_uniform : QArith_base.Q;      (* random.uniform(0, total) *)
  pick_choice : nat;                 (* random.choice(accounts) *)
  variant_draw : nat;                (* random.randint(0, len(step.variants)) *)
  subject_draws : nat -> nat;        (* the draws of spintax, subject *)
  body_draws : nat -> nat;           (* the draws of spintax, body *)
  unsub_token : string -> string -> string;   (* create_unsubscribe_token *)
  frontend_url : string;             (* os.getenv("FRONTEND_URL", ...) *)
  transport : SendRequest -> SendResult;      (* send_email *)
  tracking_uuid : string;            (* uuid.uuid4() *)
  now_last_sent : datetime;          (* utcnow() for cl.last_sent_at *)
  now_next_send : datetime;          (* utcnow() for cl.next_send_at *)
  now_account : datetime;            (* utcnow() for account.last_sent_at *)
  now_db : datetime;                 (* func.now() of the inserted row *)
  row_uuid : string                  (* gen_uuid() of the inserted row *)
}.

Definition next_send_due (now : datetime) (cl : CampaignLead) : bool :=
  match cl_next_send_at cl with
  | Some t => (t <=? now)%Z
  | None => false
  end.

Definition campaign_active (c : Campaign) : bool :=
  match c_status c with CampActive => true | _ => false end.

Definition _get_pending_leads (now : datetime) (db : DB)
  : list (CampaignLead * Campaign) :=
  firstn 20
    (flat_map
       (fun cl =>
          map (fun c => (cl, c))
            (filter
               (fun c =>
                  String.eqb (cl_campaign_id cl) (c_id c)
                  && campaign_active c
                  && link_active (cl_status cl)
                  && next_send_due now cl)
               (campaigns db)))
       (campaign_leads db)).

Definition sendable_status (a : EmailAccount) : bool :=
  match ea_status a with
  | AccActive | AccWarming => true
  | _ => false
  end.

Definition eligible (a : EmailAccount) : bool :=
  sendable_status a && (ea_sends_today a <? ea_daily_limit a)%Z.

(** [min(x :: l, key=key)]: the first element with the least key. *)
Fixpoint py_min {A : Type} (key : A -> Z) (x : A) (l : list A) : A :=
  match l with
  | [] => x
  | y :: r => py_min key (if (key y <? key x)%Z then y else x) r
  end.

(** [weights.get(a.id, 1)] where [weights] is the dict built from the
    links: the last link of an account wins. *)
Definition weight_of (links : list CampaignAccount) (id : string) : Z :=
  match find (fun l => String.eqb (ca_account_id l) id) (rev links) with
  | Some l => ca_weight l
  | None => 1%Z
  end.

Fixpoint weighted_draw (r : QArith_base.Q) (cumulative : Z)
    (weighted : list (EmailAccount * Z)) : option EmailAccount :=
  match weighted with
  | [] => None
  | (acc, w) :: rest =>
      let cumulative := (cumulative + w)%Z in
      if QArith_base.Qle_bool r (QArith_base.inject_Z cumulative)
      then Some acc
      else weighted_draw r cumulative rest
  end.

Definition linked_eligible (db : DB) (campaign : Campaign) : list EmailAccount :=
  let links :=
    filter (fun l => String.eqb (ca_campaign_id l) (c_id campaign))
           (campaign_accounts db) in
  let account_ids := map ca_account_id links in
  filter (fun a => existsb (String.eqb (ea_id a)) account_ids && eligible a)
         (email_accounts db).

Definition _pick_account (env : SendEnv) (db : DB) (campaign : Campaign)
  : option EmailAccount :=
  let links :=
    filter (fun l => String.eqb (ca_campaign_id l) (c_id campaign))
           (campaign_accounts db) in
  match links with
  | [] => None
  | _ :: _ =>
      match linked_eligible db campaign with
      | [] => None
      | a0 :: rest =>
          let accounts := a0 :: rest in
          match c_rotation_strategy campaign with
          | RoundRobin => Some (py_min ea_sends_today a0 rest)
          | Weighted =>
              let weighted := map (fun a => (a, weight_of links (ea_id a))) accounts in
              match weighted_draw (pick_uniform env) 0 weighted with
              | Some acc => Some acc
              | None => Some a0
              end
          | RandomChoice =>
              Some (nth (pick_choice env mod List.length accounts) accounts a0)
          end
      end
  end.

Definition is_hard (b : Bounce) : bool :=
  match b_bounce_type b with Hard => true | Soft => false end.

Definition _is_suppressed (db : DB) (user_id email : string) : bool :=
  match find (fun u => String.eqb (u_user_id u) user_id && String.eqb (u_email u) email)
             (unsubscribes db) with
  | Some _ => true
  | None =>
      match find (fun b => String.eqb (b_user_id b) user_id
                           && String.eqb (b_email b) email && is_hard b)
                 (bounces db) with
      | Some _ => true
      | None => false
      end
  end.

Definition find_step (db : DB) (campaign_id : string) (n : Z) : option Step :=
  find (fun s => String.eqb (st_campaign_id s) campaign_id
                 && (st_step_number s =? n)%Z)
       (steps db).

Definition lead_data (lead : Lead) : EmailSender.LeadData :=
  {| EmailSender.ld_first_name := l_first_name lead;
     EmailSender.ld_last_name := l_last_name lead;
     EmailSender.ld_email := Some (l_email lead);
     EmailSender.ld_company := l_company lead;
     EmailSender.ld_title := l_title lead;
     EmailSender.ld_website := l_website lead;
     EmailSender.ld_phone := l_phone lead;
     EmailSender.ld_city := l_city lead;
     EmailSender.ld_state := l_state lead;
     EmailSender.ld_country := l_country lead;
     EmailSender.ld_industry := l_industry lead;
     EmailSender.ld_custom_fields := l_custom_fields lead |}.

Definition sender_data (account : EmailAccount) : EmailSender.SenderData :=
  {| EmailSender.sd_from_name := ea_from_name account;
     EmailSender.sd_email := Some (ea_email account) |}.

(** A/B variant: the index drawn and the two templates chosen. *)
Definition pick_variant (env : SendEnv) (step : Step) : nat * string * string :=
  match st_variants step with
  | [] => (O, st_subject step, st_body step)
  | _ :: _ =>
      let variant_index := variant_draw env mod (List.length (st_variants step) + 1) in
      match variant_index with
      | O => (O, st_subject step, st_body step)
      | S k =>
          match nth_error (st_variants step) k with
          | Some v =>
              (variant_index,
               match v_subject v with Some t => t | None => st_subject step end,
               match v_body v with Some t => t | None => st_body step end)
          | None => (variant_index, st_subject step, st_body step)
          end
      end
  end.

Definition dquote : string := String (ascii_of_nat 34) EmptyString.

Definition unsubscribe_footer (env : SendEnv) (user_id email : string) : string :=
  "<br><br><small style=" ++ dquote ++ "color:#999;" ++ dquote ++ "><a href="
  ++ dquote ++ frontend_url env ++ "/unsubscribe?token="
  ++ unsub_token env user_id email ++ dquote ++ " style=" ++ dquote
  ++ "color:#999;" ++ dquote ++ ">Unsubscribe</a></small>".

Definition same_thread (lead_id campaign_id : string) (e : SentEmail) : bool :=
  String.eqb (se_lead_id e) lead_id && String.eqb (se_campaign_id e) campaign_id.

(** [order_by(SentEmail.sent_at.desc()).first()]; among rows of equal
    [sent_at] the earliest inserted one. *)
Definition most_recent (l : list SentEmail) : option SentEmail :=
  match l with
  | [] => None
  | x :: r =>
      Some (fold_left (fun best y => if (se_sent_at best <? se_sent_at y)%Z
                                     then y else best) r x)
  end.

Fixpoint message_ids (l : list SentEmail) : list string :=
  match l with
  | [] => []
  | e :: r =>
      match se_message_id e with
      | Some m => if truthy (Some m) then m :: message_ids r else message_ids r
      | None => message_ids r
      end
  end.

(** The [(in_reply_to, references)] pair. *)
Definition threading (db : DB) (lead_id campaign_id : string) (next_step_num : Z)
  : option string * option string :=
  if (1 <? next_step_num)%Z then
    let prior := filter (same_thread lead_id campaign_id) (sent_emails db) in
    match most_recent prior with
    | Some prev =>
        if truthy (se_message_id prev)
        then (se_message_id prev, Some (PyStr.join " " (message_ids prior)))
        else (None, None)
    | None => (None, None)
    end
  else (None, None).

(** The rows are in the order of their [sent_at]: each was inserted
    when the database clock had not gone back. *)
Definition chronological (l : list SentEmail) : Prop :=
  StronglySorted (fun a b => (se_sent_at a <= se_sent_at b)%Z) l.

Definition hard_bounce_keywords : list string :=
  ["bounce"; "rejected"; "not exist"; "550"; "551"; "553"].

Definition is_hard_bounce (error : string) : bool :=
  existsb (fun kw => PyStr.contains kw (PyStr.lower error)) hard_bounce_keywords.

Definition on_success (env : SendEnv) (db : DB) (cl : CampaignLead)
    (campaign : Campaign) (lead : Lead) (account : EmailAccount) (step : Step)
    (next_step_num : Z) (variant_index : nat) (subject body message_id : string)
  : DB :=
  let sent :=
    {| se_id := row_uuid env;
       se_campaign_id := c_id campaign; se_lead_id := l_id lead;
       se_account_id := ea_id account; se_step_id := st_id step;
       se_message_id := Some message_id; se_subject := subject;
       se_body_preview := PyStr.take 200 body; se_sent_at := now_db env;
       se_replied_at := None; se_variant_index := variant_index;
       se_tracking_id := Some (tracking_uuid env) |} in
  let next_step := find_step db (c_id campaign) (next_step_num + 1) in
  let progress :=
    match next_step with
    | Some ns =>
        fun r => cl_with_next_send_at
                   (Some (now_next_send env + days (st_delay_days ns))%Z)
                   (cl_with_progress next_step_num (now_last_sent env) r)
    | None =>
        fun r => cl_with_next_send_at None
                   (cl_with_status Completed
                      (cl_with_progress next_step_num (now_last_sent env) r))
    end in
  update_account (ea_id account)
    (account_with_counters (ea_sends_today account + 1) (Some (now_account env)))
    (update_cl (cl_id cl) progress
       (with_sent_emails (sent_emails db ++ [sent]) db)).

Definition on_failure (env : SendEnv) (db : DB) (cl : CampaignLead)
    (campaign : Campaign) (lead : Lead) (account : EmailAccount) (error : string)
  : DB :=
  let db1 :=
    update_account (ea_id account)
      (account_with_last_error (Some (PyStr.take 200 error))) db in
  if is_hard_bounce error then
    let bounce :=
      {| b_user_id := c_user_id campaign; b_email := l_email lead;
         b_bounce_type := Hard; b_bounced_at := now_db env;
         b_campaign_id := Some (c_id campaign) |} in
    update_lead (l_id lead) (lead_with_status LeadBounced)
      (with_bounces (bounces db1 ++ [bounce])
         (update_cl (cl_id cl) (cl_with_status Bounced) db1))
  else db1.

(** Lines 129 to 191 up to the call of [send_email]: the variant index,
    the rendered subject, the body with its footer, and the request. *)
Definition prepare (env : SendEnv) (db : DB) (campaign : Campaign)
    (lead : Lead) (account : EmailAccount) (step : Step) (next_step_num : Z)
  : nat * string * string * SendRequest :=
  let '(variant_index, subject_template, body_template) := pick_variant env step in
  let subject :=
    EmailSender.render_template (subject_draws env) subject_template
      (lead_data lead) (Some (sender_data account)) in
  let body :=
    EmailSender.render_template (body_draws env) body_template
      (lead_data lead) (Some (sender_data account)) in
  let body := body ++ unsubscribe_footer env (c_user_id campaign) (l_email lead) in
  let '(in_reply_to, references) :=
    threading db (l_id lead) (c_id campaign) next_step_num in
  (variant_index, subject, body,
   {| rq_smtp := ea_smtp account;
      rq_from_email := ea_email account;
      rq_from_name := ea_from_name account;
      rq_to_email := l_email lead;
      rq_subject := subject;
      rq_body_html := body;
      rq_signature_html := EmailSender.str_or_empty (ea_signature_html account);
      rq_in_reply_to := in_reply_to;
      rq_references := references |}).

(** [_send_one(db, cl, campaign)]: the database after the call and the
    request handed to [send_email], if one was made.  [cl] and
    [campaign] are the mapped objects, i.e. rows of [db]. *)
Definition _send_one (env : SendEnv) (db : DB) (cl : CampaignLead)
    (campaign : Campaign) : DB * option SendRequest :=
  match get_lead (cl_lead_id cl) db with
  | None => (db, None)
  | Some lead =>
      if _is_suppressed db (c_user_id campaign) (l_email lead) then
        (update_cl (cl_id cl) (cl_with_status Unsubscribed) db, None)
      else
        let next_step_num := (cl_current_step cl + 1)%Z in
        match find_step db (c_id campaign) next_step_num with
        | None => (update_cl (cl_id cl) (cl_with_status Completed) db, None)
        | Some step =>
            match _pick_account env db campaign with
            | None => (db, None)
            | Some account =>
                let '(variant_index, subject, body, request) :=
                  prepare env db campaign lead account step next_step_num in
                match transport env request with
                | SendOk message_id =>
                    (on_success env db cl campaign lead account step
                       next_step_num variant_index subject body message_id,
                     Some request)
                | SendError error =>
                    (on_failure env db cl campaign lead account error,
                     Some request)
                end
            end
        end
  end.

(** ** The loop *)

Definition hour (t : datetime) : Z :=
  ((t mod usec_per_day) / (3600 * usec_per_second))%Z.

Definition minute (t : datetime) : Z :=
  ((t mod (3600 * usec_per_second)) / (60 * usec_per_second))%Z.

Definition date (t : datetime) : Z := (t / usec_per_day)%Z.

(** [now.strftime('%a').lower()[:3]]; 1970-01-01 was a Thursday. *)
Definition weekday (t : datetime) : string :=
  nth (Z.to_nat ((date t + 3) mod 7))
      ["mon"; "tue"; "wed"; "thu"; "fri"; "sat"; "sun"] "mon".

Definition reset_daily_counts (db : DB) : DB :=
  with_campaign_accounts
    (map (link_with_sends_today 0) (campaign_accounts db))
    (with_email_accounts
       (map (fun a => account_with_counters 0 (ea_last_sent_at a) a)
            (email_accounts db))
       db).

Definition at_midnight (now : datetime) : bool :=
  (hour now =? 0)%Z && (minute now =? 0)%Z.

Definition midnight_reset (now : datetime) (db : DB) : DB :=
  if at_midnight now then reset_daily_counts db else db.

Definition in_send_window (now : datetime) (c : Campaign) : bool :=
  (c_send_window_start c <=? hour now)%Z && (hour now <? c_send_window_end c)%Z.

Definition on_send_day (now : datetime) (c : Campaign) : bool :=
  let send_days :=
    if truthy (c_send_days c) then EmailSender.str_or_empty (c_send_days c)
    else "mon,tue,wed,thu,fri" in
  existsb (String.eqb (weekday now)) (PyStr.split ","%char send_days).

(** The inputs of one iteration of [while _worker_running]. *)
Record Iteration := {
  it_now : datetime;              (* utcnow() at the top of the iteration *)
  it_query_now : datetime;        (* utcnow() inside _get_pending_leads *)
  it_running : nat -> bool;       (* _worker_running, read before candidate k *)
  it_env : nat -> SendEnv         (* the environment of candidate k *)
}.

(** The attributes of a mapped object are those of its row. *)
Definition refresh (db : DB) (cl : CampaignLead) : CampaignLead :=
  match get_cl (cl_id cl) db with
  | Some r => r
  | None => cl
  end.

Fixpoint process_pending (it : Iteration) (k : nat)
    (pending : list (CampaignLead * Campaign)) (db : DB)
  : DB * list SendRequest :=
  match pending with
  | [] => (db, [])
  | (cl, campaign) :: rest =>
      if negb (it_running it k) then (db, [])
      else if negb (in_send_window (it_now it) campaign)
      then process_pending it (S k) rest db
      else if negb (on_send_day (it_now it) campaign)
      then process_pending it (S k) rest db
      else
        let '(db1, sent) := _send_one (it_env it k) db (refresh db cl) campaign in
        let '(db2, more) := process_pending it (S k) rest db1 in
        (db2, match sent with Some rq => rq :: more | None => more end)
  end.

Definition worker_iteration (it : Iteration) (db : DB) : DB * list SendRequest :=
  let db := midnight_reset (it_now it) db in
  process_pending it 0 (_get_pending_leads (it_query_now it) db) db.

(** How many of the iterations [its] that start on day [d] perform the
    reset. *)
Definition resets_on_day (d : Z) (its : list Iteration) : nat :=
  List.length
    (filter (fun it => (date (it_now it) =? d)%Z && at_midnight (it_now it)) its).

(** Successive iterations of the loop. *)
Fixpoint _worker_loop (its : list Iteration) (db : DB) : DB :=
  match its with
  | [] => db
  | it :: rest => _worker_loop rest (fst (worker_iteration it db))
  end.

End CampaignWorker.

(* ================================================================== *)
(** * warmup_worker.py *)
(* ================================================================== *)

Module WarmupWorker.
Import Db Transport.

Definition WARMUP_SUBJECTS : list string :=
  [ "Quick question about our meeting"; "Following up on last week";
    "Re: Project update"; "Can you review this?";
    "Thanks for sending that over"; "Checking in";
    "Are we still on for Thursday?"; "FYI - updated the document";
    "Re: Schedule change"; "Got a minute?" ].

Definition WARMUP_BODIES : list string :=
  [ "Hey, just wanted to follow up on our conversation. Let me know your thoughts when you get a chance!";
    "Thanks for getting back to me. I'll review and send my feedback by EOD.";
    "Sounds good! I'll loop in the team and we can discuss next steps.";
    "Great, I've updated the spreadsheet with the latest numbers. Take a look when you get a chance.";
    "Perfect, let's plan to meet next week. What day works best for you?";
    "Just checking in on this. Any updates on your end?";
    "Appreciate the quick response. I'll get back to you shortly.";
    "Noted. I'll make the changes and share the updated version tomorrow." ].

Definition WARMUP_REPLIES : list string :=
  [ "Sounds good, thanks!"; "Got it, will do!"; "Thanks for the update!";
    "Perfect, I'll take a look."; "Appreciated! Talk soon.";
    "Great, looking forward to it!"; "Will check and get back to you.";
    "Thanks! See you then." ].

(** [x or d] on a nullable integer column. *)
Definition or_default (x : option Z) (d : Z) : Z :=
  match x with
  | None => d
  | Some v => if (v =? 0)%Z then d else v
  end.

(** [(now - started).days] *)
Definition days_between (now started : datetime) : Z :=
  ((now - started) / usec_per_day)%Z.

Definition _calc_daily_target (now : datetime) (account : EmailAccount) : Z :=
  match ea_warmup_started_at account with
  | None => 2%Z
  | Some started =>
      let days_warming := days_between now started in
      let target := or_default (ea_warmup_daily_target account) 40 in
      let ramp_days := or_default (ea_warmup_ramp_days account) 30 in
      if (days_warming <=? 3)%Z then 2%Z
      else if (days_warming <=? 7)%Z then 5%Z
      else if (days_warming <=? 14)%Z then 10%Z
      else if (days_warming <=? 21)%Z then 20%Z
      else if (days_warming <=? ramp_days)%Z then Z.min 30 target
      else target
  end.

(** One unread message returned by [fetch_replies]. *)
Record Reply := {
  rp_from_email : string;
  rp_subject : string;
  rp_message_id : option string
}.

(** What the iteration for one account reads from outside the database. *)
Record AccountEnv := {
  w_now_target : datetime;        (* utcnow() in _calc_daily_target *)
  w_now_today : datetime;         (* utcnow() for today_start *)
  w_shuffle : list EmailAccount -> list EmailAccount;   (* random.shuffle *)
  w_subject_draw : nat -> nat;    (* random.choice(WARMUP_SUBJECTS), send k *)
  w_body_draw : nat -> nat;       (* random.choice(WARMUP_BODIES), send k *)
  w_transport : nat -> SendRequest -> SendResult;       (* send_email, send k *)
  w_log_now : nat -> datetime;    (* func.now() of the k-th WarmupLog *)
  w_replies : list Reply;         (* fetch_replies *)
  w_coin : nat -> bool;           (* random.random() < 0.5, reply j *)
  w_reply_draw : nat -> nat       (* random.choice(WARMUP_REPLIES), reply j *)
}.

(** [now.replace(hour=0, minute=0, second=0)]: the microseconds stay. *)
Definition today_start (now : datetime) : datetime :=
  (now - now mod usec_per_day + now mod usec_per_second)%Z.

Definition count {A : Type} (p : A -> bool) (l : list A) : Z :=
  Z.of_nat (List.length (filter p l)).

Definition sent_since (db : DB) (id : string) (since : datetime) : Z :=
  count (fun w => String.eqb (wl_sender_account_id w) id
                  && (since <=? wl_sent_at w)%Z)
        (warmup_logs db).

Definition warmup_request (account target : EmailAccount) (subject body : string)
  : SendRequest :=
  {| rq_smtp := ea_smtp account; rq_from_email := ea_email account;
     rq_from_name := ea_from_name account; rq_to_email := ea_email target;
     rq_subject := subject; rq_body_html := "<p>" ++ body ++ "</p>";
     rq_signature_html := EmptyString;
     rq_in_reply_to := None; rq_references := None |}.

(** The attributes of a mapped object are those of its row. *)
Definition refresh (db : DB) (a : EmailAccount) : EmailAccount :=
  match get_account (ea_id a) db with
  | Some r => r
  | None => a
  end.

(** The [for target in targets] loop. *)
Fixpoint send_to_targets (env : AccountEnv) (k : nat) (account : EmailAccount)
    (targets : list EmailAccount) (db : DB) : DB * list SendRequest :=
  match targets with
  | [] => (db, [])
  | target :: rest =>
      let subject := nth (w_subject_draw env k mod List.length WARMUP_SUBJECTS)
                         WARMUP_SUBJECTS EmptyString in
      let body := nth (w_body_draw env k mod List.length WARMUP_BODIES)
                      WARMUP_BODIES EmptyString in
      let rq := warmup_request (refresh db account) target subject body in
      let db1 :=
        match w_transport env k rq with
        | SendOk _ =>
            let log :=
              {| wl_sender_account_id := ea_id account;
                 wl_receiver_account_id := ea_id target;
                 wl_direction := "sent"; wl_sent_at := w_log_now env k;
                 wl_replied_at := None |} in
            let cur := refresh db account in
            update_account (ea_id account)
              (account_with_counters (ea_sends_today cur + 1) (ea_last_sent_at cur))
              (with_warmup_logs (warmup_logs db ++ [log]) db)
        | SendError _ => db
        end in
      let '(db2, more) := send_to_targets env (S k) account rest db1 in
      (db2, rq :: more)
  end.

(** The receive side writes nothing to the database; these are the
    replies it sends. *)
Fixpoint receive_side (env : AccountEnv) (j : nat) (account : EmailAccount)
    (replies : list Reply) (db : DB) : list SendRequest :=
  match replies with
  | [] => []
  | reply :: rest =>
      let sender :=
        find (fun a => String.eqb (ea_email a) (rp_from_email reply)
                       && ea_warmup_enabled a)
             (email_accounts db) in
      match sender with
      | Some _ =>
          if w_coin env j then
            let reply_body := nth (w_reply_draw env j mod List.length WARMUP_REPLIES)
                                  WARMUP_REPLIES EmptyString in
            {| rq_smtp := ea_smtp account; rq_from_email := ea_email account;
               rq_from_name := ea_from_name account;
               rq_to_email := rp_from_email reply;
               rq_subject := "Re: " ++ rp_subject reply;
               rq_body_html := "<p>" ++ reply_body ++ "</p>";
               rq_signature_html := EmptyString;
               rq_in_reply_to := rp_message_id reply;
               rq_references := None |}
            :: receive_side env (S j) account rest db
          else receive_side env (S j) account rest db
      | None => receive_side env (S j) account rest db
      end
  end.

(** [min(100, (total_replied / max(total_sent, 1)) * 100 + total_sent * 0.5)],
    computed on rationals in place of binary floats. *)
Definition score (total_sent total_replied : Z) : QArith_base.Q :=
  let v :=
    QArith_base.Qplus
      (QArith_base.Qmult
         (QArith_base.Qdiv (QArith_base.inject_Z total_replied)
                           (QArith_base.inject_Z (Z.max total_sent 1)))
         (QArith_base.inject_Z 100))
      (QArith_base.Qmult (QArith_base.inject_Z total_sent)
                         (QArith_base.Qmake 1 2)) in
  if QArith_base.Qle_bool (QArith_base.inject_Z 100) v
  then QArith_base.inject_Z 100 else v.

Definition remaining (env : AccountEnv) (db : DB) (account : EmailAccount) : Z :=
  (_calc_daily_target (w_now_target env) account
   - sent_since db (ea_id account) (today_start (w_now_today env)))%Z.

(** The body of [for account in accounts]. *)
Definition warmup_account (env : AccountEnv) (accounts : list EmailAccount)
    (account : EmailAccount) (db : DB) : DB * list SendRequest :=
  let account := refresh db account in
  let remaining := remaining env db account in
  if (remaining <=? 0)%Z then (db, [])
  else
    let targets :=
      filter (fun a => negb (String.eqb (ea_id a) (ea_id account))) accounts in
    let targets :=
      firstn (Z.to_nat (Z.min remaining 3)) (w_shuffle env targets) in
    let '(db1, sent) := send_to_targets env 0 account targets db in
    let replies := receive_side env 0 (refresh db1 account) (w_replies env) db1 in
    let total_sent :=
      count (fun w => String.eqb (wl_sender_account_id w) (ea_id account))
            (warmup_logs db1) in
    let total_replied :=
      count (fun w => String.eqb (wl_receiver_account_id w) (ea_id account)
                      && match wl_replied_at w with Some _ => true | None => false end)
            (warmup_logs db1) in
    let cur := refresh db1 account in
    let new_score :=
      if (0 <? total_sent)%Z then score total_sent total_replied
      else ea_warmup_score cur in
    let new_status := if ea_warmup_enabled cur then AccWarming else AccActive in
    (update_account (ea_id account) (account_with_warmup new_score new_status) db1,
     (sent ++ replies)%list).

Definition in_pool (a : EmailAccount) : bool :=
  ea_warmup_enabled a
  && match ea_status a with AccActive | AccWarming => true | _ => false end.

Fixpoint warmup_accounts (envs : nat -> AccountEnv) (i : nat)
    (accounts todo : list EmailAccount) (db : DB) : DB * list SendRequest :=
  match todo with
  | [] => (db, [])
  | account :: rest =>
      let '(db1, out) := warmup_account (envs i) accounts account db in
      let '(db2, more) := warmup_accounts envs (S i) accounts rest db1 in
      (db2, (out ++ more)%list)
  end.

Definition _warmup_cycle (envs : nat -> AccountEnv) (db : DB)
  : DB * list SendRequest :=
  let accounts := filter in_pool (email_accounts db) in
  if (List.length accounts <? 2)%nat then (db, [])
  else warmup_accounts envs 0 accounts accounts db.

(** What the sends of the turn of account [id] may change: they append
    logs whose sender is [id], leave every other account's row alone, and
    keep the [warmup_enabled] flag of the account's own row. *)
Definition own_turn (id : string) (db db' : DB) : Prop :=
  (exists new, warmup_logs db' = (warmup_logs db ++ new)%list
               /\ Forall (fun w => wl_sender_account_id w = id) new)
  /\ (forall id', id' <> id -> get_account id' db' = get_account id' db)
  /\ (forall row, get_account id db = Some row ->
        exists row', get_account id db' = Some row'
                     /\ ea_warmup_enabled row' = ea_warmup_enabled row).

End WarmupWorker.

(* ================================================================== *)
(** * routes: the handlers that write campaign leads *)
(* ================================================================== *)

Module Routes.
Import Db.

(** routes/inbox.py, [sync_inbox], lines 152 to 169: the writes for a
    reply that is not skipped, given its [In-Reply-To]. *)
Definition match_reply (now : datetime) (in_reply_to : string) (db : DB) : DB :=
  match in_reply_to with
  | EmptyString => db
  | _ =>
      let is_it := fun e =>
        match se_message_id e with
        | Some m => String.eqb m in_reply_to
        | None => false
        end in
      match find is_it (sent_emails db) with
      | None => db
      | Some sent =>
          let db1 :=
            with_sent_emails
              (update_where (fun e => String.eqb (se_id e) (se_id sent))
                 (sent_with_replied_at (Some now)) (sent_emails db))
              db in
          match find (fun c => String.eqb (cl_campaign_id c) (se_campaign_id sent)
                               && String.eqb (cl_lead_id c) (se_lead_id sent))
                     (campaign_leads db1) with
          | Some cl => update_cl (cl_id cl) (cl_with_status Replied) db1
          | None => db1
          end
      end
  end.

(** The SentEmail that lines 156 to 158 find for [in_reply_to]. *)
Definition matched_email (in_reply_to : string) (db : DB) : option SentEmail :=
  match in_reply_to with
  | EmptyString => None
  | _ =>
      find (fun e => match se_message_id e with
                     | Some m => String.eqb m in_reply_to
                     | None => false
                     end)
           (sent_emails db)
  end.

(** A row of [inbox_messages] (db.py, [InboxMessage]). *)
Record InboxMessage := {
  im_id : string;
  im_account_id : string;
  im_campaign_id : option string;
  im_lead_id : option string;
  im_from_email : string;
  im_subject : string;
  im_body : string;
  im_received_at : datetime;
  im_is_read : bool;
  im_label : string;
  im_thread_id : string;
  im_message_id_header : string
}.

(** One dict of the list [fetch_replies] returns; a missing header is the
    empty string. *)
Record Reply := {
  r_from_email : string;
  r_subject : string;
  r_body : string;
  r_message_id : string;
  r_in_reply_to : string
}.

(** What the handling of one reply reads from outside the database. *)
Record ReplyEnv := {
  re_now : datetime;          (* utcnow() for sent.replied_at *)
  re_row_uuid : string;       (* gen_uuid() of the inserted row *)
  re_now_db : datetime        (* func.now() of the inserted row *)
}.

(** Lines 144 to 148, on the rows of [inbox_messages] the query sees. *)
Definition already_stored (stored : list InboxMessage) (account_id : string)
    (reply : Reply) : bool :=
  existsb (fun m => String.eqb (im_account_id m) account_id
                    && String.eqb (im_from_email m) (r_from_email reply)
                    && String.eqb (im_subject m) (r_subject reply))
          stored.

(** The body of [for reply in replies], lines 143 to 182.  [stored] is
    the table as the queries see it: the session does not flush before a
    query, so the rows added earlier in the request, [fst st], are not in
    it.  The assignments to mapped objects reach the rows at the commit;
    no query of the request filters on a column they change. *)
Definition sync_reply (env : ReplyEnv) (account_id : string)
    (stored : list InboxMessage) (reply : Reply)
    (st : list InboxMessage * DB) : list InboxMessage * DB :=
  if already_stored stored account_id reply then st
  else
    let sent := matched_email (r_in_reply_to reply) (snd st) in
    let msg :=
      {| im_id := re_row_uuid env;
         im_account_id := account_id;
         im_campaign_id := option_map se_campaign_id sent;
         im_lead_id := option_map se_lead_id sent;
         im_from_email := r_from_email reply;
         im_subject := r_subject reply;
         im_body := r_body reply;
         im_received_at := re_now_db env;
         im_is_read := false;
         im_label := "none";
         im_thread_id :=
           match r_in_reply_to reply with
           | EmptyString => r_message_id reply
           | irt => irt
           end;
         im_message_id_header := r_message_id reply |} in
    ((fst st ++ [msg])%list,
     match_reply (re_now env) (r_in_reply_to reply) (snd st)).

(** [for reply in replies]; [k] numbers the replies of the request. *)
Fixpoint sync_replies (envs : nat -> ReplyEnv) (k : nat) (account_id : string)
    (stored : list InboxMessage) (replies : list Reply)
    (st : list InboxMessage * DB) : list InboxMessage * DB :=
  match replies with
  | [] => st
  | reply :: rest =>
      sync_replies envs (S k) account_id stored rest
        (sync_reply (envs k) account_id stored reply st)
  end.

(** [for account in accounts]; [fetch_replies] swallows its own
    exceptions and returns what it has read. *)
Fixpoint sync_accounts (fetch_replies : EmailAccount -> list Reply)
    (envs : nat -> ReplyEnv) (k : nat) (stored : list InboxMessage)
    (accounts : list EmailAccount) (st : list InboxMessage * DB)
  : list InboxMessage * DB :=
  match accounts with
  | [] => st
  | account :: rest =>
      sync_accounts fetch_replies envs
        (k + List.length (fetch_replies account)) stored rest
        (sync_replies envs k (ea_id account) stored (fetch_replies account) st)
  end.

(** routes/inbox.py, [sync_inbox]: the [inbox_messages] table and the
    database after the request. *)
Definition sync_inbox (fetch_replies : EmailAccount -> list Reply)
    (envs : nat -> ReplyEnv) (user_id : string)
    (inbox : list InboxMessage) (db : DB) : list InboxMessage * DB :=
  let accounts :=
    filter (fun a => String.eqb (ea_user_id a) user_id
                     && CampaignWorker.sendable_status a)
           (email_accounts db) in
  let '(added, db') := sync_accounts fetch_replies envs 0 inbox accounts ([], db) in
  ((inbox ++ added)%list, db').

(** routes/leads.py, [public_unsubscribe], after the token is decoded. *)
Definition public_unsubscribe (user_id email : string) (db : DB) : DB :=
  let db1 :=
    match find (fun u => String.eqb (u_user_id u) user_id
                         && String.eqb (u_email u) email)
               (unsubscribes db) with
    | Some _ => db
    | None =>
        with_unsubscribes
          (unsubscribes db
           ++ [{| u_user_id := user_id; u_email := email; u_source := "link" |}])
          db
    end in
  match find (fun l => String.eqb (l_user_id l) user_id
                       && String.eqb (l_email l) email)
             (leads db1) with
  | None => db1
  | Some lead =>
      with_campaign_leads
        (update_where (fun c => String.eqb (cl_lead_id c) (l_id lead))
           (cl_with_status Unsubscribed)
           (campaign_leads (update_lead (l_id lead)
                              (lead_with_status LeadUnsubscribed) db1)))
        (update_lead (l_id lead) (lead_with_status LeadUnsubscribed) db1)
  end.

Definition owned_campaign (db : DB) (user_id campaign_id : string)
  : option Campaign :=
  find (fun c => String.eqb (c_id c) campaign_id && String.eqb (c_user_id c) user_id)
       (campaigns db).

(** routes/campaigns.py, [start_campaign]; a raised HTTPException leaves
    the database as it was. *)
Definition start_campaign (now : datetime) (user_id campaign_id : string)
    (db : DB) : DB :=
  match owned_campaign db user_id campaign_id with
  | None => db
  | Some campaign =>
      let has_steps :=
        existsb (fun s => String.eqb (st_campaign_id s) (c_id campaign)) (steps db) in
      let has_accounts :=
        existsb (fun l => String.eqb (ca_campaign_id l) (c_id campaign))
                (campaign_accounts db) in
      let has_leads :=
        existsb (fun c => String.eqb (cl_campaign_id c) (c_id campaign)
                          && link_active (cl_status c))
                (campaign_leads db) in
      if has_steps && has_accounts && has_leads then
        update_campaign (c_id campaign) (campaign_with_status CampActive)
          (with_campaign_leads
             (update_where
                (fun c => String.eqb (cl_campaign_id c) (c_id campaign)
                          && link_active (cl_status c)
                          && (cl_current_step c =? 0)%Z)
                (cl_with_next_send_at (Some now))
                (campaign_leads db))
             db)
      else db
  end.

(** routes/campaigns.py, [pause_campaign]. *)
Definition pause_campaign (user_id campaign_id : string) (db : DB) : DB :=
  match owned_campaign db user_id campaign_id with
  | None => db
  | Some campaign =>
      update_campaign (c_id campaign) (campaign_with_status CampPaused) db
  end.

(** routes/leads.py, [add_leads_to_campaign]: the enrolment of one
    resolved lead; [new_id] is the [gen_uuid()] default of the row, and
    the primary key refuses an id that is in use. *)
Definition enrol (new_id campaign_id lead_id : string) (db : DB) : DB :=
  if existsb (fun c => String.eqb (cl_campaign_id c) campaign_id
                       && String.eqb (cl_lead_id c) lead_id)
             (campaign_leads db)
  then db
  else if existsb (fun c => String.eqb (cl_id c) new_id) (campaign_leads db)
  then db
  else
    with_campaign_leads
      (campaign_leads db
       ++ [{| cl_id := new_id; cl_campaign_id := campaign_id;
              cl_lead_id := lead_id; cl_current_step := 0;
              cl_status := Active; cl_last_sent_at := None;
              cl_next_send_at := None |}])
      db.

(** routes/leads.py, [remove_lead_from_campaign]. *)
Definition remove_lead_from_campaign (user_id campaign_id lead_id : string)
    (db : DB) : DB :=
  match owned_campaign db user_id campaign_id with
  | None => db
  | Some _ =>
      match find (fun c => String.eqb (cl_campaign_id c) campaign_id
                           && String.eqb (cl_lead_id c) lead_id)
                 (campaign_leads db) with
      | Some cl =>
          with_campaign_leads
            (filter (fun c => negb (String.eqb (cl_id c) (cl_id cl)))
                    (campaign_leads db))
            db
      | None => db
      end
  end.

End Routes.

(* ================================================================== *)
(** * The operations that run against the shared database *)
(* ================================================================== *)

Module Platform.
Import Db.

(** The shared tables and what the dispatch loop holds between two turns
    of its [for] loop: the pairs of the batch it fetched that are still to
    be handled, and the [now] it read when the iteration started. *)
Record State := {
  s_db : DB;
  s_inbox : list Routes.InboxMessage;
  s_batch : list (CampaignLead * Campaign);
  s_now : datetime
}.

(** What may happen next.  The loop fetches its batch once per iteration
    and sleeps 30 to 90 seconds after every send, so requests of the API
    and warmup sends fall between its turns.  The warmup worker sleeps
    between its sends too: [WarmupTurn] is the turn of one account, with
    the pool the cycle read when it started, [WarmupCycle] a whole cycle
    that nothing interrupts. *)
Inductive Op :=
| WorkerFetch (now query_now : datetime)
| WorkerTurn (running : bool) (env : CampaignWorker.SendEnv)
| WarmupCycle (envs : nat -> WarmupWorker.AccountEnv)
| WarmupTurn (env : WarmupWorker.AccountEnv) (pool : list EmailAccount)
             (account : EmailAccount)
| SyncInbox (fetch_replies : EmailAccount -> list Routes.Reply)
            (envs : nat -> Routes.ReplyEnv) (user_id : string)
| PublicUnsubscribe (user_id email : string)
| StartCampaign (now : datetime) (user_id campaign_id : string)
| PauseCampaign (user_id campaign_id : string)
| Enrol (new_id campaign_id lead_id : string)
| RemoveLead (user_id campaign_id lead_id : string).

Definition with_db (db : DB) (st : State) : State :=
  {| s_db := db; s_inbox := s_inbox st; s_batch := s_batch st; s_now := s_now st |}.

Definition with_batch (batch : list (CampaignLead * Campaign)) (st : State) : State :=
  {| s_db := s_db st; s_inbox := s_inbox st; s_batch := batch; s_now := s_now st |}.

(** The pair that a turn of the [for] loop hands to [_send_one]: the head
    of the batch, when the loop has not been stopped and the campaign is
    inside its send window and send days. *)
Definition dispatched (op : Op) (st : State) : option (CampaignLead * Campaign) :=
  match op with
  | WorkerTurn running env =>
      match s_batch st with
      | [] => None
      | (cl, campaign) :: _ =>
          if running
             && CampaignWorker.in_send_window (s_now st) campaign
             && CampaignWorker.on_send_day (s_now st) campaign
          then Some (CampaignWorker.refresh (s_db st) cl, campaign)
          else None
      end
  | _ => None
  end.

Definition apply_op (op : Op) (st : State) : State :=
  match op with
  | WorkerFetch now query_now =>
      let db := CampaignWorker.midnight_reset now (s_db st) in
      {| s_db := db; s_inbox := s_inbox st;
         s_batch := CampaignWorker._get_pending_leads query_now db;
         s_now := now |}
  | WorkerTurn running env =>
      match s_batch st with
      | [] => st
      | _ :: rest =>
          if negb running then with_batch [] st
          else
            match dispatched op st with
            | Some (cl, campaign) =>
                with_batch rest
                  (with_db (fst (CampaignWorker._send_one env (s_db st) cl campaign)) st)
            | None => with_batch rest st
            end
      end
  | WarmupCycle envs => with_db (fst (WarmupWorker._warmup_cycle envs (s_db st))) st
  | WarmupTurn env pool account =>
      with_db (fst (WarmupWorker.warmup_account env pool account (s_db st))) st
  | SyncInbox fetch_replies envs user_id =>
      let '(inbox, db) :=
        Routes.sync_inbox fetch_replies envs user_id (s_inbox st) (s_db st) in
      {| s_db := db; s_inbox := inbox; s_batch := s_batch st; s_now := s_now st |}
  | PublicUnsubscribe u e => with_db (Routes.public_unsubscribe u e (s_db st)) st
  | StartCampaign now u c => with_db (Routes.start_campaign now u c (s_db st)) st
  | PauseCampaign u c => with_db (Routes.pause_campaign u c (s_db st)) st
  | Enrol n c l => with_db (Routes.enrol n c l (s_db st)) st
  | RemoveLead u c l =>
      with_db (Routes.remove_lead_from_campaign u c l (s_db st)) st
  end.

Definition run (ops : list Op) (st : State) : State :=
  fold_left (fun s op => apply_op op s) ops st.

(** The turns of one iteration of the loop, with nothing in between. *)
Definition turns_of (it : CampaignWorker.Iteration) (n : nat) : list Op :=
  map (fun k => WorkerTurn (CampaignWorker.it_running it k) (CampaignWorker.it_env it k))
      (seq 0 n).

(** The database clock read at successive turns never goes back, and was
    not before [t] at the first. *)
Fixpoint clock_never_back (t : datetime) (ops : list Op) : Prop :=
  match ops with
  | [] => True
  | WorkerTurn _ env :: rest =>
      (t <= CampaignWorker.now_db env)%Z
      /\ clock_never_back (CampaignWorker.now_db env) rest
  | _ :: rest => clock_never_back t rest
  end.

(** [gen_uuid()] never returns [id] again. *)
Definition never_reissued (id : string) (op : Op) : Prop :=
  match op with
  | Enrol new_id _ _ => new_id <> id
  | _ => True
  end.

(** Every row of [campaign_leads] with primary key [id] is in a
    status other than [active]. *)
Definition terminal (id : string) (db : DB) : Prop :=
  forall r, In r (campaign_leads db) -> cl_id r = id -> cl_status r <> Active.

(** Row by row, the primary key is kept and no row becomes [active]
    that was not. *)
Definition keeps_terminal (l l' : list CampaignLead) : Prop :=
  Forall2 (fun r r' => cl_id r' = cl_id r
                       /\ (cl_status r' = Active -> cl_status r = Active)) l l'.

End Platform.

(* ================================================================== *)
(** * Predicates on the database used by the properties below *)
(* ================================================================== *)

Module Invariants.
Import Db.

(** Every account has a non-negative [daily_limit] and has not sent more
    than it today. *)
Definition within_limits (db : DB) : Prop :=
  forall a, In a (email_accounts db) ->
            (0 <= ea_daily_limit a)%Z /\ (ea_sends_today a <= ea_daily_limit a)%Z.

(** The primary key of [email_accounts]. *)
Definition distinct_accounts (db : DB) : Prop :=
  NoDup (map ea_id (email_accounts db)).

(** No lead is enrolled twice in a campaign. *)
Definition enrolled_once (db : DB) : Prop :=
  NoDup (map (fun c => (cl_campaign_id c, cl_lead_id c)) (campaign_leads db)).

(** From [db] to [db'] only the warmup log has grown and only rows of
    [email_accounts] were rewritten, each keeping its primary key. *)
Definition only_warmup_written (db db' : DB) : Prop :=
  campaigns db' = campaigns db
  /\ campaign_accounts db' = campaign_accounts db
  /\ steps db' = steps db
  /\ leads db' = leads db
  /\ campaign_leads db' = campaign_leads db
  /\ sent_emails db' = sent_emails db
  /\ unsubscribes db' = unsubscribes db
  /\ bounces db' = bounces db
  /\ map ea_id (email_accounts db') = map ea_id (email_accounts db)
  /\ exists new, warmup_logs db' = (warmup_logs db ++ new)%list.

End Invariants.

(* ================================================================== *)
(** * routes/steps.py: reorder_step *)
(* ================================================================== *)

Module StepRoutes.
Import Db.
Local Open Scope Z_scope.

Definition step_with_number (n : Z) (s : Step) : Step :=
  {| st_id := st_id s; st_campaign_id := st_campaign_id s; st_step_number := n;
     st_delay_days := st_delay_days s; st_subject := st_subject s;
     st_body := st_body s; st_variants := st_variants s |}.

Definition with_steps (l : list Step) (db : DB) : DB :=
  {| email_accounts := email_accounts db; campaigns := campaigns db;
     campaign_accounts := campaign_accounts db; steps := l;
     leads := leads db; campaign_leads := campaign_leads db;
     sent_emails := sent_emails db; warmup_logs := warmup_logs db;
     unsubscribes := unsubscribes db; bounces := bounces db |}.

(** [db.query(Step).join(Campaign).filter(Step.id == step_id,
    Campaign.user_id == user.id).first()] *)
Definition owned_step (db : DB) (user_id step_id : string) : option Step :=
  find (fun s => String.eqb (st_id s) step_id
                 && existsb (fun c => String.eqb (c_id c) (st_campaign_id s)
                                      && String.eqb (c_user_id c) user_id)
                            (campaigns db))
       (steps db).

(** [db.query(Step).filter(Step.campaign_id == campaign_id)], in table
    order. *)
Definition campaign_steps (campaign_id : string) (db : DB) : list Step :=
  filter (fun s => String.eqb (st_campaign_id s) campaign_id) (steps db).

(** [l.insert(i, x)] for [i >= 0]: past the end it appends. *)
Fixpoint list_insert {A : Type} (i : nat) (x : A) (l : list A) : list A :=
  match i, l with
  | O, _ => x :: l
  | S _, [] => [x]
  | S k, y :: r => y :: list_insert k x r
  end.

(** [for i, s in enumerate(all_steps): s.step_number = i + 1], each
    assignment flushed as an [UPDATE ... WHERE id = ?]; [i] is the index
    of the head of [ordered]. *)
Fixpoint renumber (i : Z) (ordered rows : list Step) : list Step :=
  match ordered with
  | [] => rows
  | s :: rest =>
      renumber (i + 1) rest
        (update_where (fun r => String.eqb (st_id r) (st_id s))
           (step_with_number (i + 1)) rows)
  end.

Section OrderBy.

(** The result of [order_by(Step.step_number)]; the database chooses the
    order of rows with equal numbers. *)
Variable order_by_step_number : list Step -> list Step.

(** [reorder_step]; [None] is the 404 answer. *)
Definition reorder_step (user_id step_id : string) (new_position : Z) (db : DB)
  : option DB :=
  match owned_step db user_id step_id with
  | None => None
  | Some step =>
      let all_steps :=
        order_by_step_number (campaign_steps (st_campaign_id step) db) in
      let all_steps :=
        filter (fun s => negb (String.eqb (st_id s) (st_id step))) all_steps in
      let all_steps :=
        list_insert (Z.to_nat (Z.max 0 (new_position - 1))) step all_steps in
      Some (with_steps (renumber 0 all_steps (steps db)) db)
  end.

End OrderBy.

(** What [ORDER BY step_number] guarantees of its result. *)
Definition sorts_by_step_number (order_by : list Step -> list Step) : Prop :=
  forall l,
    Permutation (order_by l) l
    /\ StronglySorted (fun a b => st_step_number a <= st_step_number b) (order_by l).

(** One such order: rows with equal numbers stay in table order. *)
Fixpoint insert_sorted (s : Step) (l : list Step) : list Step :=
  match l with
  | [] => [s]
  | x :: r =>
      if st_step_number s <? st_step_number x then s :: l
      else x :: insert_sorted s r
  end.

Definition table_order (l : list Step) : list Step :=
  fold_right insert_sorted [] l.

(** Index of the first occurrence of [id] in [ids]. *)
Fixpoint position (id : string) (ids : list string) : option nat :=
  match ids with
  | [] => None
  | x :: r => if String.eqb x id then Some O else option_map S (position id r)
  end.

(** [id1] occurs in [ids], and [id2] after it. *)
Definition before (id1 id2 : string) (ids : list string) : Prop :=
  exists j1 j2,
    position id1 ids = Some j1 /\ position id2 ids = Some j2 /\ (j1 < j2)%nat.

(** The row [r] once the rows listed in [ordered] have been numbered from
    [i + 1] on. *)
Definition renumbered (i : Z) (ordered : list Step) (r : Step) : Step :=
  match position (st_id r) (map st_id ordered) with
  | Some k => step_with_number (i + Z.of_nat k + 1) r
  | None => r
  end.

End StepRoutes.

(* ================================================================== *)
(** * Predicates on text used by the rendering properties *)
(* ================================================================== *)

Module Chars.

(** Every character of [s] satisfies [p]. *)
Fixpoint all_chars (p : ascii -> bool) (s : string) : bool :=
  match s with
  | EmptyString => true
  | String c r => p c && all_chars p r
  end.

(** The character [a] does not occur in [s]. *)
Definition free_of (a : ascii) (s : string) : bool :=
  all_chars (fun c => negb (Ascii.eqb c a)) s.

(** The characters below U+0100 for which [str.isspace] holds, by code
    point. *)
Definition python_space (c : ascii) : bool :=
  existsb (Nat.eqb (nat_of_ascii c)) [9; 10; 11; 12; 13; 28; 29; 30; 31; 32; 133; 160]%nat.

End Chars.

(* ================================================================== *)
(** * Concrete rows used by the examples *)
(* ================================================================== *)

Module Fixtures.
Import EmailSender Db.

Definition smtp0 : Smtp :=
  {| smtp_host := "smtp.x.io"; smtp_port := 587;
     smtp_username := "out"; smtp_password_encrypted := "gAAAA" |}.

Definition imap0 : Imap :=
  {| imap_host := "imap.x.io"; imap_port := 993;
     imap_username := "out"; imap_password_encrypted := "gAAAA" |}.

(** An account of user [u1] with the column defaults of db.py. *)
Definition account (id : string) (status : AccountStatus) (sends limit : Z)
    (warmup : bool) (started : option datetime) : EmailAccount :=
  {| ea_id := id; ea_user_id := "u1"; ea_email := id ++ "@x.io";
     ea_from_name := Some "Out Reach"; ea_smtp := smtp0; ea_imap := imap0;
     ea_daily_limit := limit; ea_sends_today := sends;
     ea_warmup_enabled := warmup; ea_warmup_daily_target := Some 40%Z;
     ea_warmup_ramp_days := Some 30%Z;
     ea_warmup_score := QArith_base.inject_Z 0;
     ea_warmup_started_at := started; ea_status := status;
     ea_signature_html := Some EmptyString; ea_last_error := None;
     ea_last_sent_at := None |}.

Definition camp1 : Campaign :=
  {| c_id := "c1"; c_user_id := "u1"; c_name := "Launch";
     c_status := CampActive; c_rotation_strategy := RoundRobin;
     c_send_window_start := 0; c_send_window_end := 24; c_send_days := None |}.

Definition step (n delay : Z) : Step :=
  {| st_id := "s" ++ String (ascii_of_nat (48 + Z.to_nat n)) EmptyString;
     st_campaign_id := "c1"; st_step_number := n; st_delay_days := delay;
     st_subject := "Quick idea for {{company}}";
     st_body := "{Hi|Hey} {{first_name}}"; st_variants := [] |}.

Definition lead1 : Lead :=
  {| l_id := "l1"; l_user_id := "u1"; l_email := "sam@acme.io";
     l_first_name := Some "Sam"; l_last_name := None;
     l_company := Some "Acme"; l_title := None; l_phone := None;
     l_website := None; l_city := None; l_state := None; l_country := None;
     l_industry := None; l_status := LeadActive; l_custom_fields := [] |}.

Definition link (account_id : string) : CampaignAccount :=
  {| ca_campaign_id := "c1"; ca_account_id := account_id;
     ca_weight := 1; ca_sends_today := 0 |}.

(** [l1] enrolled in [c1] at step [n], due since time 0. *)
Definition cl_at (n : Z) : CampaignLead :=
  {| cl_id := "cl1"; cl_campaign_id := "c1"; cl_lead_id := "l1";
     cl_current_step := n; cl_status := Active; cl_last_sent_at := None;
     cl_next_send_at := Some 0%Z |}.

(** A campaign with the given steps, two linked accounts ([a1] with 3
    sends today, [a2] with 1) and one enrolled lead. *)
Definition db_with (steps : list Step) (cl : CampaignLead) : DB :=
  {| email_accounts := [ account "a1" AccActive 3 40 false None;
                         account "a2" AccWarming 1 40 false None ];
     campaigns := [camp1];
     campaign_accounts := [link "a1"; link "a2"];
     steps := steps;
     leads := [lead1];
     campaign_leads := [cl];
     sent_emails := [];
     warmup_logs := [];
     unsubscribes := [];
     bounces := [] |}.

Definition db0 : DB := db_with [step 1 0; step 2 2; step 3 4] (cl_at 0).

(** An environment whose clock reads [t] and whose transport answers
    [result]. *)
Definition env_at (t : datetime) (result : Transport.SendResult)
  : CampaignWorker.SendEnv :=
  {| CampaignWorker.pick_uniform := QArith_base.inject_Z 0;
     CampaignWorker.pick_choice := 0;
     CampaignWorker.variant_draw := 0;
     CampaignWorker.subject_draws := fun _ => 0;
     CampaignWorker.body_draws := fun _ => 0;
     CampaignWorker.unsub_token := fun _ _ => "tok";
     CampaignWorker.frontend_url := "http://localhost:3000";
     CampaignWorker.transport := fun _ => result;
     CampaignWorker.tracking_uuid := "trk";
     CampaignWorker.now_last_sent := t;
     CampaignWorker.now_next_send := t;
     CampaignWorker.now_account := t;
     CampaignWorker.now_db := t;
     CampaignWorker.row_uuid :=
       match result with
       | Transport.SendOk m => "row" ++ m
       | Transport.SendError _ => "row"
       end |}.

(** The lead has received steps 1 and 2; step 3 has been deleted. *)
Definition db_step_deleted : DB := db_with [step 1 0; step 2 2] (cl_at 2).

Definition env_sent : CampaignWorker.SendEnv :=
  env_at 1000%Z (Transport.SendOk "<m1@x.io>").

Definition env_refused : CampaignWorker.SendEnv :=
  env_at 1000%Z (Transport.SendError "550 5.1.1 Mailbox does Not Exist").

Definition a1 : EmailAccount := account "a1" AccActive 3 40 false None.

Definition a2 : EmailAccount := account "a2" AccWarming 1 40 false None.

(** What [_send_one] prepares for step 1 of [db0]. *)
Definition prepared1 : nat * string * string * Transport.SendRequest :=
  Eval vm_compute in
    CampaignWorker.prepare env_sent db0 camp1 lead1 a2 (step 1 0) 1.

(** [db0] after step 1 went out at time 1000 and step 2 two days later. *)
Definition db1 : DB :=
  Eval vm_compute in
    fst (CampaignWorker._send_one env_sent db0 (cl_at 0) camp1).

Definition db2 : DB :=
  Eval vm_compute in
    fst (CampaignWorker._send_one
           (env_at (1000 + days 2)%Z (Transport.SendOk "<m2@x.io>"))
           db1 (CampaignWorker.refresh db1 (cl_at 0)) camp1).

(** The SentEmail row of step 2. *)
Definition second_sent : SentEmail :=
  Eval vm_compute in
    match sent_emails db2 with
    | [_; e] => e
    | _ => {| se_id := ""; se_campaign_id := ""; se_lead_id := "";
              se_account_id := ""; se_step_id := ""; se_message_id := None;
              se_subject := ""; se_body_preview := ""; se_sent_at := 0%Z;
              se_replied_at := None; se_variant_index := 0;
              se_tracking_id := None |}
    end.

Definition env_third : CampaignWorker.SendEnv :=
  env_at (1000 + days 6)%Z (Transport.SendOk "<m3@x.io>").

Definition seconds (n : Z) : Z := (n * usec_per_second)%Z.

(** An iteration that starts at [t], runs to its end, and whose sends
    all succeed. *)
Definition iteration_at (t : datetime) : CampaignWorker.Iteration :=
  {| CampaignWorker.it_now := t;
     CampaignWorker.it_query_now := t;
     CampaignWorker.it_running := fun _ => true;
     CampaignWorker.it_env :=
       fun _ => env_at (t + seconds 1)%Z (Transport.SendOk "<m1@x.io>") |}.

(** Thursday 23:59:30, then Friday 00:01:05: the send of the first
    iteration and its pacing sleep span the minute 00:00. *)
Definition its_over_midnight : list CampaignWorker.Iteration :=
  [ iteration_at (seconds 86370); iteration_at (days 1 + seconds 65)%Z ].

(** Friday 00:00:05, then Friday 00:00:40. *)
Definition its_within_minute : list CampaignWorker.Iteration :=
  [ iteration_at (days 1 + seconds 5)%Z; iteration_at (days 1 + seconds 40)%Z ].

(** Two pool accounts, both [active]; [w1] has already logged its two
    warmup sends of the day. *)
Definition warmup_log (sender receiver : string) (t : datetime) : WarmupLog :=
  {| wl_sender_account_id := sender; wl_receiver_account_id := receiver;
     wl_direction := "sent"; wl_sent_at := t; wl_replied_at := None |}.

Definition db_pool : DB :=
  {| email_accounts := [ account "w1" AccActive 2 40 true None;
                         account "w2" AccActive 0 40 true None ];
     campaigns := []; campaign_accounts := []; steps := []; leads := [];
     campaign_leads := []; sent_emails := [];
     warmup_logs := [ warmup_log "w1" "w2" (days 10 + seconds 3600)%Z;
                      warmup_log "w1" "w2" (days 10 + seconds 7200)%Z ];
     unsubscribes := []; bounces := [] |}.

(** A cycle at noon of day 10; every send succeeds, no unread mail. *)
Definition env_pool (_ : nat) : WarmupWorker.AccountEnv :=
  {| WarmupWorker.w_now_target := (days 10 + seconds 43200)%Z;
     WarmupWorker.w_now_today := (days 10 + seconds 43200)%Z;
     WarmupWorker.w_shuffle := fun l => l;
     WarmupWorker.w_subject_draw := fun _ => 0;
     WarmupWorker.w_body_draw := fun _ => 0;
     WarmupWorker.w_transport := fun _ _ => Transport.SendOk "<w@x.io>";
     WarmupWorker.w_log_now := fun _ => (days 10 + seconds 43201)%Z;
     WarmupWorker.w_replies := [];
     WarmupWorker.w_coin := fun _ => true;
     WarmupWorker.w_reply_draw := fun _ => 0 |}.

(** [db0] after the first send was refused with a hard bounce. *)
Definition db_bounced : DB :=
  Eval vm_compute in
    fst (CampaignWorker._send_one env_refused db0 (cl_at 0) camp1).

(** A state of the platform with an empty inbox and no batch in hand. *)
Definition state_of (db : DB) : Platform.State :=
  {| Platform.s_db := db; Platform.s_inbox := [];
     Platform.s_batch := []; Platform.s_now := 0%Z |}.

Definition reply_env (t : datetime) (_ : nat) : Routes.ReplyEnv :=
  {| Routes.re_now := t; Routes.re_row_uuid := "in1"; Routes.re_now_db := t |}.

(** The lead's reply to the message with transport id [irt]. *)
Definition reply_to (irt : string) : Routes.Reply :=
  {| Routes.r_from_email := "sam@acme.io"; Routes.r_subject := "Re: Quick idea";
     Routes.r_body := "Tell me more"; Routes.r_message_id := "<r1@acme.io>";
     Routes.r_in_reply_to := irt |}.

(** The unread mail of every mailbox is that one reply. *)
Definition one_reply (irt : string) (_ : EmailAccount) : list Routes.Reply :=
  [reply_to irt].

(** A second lead of the tenant. *)
Definition lead2 : Lead :=
  {| l_id := "l2"; l_user_id := "u1"; l_email := "pat@acme.io";
     l_first_name := Some "Pat"; l_last_name := None;
     l_company := Some "Acme"; l_title := None; l_phone := None;
     l_website := None; l_city := None; l_state := None; l_country := None;
     l_industry := None; l_status := LeadActive; l_custom_fields := [] |}.

(** [db_bounced] with [lead2] enrolled and waiting for its first step. *)
Definition st_bounced : Platform.State :=
  state_of
    (with_leads (leads db_bounced ++ [lead2])
       (with_campaign_leads
          (campaign_leads db_bounced
           ++ [{| cl_id := "cl2"; cl_campaign_id := "c1"; cl_lead_id := "l2";
                  cl_current_step := 0; cl_status := Active;
                  cl_last_sent_at := None; cl_next_send_at := Some 0%Z |}])
          db_bounced)).

(** Monday 1970-01-05, 09:00: the loop has fetched its batch in [db1],
    where the lead is due for step 2, and the lead's reply to step 1 has
    been synced since. *)
Definition st_replied_in_batch : Platform.State :=
  Eval vm_compute in
    Platform.run
      [ Platform.WorkerFetch (days 4 + seconds 32400)%Z (days 4 + seconds 32400)%Z;
        Platform.SyncInbox (one_reply "<m1@x.io>")
          (reply_env (days 4 + seconds 32410)%Z) "u1" ]
      (state_of db1).

Definition turn_after_reply : Platform.Op :=
  Platform.WorkerTurn true
    (env_at (days 4 + seconds 32430)%Z (Transport.SendOk "<m2@x.io>")).

(** From the empty log of [db0]: step 1 goes out on Thursday 1970-01-01,
    step 2 on the Monday after. *)
Definition ops_two_sends : list Platform.Op :=
  [ Platform.WorkerFetch (seconds 32400) (seconds 32400);
    Platform.WorkerTurn true
      (env_at (seconds 32401) (Transport.SendOk "<m1@x.io>"));
    Platform.WorkerFetch (days 4 + seconds 32400)%Z (days 4 + seconds 32400)%Z;
    Platform.WorkerTurn true
      (env_at (days 4 + seconds 32401)%Z (Transport.SendOk "<m2@x.io>")) ].

(** A step with two variants; variant B has no body of its own. *)
Definition step_ab : Step :=
  {| st_id := "s1"; st_campaign_id := "c1"; st_step_number := 1;
     st_delay_days := 0; st_subject := "Quick idea for {{company}}";
     st_body := "{Hi|Hey} {{first_name}}";
     st_variants :=
       [ {| v_subject := Some "A thought for {{company}}";
            v_body := Some "Hello {{first_name}}" |};
         {| v_subject := Some "{{first_name}}, one question"; v_body := None |} ] |}.

(** [randint] returns [n]. *)
Definition env_draw (n : nat) : CampaignWorker.SendEnv :=
  {| CampaignWorker.pick_uniform := QArith_base.inject_Z 0;
     CampaignWorker.pick_choice := 0;
     CampaignWorker.variant_draw := n;
     CampaignWorker.subject_draws := fun _ => 0;
     CampaignWorker.body_draws := fun _ => 0;
     CampaignWorker.unsub_token := fun _ _ => "tok";
     CampaignWorker.frontend_url := "http://localhost:3000";
     CampaignWorker.transport := fun _ => Transport.SendOk "<m1@x.io>";
     CampaignWorker.tracking_uuid := "trk";
     CampaignWorker.now_last_sent := 1000%Z;
     CampaignWorker.now_next_send := 1000%Z;
     CampaignWorker.now_account := 1000%Z;
     CampaignWorker.now_db := 1000%Z;
     CampaignWorker.row_uuid := "row" |}.

(** A pool of two accounts that each send once in the cycle of
    [env_pool], and a third account of the tenant with warmup disabled and
    three campaign sends today. *)
Definition db_pool_and_other : DB :=
  with_warmup_logs []
    (with_email_accounts
       [ account "w1" AccActive 0 40 true None;
         account "w2" AccWarming 0 40 true None;
         account "a9" AccActive 3 40 false None ]
       db_pool).

Definition ops_after_bounce : list Platform.Op :=
  [ Platform.PauseCampaign "u1" "c1";
    Platform.StartCampaign (days 1)%Z "u1" "c1";
    Platform.SyncInbox (one_reply "<m9@x.io>")
      (reply_env (days 1 + seconds 60)%Z) "u1";
    Platform.Enrol "cl2" "c1" "l1";
    Platform.WorkerFetch (days 1 + seconds 120)%Z (days 1 + seconds 120)%Z;
    Platform.WorkerTurn true
      (env_at (days 1 + seconds 121)%Z (Transport.SendOk "<m1@x.io>"));
    Platform.WarmupCycle env_pool;
    Platform.WarmupTurn (env_pool 0) [a1; a2] a1;
    Platform.WorkerFetch (days 2)%Z (days 2)%Z;
    Platform.WorkerTurn true
      (env_at (days 2 + seconds 1)%Z (Transport.SendOk "<m1@x.io>")) ].

Definition sam : LeadData :=
  {| ld_first_name := Some "Sam"; ld_last_name := None; ld_email := Some "sam@x.io";
     ld_company := None; ld_title := None; ld_website := None; ld_phone := None;
     ld_city := None; ld_state := None; ld_country := None; ld_industry := None;
     ld_custom_fields := [("plan", "pro")] |}.

End Fixtures.

Module RenderExamples.
Import EmailSender Fixtures.

Example render_sam_0 :
  render_template (fun _ => 0) "{Hi|Hey} {{first_name}}" sam None = "Hi Sam".
Proof. reflexivity. Qed.

Example render_sam_1 :
  render_template (fun _ => 7) "{Hi|Hey} {{first_name}}, {{plan}}{{nope}}!" sam None
  = "Hey Sam, pro!".
Proof. reflexivity. Qed.

Example render_nested :
  Spintax.render (fun _ => 0) "{I {really|truly} love|I enjoy} your {product|service}"
  = "I really love your product".
Proof. reflexivity. Qed.

Example render_single_brace :
  Spintax.render (fun _ => 0) "a {b} c" = "a {b{ c".
Proof. reflexivity. Qed.
End RenderExamples.

Module WorkerExamples.
Import Db CampaignWorker WarmupWorker Fixtures.
Local Open Scope Z_scope.

Example hard_bounce_code :
  is_hard_bounce "550 5.1.1 Mailbox does Not Exist" = true.
Proof. reflexivity. Qed.

Example hard_bounce_upper_case : is_hard_bounce "Message REJECTED by peer" = true.
Proof. reflexivity. Qed.

Example soft_failure : is_hard_bounce "Connection timed out" = false.
Proof. reflexivity. Qed.

Example epoch_is_thursday : weekday 0 = "thu".
Proof. reflexivity. Qed.

Example clock_fields :
  (hour (days 1 + seconds 3725), minute (days 1 + seconds 3725),
   date (days 1 + seconds 3725)) = (1, 2, 1).
Proof. reflexivity. Qed.

Example default_send_days : on_send_day (days 2) camp1 = false.
Proof. reflexivity. Qed.

Example pending_of_db0 :
  map (fun p => cl_id (fst p)) (_get_pending_leads (seconds 10) db0) = ["cl1"].
Proof. reflexivity. Qed.

Example strip_unknown_placeholder :
  EmailSender.strip_placeholders "a {{nope}} b {c}" = "a  b {c}".
Proof. reflexivity. Qed.

Example replace_non_overlapping : PyStr.replace "aa" "b" "aaaaa" = "bba".
Proof. reflexivity. Qed.

Example split_keeps_empty : PyStr.split "|" "a||b|" = ["a"; ""; "b"; ""].
Proof. reflexivity. Qed.

Example target_without_start :
  _calc_daily_target (days 50) (account "a1" AccActive 0 40 true None) = 2.
Proof. reflexivity. Qed.

Example target_past_ramp :
  _calc_daily_target (days 40) (account "a1" AccWarming 0 40 true (Some 0)) = 40.
Proof. reflexivity. Qed.

Example today_start_keeps_microseconds :
  today_start (days 3 + seconds 50 + 7) = days 3 + 7.
Proof. reflexivity. Qed.

End WorkerExamples.

(* ================================================================== *)
(** * Template rendering *)
(* ================================================================== *)

Module RenderFacts.
Import EmailSender.

Lemma startswith_placeholder_opens (k s : string) :
  PyStr.startswith ("{{" ++ k ++ "}}") s = true -> PyStr.startswith "{{" s = true.
Proof.
  destruct s as [|a [|b s]]; cbn [PyStr.startswith append]; try discriminate.
  - now rewrite andb_false_r.
  - intro H. apply andb_true_iff in H. destruct H as [Ha H].
    apply andb_true_iff in H. destruct H as [Hb _].
    now rewrite Ha, Hb.
Qed.

Lemma contains_tail (p : string) (c : ascii) (s : string) :
  PyStr.contains p (String c s) = false ->
  PyStr.startswith p (String c s) = false /\ PyStr.contains p s = false.
Proof.
  intro H. change (PyStr.contains p (String c s))
    with (PyStr.startswith p (String c s) || PyStr.contains p s) in H.
  now apply orb_false_elim in H.
Qed.

(** Replacing a placeholder in a text without [{{] changes nothing. *)
Lemma replace_without_open (k v s : string) :
  PyStr.contains "{{" s = false ->
  PyStr.replace ("{{" ++ k ++ "}}") v s = s.
Proof.
  intro H. change (PyStr.replace ("{{" ++ k ++ "}}") v s)
    with (PyStr.replace_from ("{{" ++ k ++ "}}") v 0 s).
  induction s as [|c s IH]; [reflexivity|].
  apply contains_tail in H. destruct H as [Hp Hc].
  change (PyStr.replace_from ("{{" ++ k ++ "}}") v 0 (String c s))
    with (if PyStr.startswith ("{{" ++ k ++ "}}") (String c s)
          then v ++ PyStr.replace_from ("{{" ++ k ++ "}}") v
                      (String.length ("{{" ++ k ++ "}}") - 1) s
          else String c (PyStr.replace_from ("{{" ++ k ++ "}}") v 0 s)).
  destruct (PyStr.startswith ("{{" ++ k ++ "}}") (String c s)) eqn:E.
  - apply startswith_placeholder_opens in E. congruence.
  - now rewrite IH.
Qed.

Lemma substitute_without_open (vars : list (string * string)) (s : string) :
  PyStr.contains "{{" s = false -> substitute vars s = s.
Proof.
  unfold substitute. induction vars as [|[k v] vars IH]; intro H; [reflexivity|].
  cbn [fold_left fst snd]. rewrite (replace_without_open k v s H). now apply IH.
Qed.

Lemma dict_update_keeps_head (custom rest : list (string * string)) (v : string) :
  keeps_first_name custom = true ->
  exists rest',
    dict_update (("first_name", v) :: rest) custom = ("first_name", v) :: rest'.
Proof.
  revert rest. induction custom as [|[k x] custom IH]; intros rest H.
  - now exists rest.
  - unfold keeps_first_name in H. cbn [forallb fst] in H.
    apply andb_true_iff in H. destruct H as [Hk H].
    apply negb_true_iff in Hk. rewrite String.eqb_sym in Hk.
    unfold dict_update. cbn [fold_left fst snd dict_set]. rewrite Hk.
    exact (IH (dict_set k x rest) H).
Qed.

Lemma variables_head (lead : LeadData) (sender : option SenderData) :
  keeps_first_name (ld_custom_fields lead) = true ->
  exists rest,
    variables lead sender
    = ("first_name", str_or_empty (ld_first_name lead)) :: rest.
Proof.
  intro H. unfold variables.
  destruct sender as [s|]; cbn -[dict_update str_or_empty];
    eapply dict_update_keeps_head; exact H.
Qed.

Lemma render_greeting (draws : nat -> nat) :
  Spintax.render draws "{Hi|Hey} Sam" = "Hi Sam"
  \/ Spintax.render draws "{Hi|Hey} Sam" = "Hey Sam".
Proof.
  assert (Hstep :
    Spintax.render_loop Spintax.max_iterations 0 draws "{Hi|Hey} Sam"
    = Spintax.render_loop 9 1 draws
        (PyStr.strip (nth (draws 0 mod 2) ["Hi"; "Hey"] EmptyString) ++ " Sam"))
    by reflexivity.
  unfold Spintax.render.
  change (Spintax.render draws "{Hi|Hey} Sam")
    with (let text := Spintax.render_loop Spintax.max_iterations 0 draws "{Hi|Hey} Sam" in
          PyStr.replace "__BRACE__" "{"
            (PyStr.replace "__BRACE__" "}" (PyStr.replace "__BRACE__" "{" text))).
  cbv zeta. rewrite Hstep.
  assert (Hlt : draws 0 mod 2 < 2) by (apply Nat.mod_upper_bound; discriminate).
  destruct (draws 0 mod 2) as [|[|n]]; [left; reflexivity | right; reflexivity | lia].
Qed.

(** C9: whatever the random draws, the template ["{Hi|Hey} {{first_name}}"]
    rendered for a lead whose [first_name] is ["Sam"] is ["Hi Sam"] or
    ["Hey Sam"]; the output holds no [{{first_name}}] placeholder and no
    brace group at all, so no unresolved spin group.  The lead's other
    columns, the sender and the custom fields are arbitrary, except that
    no custom field is itself named [first_name] (such a field replaces
    the column in the variable table). *)
Theorem render_template_hi_hey_sam :
  forall (draws : nat -> nat) (lead : LeadData) (sender : option SenderData),
    ld_first_name lead = Some "Sam" ->
    keeps_first_name (ld_custom_fields lead) = true ->
    (render_template draws "{Hi|Hey} {{first_name}}" lead sender = "Hi Sam"
     \/ render_template draws "{Hi|Hey} {{first_name}}" lead sender = "Hey Sam")
    /\ PyStr.contains "{{first_name}}"
         (render_template draws "{Hi|Hey} {{first_name}}" lead sender) = false
    /\ Spintax.search_block
         (render_template draws "{Hi|Hey} {{first_name}}" lead sender) = None.
Proof.
  intros draws lead sender Hfn Hk.
  assert (Hr : render_template draws "{Hi|Hey} {{first_name}}" lead sender
               = Spintax.render draws "{Hi|Hey} Sam").
  { change (render_template draws "{Hi|Hey} {{first_name}}" lead sender)
      with (Spintax.render draws
              (strip_placeholders
                 (substitute (variables lead sender) "{Hi|Hey} {{first_name}}"))).
    destruct (variables_head lead sender Hk) as [rest Hv].
    rewrite Hv, Hfn.
    change (substitute (("first_name", str_or_empty (Some "Sam")) :: rest)
              "{Hi|Hey} {{first_name}}")
      with (substitute rest "{Hi|Hey} Sam").
    rewrite substitute_without_open by reflexivity.
    reflexivity. }
  rewrite Hr.
  destruct (render_greeting draws) as [E|E]; rewrite E;
    (split; [auto | split; reflexivity]).
Qed.

Lemma render_template_hi_hey_sam_witness :
  (render_template (fun _ => 1) "{Hi|Hey} {{first_name}}" Fixtures.sam None = "Hi Sam"
   \/ render_template (fun _ => 1) "{Hi|Hey} {{first_name}}" Fixtures.sam None
      = "Hey Sam")
  /\ PyStr.contains "{{first_name}}"
       (render_template (fun _ => 1) "{Hi|Hey} {{first_name}}" Fixtures.sam None)
     = false
  /\ Spintax.search_block
       (render_template (fun _ => 1) "{Hi|Hey} {{first_name}}" Fixtures.sam None)
     = None.
Proof.
  apply (render_template_hi_hey_sam (fun _ => 1) Fixtures.sam None);
    reflexivity.
Defined.

End RenderFacts.

(* ================================================================== *)
(** * Warmup ramp *)
(* ================================================================== *)

Module WarmupRamp.
Import Db WarmupWorker.
Local Open Scope Z_scope.

Lemma or_default_configured (v d : Z) : v <> 0 -> or_default (Some v) d = v.
Proof.
  intro H. unfold or_default.
  destruct (Z.eqb_spec v 0); [contradiction | reflexivity].
Qed.

Ltac ramp_branch :=
  repeat match goal with
         | |- context [?a <=? ?b] => destruct (Z.leb_spec a b); try lia
         end;
  try reflexivity.

(** C8: the daily warmup target is the ramp function of the whole days
    elapsed since warmup started: 2 up to day 3, 5 up to day 7, 10 up to
    day 14, 20 up to day 21, [min(30, target)] up to [ramp_days], and
    [target] afterwards; without a start time it is 2.  [target] and
    [ramp_days] are the account's [warmup_daily_target] and
    [warmup_ramp_days] as the function reads them: the configured value,
    or 40 (resp. 30) when the column is null or zero.  In particular
    5 days give 5; 30 days with [ramp_days = 30] and [target = 40] give
    30; 40 days with the same settings give 40. *)
Theorem calc_daily_target_ramp :
  forall (now : datetime) (a : EmailAccount),
    (ea_warmup_started_at a = None -> _calc_daily_target now a = 2)
    /\ (forall started : datetime,
          ea_warmup_started_at a = Some started ->
          let d := days_between now started in
          let target := or_default (ea_warmup_daily_target a) 40 in
          let ramp_days := or_default (ea_warmup_ramp_days a) 30 in
          (d <= 3 -> _calc_daily_target now a = 2)
          /\ (3 < d <= 7 -> _calc_daily_target now a = 5)
          /\ (7 < d <= 14 -> _calc_daily_target now a = 10)
          /\ (14 < d <= 21 -> _calc_daily_target now a = 20)
          /\ (21 < d <= ramp_days -> _calc_daily_target now a = Z.min 30 target)
          /\ (21 < d -> ramp_days < d -> _calc_daily_target now a = target)
          /\ (forall t, ea_warmup_daily_target a = Some t -> t <> 0 -> target = t)
          /\ (forall r, ea_warmup_ramp_days a = Some r -> r <> 0 -> ramp_days = r)
          /\ (d = 5 -> _calc_daily_target now a = 5)
          /\ (d = 30 -> ea_warmup_ramp_days a = Some 30 ->
              ea_warmup_daily_target a = Some 40 -> _calc_daily_target now a = 30)
          /\ (d = 40 -> ea_warmup_ramp_days a = Some 30 ->
              ea_warmup_daily_target a = Some 40 -> _calc_daily_target now a = 40)).
Proof.
  intros now a. split.
  - intro H. unfold _calc_daily_target. now rewrite H.
  - intros started H d target ramp_days.
    unfold _calc_daily_target. rewrite H. fold d target ramp_days.
    repeat split.
    + intro. ramp_branch.
    + intro. ramp_branch.
    + intro. ramp_branch.
    + intro. ramp_branch.
    + intro. ramp_branch.
    + intros. ramp_branch.
    + intros t Ht Hz. unfold target. rewrite Ht. now apply or_default_configured.
    + intros r Hr Hz. unfold ramp_days. rewrite Hr. now apply or_default_configured.
    + intro. ramp_branch.
    + intros Hd Hr Ht. unfold ramp_days, target. rewrite Hr, Ht.
      change (or_default (Some 30) 30) with 30.
      change (or_default (Some 40) 40) with 40. ramp_branch.
    + intros Hd Hr Ht. unfold ramp_days, target. rewrite Hr, Ht.
      change (or_default (Some 30) 30) with 30.
      change (or_default (Some 40) 40) with 40. ramp_branch.
Qed.

(** An account that began warming 30 days and 5 hours ago. *)
Lemma calc_daily_target_ramp_witness :
  _calc_daily_target (days 30 + 5 * 3600 * usec_per_second)
    (Fixtures.account "a1" AccWarming 0 40 true (Some 0)) = 30.
Proof.
  pose proof (calc_daily_target_ramp (days 30 + 5 * 3600 * usec_per_second)
                (Fixtures.account "a1" AccWarming 0 40 true (Some 0))) as [_ H].
  specialize (H 0 eq_refl).
  apply H; reflexivity.
Defined.

End WarmupRamp.

(* ================================================================== *)
(** * Rows and their updates *)
(* ================================================================== *)

Module DbFacts.
Import Db.

Lemma find_update_same {A : Type} (p : A -> bool) (f : A -> A) (l : list A) :
  (forall x, p (f x) = p x) ->
  find p (update_where p f l) = option_map f (find p l).
Proof.
  intro Hp. induction l as [|x l IH]; [reflexivity|].
  cbn [update_where map find]. destruct (p x) eqn:E.
  - now rewrite Hp, E.
  - rewrite E. exact IH.
Qed.

Lemma find_update_other {A : Type} (q p : A -> bool) (f : A -> A) (l : list A) :
  (forall x, q (f x) = q x) ->
  find q (update_where p f l)
  = option_map (fun x => if p x then f x else x) (find q l).
Proof.
  intro Hq. induction l as [|x l IH]; [reflexivity|].
  cbn [update_where map find]. destruct (p x) eqn:E.
  - rewrite Hq. destruct (q x); [cbn; now rewrite E | exact IH].
  - destruct (q x); [cbn; now rewrite E | exact IH].
Qed.

Lemma find_present {A : Type} (p : A -> bool) (l : list A) (x : A) :
  In x l -> p x = true -> exists y, find p l = Some y.
Proof.
  intros Hin Hp. destruct (find p l) as [y|] eqn:E; [now exists y|].
  now rewrite (find_none p l E x Hin) in Hp.
Qed.

Lemma get_cl_update_cl (id : string) (f : CampaignLead -> CampaignLead) (db : DB) :
  (forall r, cl_id (f r) = cl_id r) ->
  get_cl id (update_cl id f db) = option_map f (get_cl id db).
Proof.
  intro H. unfold get_cl, update_cl. cbn [campaign_leads with_campaign_leads].
  apply find_update_same. intro r. now rewrite H.
Qed.

Lemma get_account_update_account (id : string) (f : EmailAccount -> EmailAccount)
    (db : DB) :
  (forall r, ea_id (f r) = ea_id r) ->
  get_account id (update_account id f db) = option_map f (get_account id db).
Proof.
  intro H. unfold get_account, update_account.
  cbn [email_accounts with_email_accounts].
  apply find_update_same. intro r. now rewrite H.
Qed.

Lemma get_lead_update_lead (id : string) (f : Lead -> Lead) (db : DB) :
  (forall r, l_id (f r) = l_id r) ->
  get_lead id (update_lead id f db) = option_map f (get_lead id db).
Proof.
  intro H. unfold get_lead, update_lead. cbn [leads with_leads].
  apply find_update_same. intro r. now rewrite H.
Qed.

Lemma get_lead_id (id : string) (db : DB) (lead : Lead) :
  get_lead id db = Some lead -> l_id lead = id.
Proof.
  intro H. apply find_some in H. destruct H as [_ H]. now apply String.eqb_eq.
Qed.

End DbFacts.

(* ================================================================== *)
(** * Account allocator *)
(* ================================================================== *)

Module Allocator.
Import Db CampaignWorker.
Local Open Scope Z_scope.

(** [min] returns the first element whose key is least. *)
Lemma py_min_first {A : Type} (key : A -> Z) (l : list A) :
  forall x, exists before after,
    x :: l = (before ++ py_min key x l :: after)%list
    /\ (forall y, In y before -> key (py_min key x l) < key y)
    /\ (forall y, In y after -> key (py_min key x l) <= key y).
Proof.
  induction l as [|y r IH]; intro x.
  - exists [], []. cbn. repeat split; intros ? [].
  - cbn [py_min]. destruct (Z.ltb_spec (key y) (key x)) as [Hlt|Hge].
    + destruct (IH y) as (b & a & E & Hb & Ha).
      exists (x :: b), a. split; [cbn; now rewrite E|]. split; [|exact Ha].
      intros z [<-|Hz]; [|now apply Hb].
      assert (In y (b ++ py_min key y r :: a)) as Hy by (rewrite <- E; now left).
      apply in_app_or in Hy. destruct Hy as [Hy|[Hy|Hy]].
      * specialize (Hb _ Hy). lia.
      * rewrite Hy. exact Hlt.
      * specialize (Ha _ Hy). lia.
    + destruct (IH x) as (b & a & E & Hb & Ha).
      destruct b as [|x' b].
      * cbn in E. injection E as Ex Er.
        exists [], (y :: a). split; [cbn; now rewrite <- Ex, Er|].
        split; [intros ? []|].
        intros z [<-|Hz]; [rewrite <- Ex; exact Hge | now apply Ha].
      * cbn in E. injection E as Ex Er. subst x'.
        exists (x :: y :: b), a. split; [cbn; do 2 f_equal; exact Er|]. split; [|exact Ha].
        intros z [<-|[<-|Hz]].
        -- apply Hb. now left.
        -- assert (key (py_min key x r) < key x) by (apply Hb; now left). lia.
        -- apply Hb. now right.
Qed.

Lemma linked_eligible_spec (db : DB) (campaign : Campaign) (a : EmailAccount) :
  In a (linked_eligible db campaign) ->
  In a (email_accounts db)
  /\ (exists link, In link (campaign_accounts db)
                   /\ ca_campaign_id link = c_id campaign
                   /\ ca_account_id link = ea_id a)
  /\ (ea_status a = AccActive \/ ea_status a = AccWarming)
  /\ ea_sends_today a < ea_daily_limit a.
Proof.
  unfold linked_eligible. intro H. apply filter_In in H. destruct H as [Hin H].
  apply andb_true_iff in H. destruct H as [Hl He].
  split; [exact Hin|]. split.
  - apply existsb_exists in Hl. destruct Hl as (id & Hid & E).
    apply String.eqb_eq in E. apply in_map_iff in Hid.
    destruct Hid as (link & Hacc & Hlink). apply filter_In in Hlink.
    destruct Hlink as [Hlink Hc]. apply String.eqb_eq in Hc.
    exists link. repeat split; congruence.
  - unfold eligible in He. apply andb_true_iff in He. destruct He as [Hs Hc].
    split; [|now apply Z.ltb_lt].
    unfold sendable_status in Hs. destruct (ea_status a); auto; discriminate.
Qed.





End Allocator.

(* ================================================================== *)
(** * Sequencer: the outcome of one dispatch *)
(* ================================================================== *)

Module Sequencer.
Import Db Transport CampaignWorker DbFacts.
Local Open Scope Z_scope.

(** When the lead resolves, is not suppressed, has a next step and an
    account is allocated, [_send_one] calls the transport once and
    branches on its answer. *)
Lemma send_one_attempt (env : SendEnv) (db : DB) (cl : CampaignLead)
    (campaign : Campaign) (lead : Lead) (step : Step) (account : EmailAccount)
    (variant_index : nat) (subject body : string) (request : SendRequest) :
  get_lead (cl_lead_id cl) db = Some lead ->
  _is_suppressed db (c_user_id campaign) (l_email lead) = false ->
  find_step db (c_id campaign) (cl_current_step cl + 1) = Some step ->
  _pick_account env db campaign = Some account ->
  prepare env db campaign lead account step (cl_current_step cl + 1)
  = (variant_index, subject, body, request) ->
  _send_one env db cl campaign
  = match transport env request with
    | SendOk message_id =>
        (on_success env db cl campaign lead account step
           (cl_current_step cl + 1) variant_index subject body message_id,
         Some request)
    | SendError error =>
        (on_failure env db cl campaign lead account error, Some request)
    end.
Proof.
  intros Hlead Hsup Hstep Hpick Hprep.
  unfold _send_one. rewrite Hlead, Hsup, Hstep, Hpick, Hprep. reflexivity.
Qed.

Lemma picked_account_row (env : SendEnv) (db : DB) (campaign : Campaign)
    (account : EmailAccount) :
  _pick_account env db campaign = Some account -> In account (email_accounts db).
Proof.
  intro H. unfold _pick_account in H.
  destruct (filter _ (campaign_accounts db)) as [|l0 ls]; [discriminate|].
  destruct (linked_eligible db campaign) as [|a0 rest] eqn:E; [discriminate|].
  assert (Hsub : forall a, In a (a0 :: rest) -> In a (email_accounts db)).
  { intros a Ha. rewrite <- E in Ha. unfold linked_eligible in Ha.
    now apply filter_In in Ha. }
  destruct (c_rotation_strategy campaign).
  - injection H as <-. apply Hsub.
    destruct (Allocator.py_min_first ea_sends_today rest a0) as (b & a & Eq & _).
    rewrite Eq. apply in_or_app. right. now left.
  - destruct (weighted_draw _ _ _) as [acc|] eqn:W.
    + injection H as <-. apply Hsub.
      remember (a0 :: rest) as accounts eqn:Ea. clear Ea.
      revert W. generalize 0. clear.
      induction accounts as [|x xs IH]; intros c W; [discriminate|].
      cbn [map weighted_draw] in W.
      destruct (QArith_base.Qle_bool _ _).
      * injection W as <-. now left.
      * right. eapply IH. exact W.
    + injection H as <-. apply Hsub. now left.
  - injection H as <-. apply Hsub.
    destruct (nth_in_or_default (pick_choice env mod Datatypes.length (a0 :: rest))
                (a0 :: rest) a0) as [Hn|Hn]; [exact Hn | left; symmetry; exact Hn].
Qed.

(** C1, as the code has it: after a dispatch that the transport reports
    as sent, the CampaignLead's [current_step] is one more than before,
    [last_sent_at] is the clock reading, [next_send_at] is the clock
    reading plus the following step's [delay_days] (or null, with status
    [completed], when there is no following step), one SentEmail row is
    appended, and the chosen account's [sends_today] is one more and its
    [last_sent_at] is set.  The campaign-account links are left as they
    were: their [sends_today] is not incremented. *)
Theorem send_one_success :
  forall (env : SendEnv) (db : DB) (cl : CampaignLead) (campaign : Campaign)
         (lead : Lead) (step : Step) (account : EmailAccount)
         (variant_index : nat) (subject body : string) (request : SendRequest)
         (message_id : string),
    get_cl (cl_id cl) db = Some cl ->
    get_lead (cl_lead_id cl) db = Some lead ->
    _is_suppressed db (c_user_id campaign) (l_email lead) = false ->
    find_step db (c_id campaign) (cl_current_step cl + 1) = Some step ->
    _pick_account env db campaign = Some account ->
    prepare env db campaign lead account step (cl_current_step cl + 1)
    = (variant_index, subject, body, request) ->
    transport env request = SendOk message_id ->
    snd (_send_one env db cl campaign) = Some request
    /\ (exists cl',
          get_cl (cl_id cl) (fst (_send_one env db cl campaign)) = Some cl'
          /\ cl_current_step cl' = cl_current_step cl + 1
          /\ cl_last_sent_at cl' = Some (now_last_sent env)
          /\ match find_step db (c_id campaign) (cl_current_step cl + 1 + 1) with
             | Some following =>
                 cl_next_send_at cl'
                 = Some (now_next_send env + days (st_delay_days following))
                 /\ cl_status cl' = cl_status cl
             | None => cl_next_send_at cl' = None /\ cl_status cl' = Completed
             end)
    /\ (exists sent,
          sent_emails (fst (_send_one env db cl campaign))
          = (sent_emails db ++ [sent])%list
          /\ se_message_id sent = Some message_id
          /\ se_campaign_id sent = c_id campaign
          /\ se_lead_id sent = l_id lead
          /\ se_account_id sent = ea_id account
          /\ se_step_id sent = st_id step
          /\ se_subject sent = subject
          /\ se_variant_index sent = variant_index)
    /\ (exists account',
          get_account (ea_id account) (fst (_send_one env db cl campaign))
          = Some account'
          /\ ea_sends_today account' = ea_sends_today account + 1
          /\ ea_last_sent_at account' = Some (now_account env))
    /\ campaign_accounts (fst (_send_one env db cl campaign)) = campaign_accounts db.
Proof.
  intros env db cl campaign lead step account vi subject body request mid
         Hrow Hlead Hsup Hstep Hpick Hprep Hsend.
  rewrite (send_one_attempt env db cl campaign lead step account vi subject body
             request Hlead Hsup Hstep Hpick Hprep), Hsend.
  cbn [fst snd]. split; [reflexivity|]. split; [|split; [|split]].
  - unfold on_success.
    change (get_cl (cl_id cl) (update_account ?i ?f ?d)) with (get_cl (cl_id cl) d).
    destruct (find_step db (c_id campaign) (cl_current_step cl + 1 + 1)) as [ns|];
      rewrite get_cl_update_cl by reflexivity;
      change (get_cl (cl_id cl) (with_sent_emails ?l db)) with (get_cl (cl_id cl) db);
      rewrite Hrow; cbn [option_map]; eexists; split; try reflexivity;
      cbn; auto.
  - eexists. split; [reflexivity|]. cbn. auto 10.
  - unfold on_success. rewrite get_account_update_account by reflexivity.
    change (get_account (ea_id account) (update_cl ?i ?f ?d))
      with (get_account (ea_id account) db).
    destruct (find_present (fun a => String.eqb (ea_id a) (ea_id account))
                (email_accounts db) account
                (picked_account_row env db campaign account Hpick)
                (String.eqb_refl _)) as [row Hfind].
    unfold get_account. rewrite Hfind. cbn [option_map].
    eexists. split; [reflexivity|]. cbn. auto.
  - reflexivity.
Qed.

Lemma send_one_success_witness :
  exists cl',
    get_cl "cl1" (fst (_send_one Fixtures.env_sent Fixtures.db0 (Fixtures.cl_at 0)
                         Fixtures.camp1)) = Some cl'
    /\ cl_current_step cl' = 1
    /\ cl_next_send_at cl' = Some (1000 + days 2).
Proof.
  destruct (send_one_success Fixtures.env_sent Fixtures.db0 (Fixtures.cl_at 0)
              Fixtures.camp1 Fixtures.lead1 (Fixtures.step 1 0) Fixtures.a2
              (fst (fst (fst Fixtures.prepared1))) (snd (fst (fst Fixtures.prepared1)))
              (snd (fst Fixtures.prepared1)) (snd Fixtures.prepared1) "<m1@x.io>"
              eq_refl eq_refl eq_refl eq_refl eq_refl eq_refl eq_refl)
    as (_ & (cl' & Hget & Hstep & _ & Hnext) & _).
  exists cl'. split; [exact Hget|]. split; [exact Hstep|].
  exact (proj1 Hnext).
Defined.

(** C1 as stated fails: the transport reports success for the lead of
    [db0], account [a2] is chosen and its counter goes from 1 to 2, yet
    the link between the campaign and [a2] still has [sends_today = 0]. *)
Lemma send_one_link_counter_counterexample :
  let r := _send_one Fixtures.env_sent Fixtures.db0 (Fixtures.cl_at 0)
             Fixtures.camp1 in
  (exists rq, snd r = Some rq
              /\ transport Fixtures.env_sent rq = SendOk "<m1@x.io>"
              /\ rq_from_email rq = "a2@x.io")
  /\ map ea_sends_today (email_accounts Fixtures.db0) = [3; 1]
  /\ map ea_sends_today (email_accounts (fst r)) = [3; 2]
  /\ map ca_sends_today (campaign_accounts Fixtures.db0) = [0; 0]
  /\ ~ (exists link,
          In link (campaign_accounts (fst r))
          /\ ca_campaign_id link = "c1" /\ ca_account_id link = "a2"
          /\ ca_sends_today link = 0 + 1).
Proof.
  cbv zeta. split; [|split; [|split; [|split]]]; try reflexivity.
  - eexists. split; [reflexivity|]. split; reflexivity.
  - intros (link & Hin & _ & _ & Hs).
    vm_compute in Hin. destruct Hin as [<-|[<-|[]]]; discriminate Hs.
Qed.

(** C2, what the code does when step [current_step + 1] does not
    exist: it marks the CampaignLead [completed], attempts no send and
    touches nothing else; in particular [next_send_at] keeps the value it
    had and is not cleared to null, unlike in the branch of a successful
    last step. *)
Theorem send_one_missing_step_keeps_next_send_at :
  forall (env : SendEnv) (db : DB) (cl : CampaignLead) (campaign : Campaign)
         (lead : Lead),
    get_cl (cl_id cl) db = Some cl ->
    get_lead (cl_lead_id cl) db = Some lead ->
    _is_suppressed db (c_user_id campaign) (l_email lead) = false ->
    find_step db (c_id campaign) (cl_current_step cl + 1) = None ->
    snd (_send_one env db cl campaign) = None
    /\ fst (_send_one env db cl campaign)
       = update_cl (cl_id cl) (cl_with_status Completed) db
    /\ (exists cl',
          get_cl (cl_id cl) (fst (_send_one env db cl campaign)) = Some cl'
          /\ cl_status cl' = Completed
          /\ cl_next_send_at cl' = cl_next_send_at cl
          /\ cl_current_step cl' = cl_current_step cl
          /\ cl_last_sent_at cl' = cl_last_sent_at cl).
Proof.
  intros env db cl campaign lead Hrow Hlead Hsup Hstep.
  unfold _send_one. rewrite Hlead, Hsup, Hstep. cbn [fst snd].
  split; [reflexivity|]. split; [reflexivity|].
  rewrite get_cl_update_cl by reflexivity. rewrite Hrow. cbn [option_map].
  eexists. split; [reflexivity|]. cbn. auto.
Qed.

(** The lead of [db_step_deleted] is due since time 0 and stays so. *)
Lemma send_one_missing_step_witness :
  exists cl',
    get_cl "cl1" (fst (_send_one Fixtures.env_sent Fixtures.db_step_deleted
                         (Fixtures.cl_at 2) Fixtures.camp1)) = Some cl'
    /\ cl_status cl' = Completed
    /\ cl_next_send_at cl' = Some 0.
Proof.
  destruct (send_one_missing_step_keeps_next_send_at Fixtures.env_sent
              Fixtures.db_step_deleted (Fixtures.cl_at 2) Fixtures.camp1
              Fixtures.lead1 eq_refl eq_refl eq_refl eq_refl)
    as (_ & _ & cl' & Hget & Hst & Hnext & _).
  exists cl'. auto.
Defined.

Lemma startswith_lower (p s : string) :
  PyStr.startswith p s = true ->
  PyStr.startswith (PyStr.lower p) (PyStr.lower s) = true.
Proof.
  revert s. induction p as [|a p IH]; intros s H; [reflexivity|].
  destruct s as [|b s]; [discriminate|].
  cbn [PyStr.startswith PyStr.lower] in H |- *.
  apply andb_true_iff in H. destruct H as [Hab H].
  apply Ascii.eqb_eq in Hab. subst b.
  rewrite Ascii.eqb_refl. cbn [andb]. now apply IH.
Qed.

Lemma contains_lower (p s : string) :
  PyStr.contains p s = true ->
  PyStr.contains (PyStr.lower p) (PyStr.lower s) = true.
Proof.
  induction s as [|c s IH]; intro H.
  - cbn [PyStr.contains] in H. rewrite orb_false_r in H.
    apply startswith_lower in H.
    cbn [PyStr.contains PyStr.lower] in H |- *. now rewrite H.
  - cbn [PyStr.contains] in H. apply orb_true_iff in H.
    change (PyStr.contains (PyStr.lower p) (PyStr.lower (String c s)))
      with (PyStr.startswith (PyStr.lower p) (PyStr.lower (String c s))
            || PyStr.contains (PyStr.lower p) (PyStr.lower s)).
    apply orb_true_iff. destruct H as [H|H].
    + left. now apply startswith_lower.
    + right. now apply IH.
Qed.

(** An indicator found in the error text is found in its lower-cased
    form: the indicators are lower-case themselves. *)
Lemma hard_bounce_of_indicator (error : string) :
  (exists kw, In kw hard_bounce_keywords /\ PyStr.contains kw error = true) ->
  is_hard_bounce error = true.
Proof.
  intros (kw & Hin & Hc). unfold is_hard_bounce. apply existsb_exists.
  exists kw. split; [exact Hin|].
  apply contains_lower in Hc.
  assert (Hl : PyStr.lower kw = kw).
  { unfold hard_bounce_keywords in Hin. cbn [In] in Hin.
    repeat (destruct Hin as [<-|Hin]; [reflexivity|]). contradiction. }
  now rewrite Hl in Hc.
Qed.

Lemma take_length (n : nat) (s : string) : (String.length (PyStr.take n s) <= n)%nat.
Proof.
  revert s. induction n as [|n IH]; intros [|c s]; cbn [PyStr.take String.length];
    try lia.
  specialize (IH s). lia.
Qed.

Lemma take_min (n : nat) (s : string) :
  String.length (PyStr.take n s) = Nat.min n (String.length s).
Proof.
  revert s. induction n as [|n IH]; intros [|c s]; cbn [PyStr.take String.length Nat.min];
    try reflexivity.
  now rewrite IH.
Qed.

Lemma take_prefix (n : nat) (s : string) :
  exists rest, s = PyStr.take n s ++ rest.
Proof.
  revert s. induction n as [|n IH]; intros [|c s]; cbn [PyStr.take append].
  - now exists EmptyString.
  - now exists (String c s).
  - now exists EmptyString.
  - destruct (IH s) as [rest E]. exists rest. now rewrite <- E.
Qed.

(** C5: when the transport reports a failure, the account's
    [last_error] becomes the first 200 characters of the error text (the
    whole text when it is shorter).  If the lower-cased text contains one
    of [bounce], [rejected], [not exist], [550], [551], [553] (so, in
    particular, if the text itself contains one), the CampaignLead ends
    with status [bounced] and its other columns as before, the Lead ends
    with status [bounced], and a hard Bounce row for the tenant and the
    address is appended.  Otherwise the [campaign_leads], [leads] and
    [bounces] tables are left as they were: status and [next_send_at] are
    unchanged.  No SentEmail is recorded either way. *)
Theorem send_one_failure :
  forall (env : SendEnv) (db : DB) (cl : CampaignLead) (campaign : Campaign)
         (lead : Lead) (step : Step) (account : EmailAccount)
         (variant_index : nat) (subject body : string) (request : SendRequest)
         (error : string),
    get_cl (cl_id cl) db = Some cl ->
    get_lead (cl_lead_id cl) db = Some lead ->
    _is_suppressed db (c_user_id campaign) (l_email lead) = false ->
    find_step db (c_id campaign) (cl_current_step cl + 1) = Some step ->
    _pick_account env db campaign = Some account ->
    prepare env db campaign lead account step (cl_current_step cl + 1)
    = (variant_index, subject, body, request) ->
    transport env request = SendError error ->
    (exists account' kept rest,
       get_account (ea_id account) (fst (_send_one env db cl campaign))
       = Some account'
       /\ ea_last_error account' = Some kept
       /\ error = kept ++ rest
       /\ String.length kept = Nat.min 200 (String.length error))
    /\ ((exists kw, In kw ["bounce"; "rejected"; "not exist"; "550"; "551"; "553"]
                    /\ PyStr.contains kw error = true) ->
        is_hard_bounce error = true)
    /\ (is_hard_bounce error = true <->
        exists kw, In kw ["bounce"; "rejected"; "not exist"; "550"; "551"; "553"]
                   /\ PyStr.contains kw (PyStr.lower error) = true)
    /\ (is_hard_bounce error = true ->
        exists cl' lead',
          get_cl (cl_id cl) (fst (_send_one env db cl campaign)) = Some cl'
          /\ cl_status cl' = Bounced
          /\ cl_next_send_at cl' = cl_next_send_at cl
          /\ cl_last_sent_at cl' = cl_last_sent_at cl
          /\ cl_current_step cl' = cl_current_step cl
          /\ cl_lead_id cl' = cl_lead_id cl
          /\ cl_campaign_id cl' = cl_campaign_id cl
          /\ get_lead (l_id lead) (fst (_send_one env db cl campaign)) = Some lead'
          /\ l_status lead' = LeadBounced
          /\ l_email lead' = l_email lead
          /\ l_user_id lead' = l_user_id lead
          /\ bounces (fst (_send_one env db cl campaign))
             = (bounces db
                ++ [{| b_user_id := c_user_id campaign; b_email := l_email lead;
                       b_bounce_type := Hard; b_bounced_at := now_db env;
                       b_campaign_id := Some (c_id campaign) |}])%list)
    /\ (is_hard_bounce error = false ->
        get_cl (cl_id cl) (fst (_send_one env db cl campaign)) = Some cl
        /\ campaign_leads (fst (_send_one env db cl campaign)) = campaign_leads db
        /\ leads (fst (_send_one env db cl campaign)) = leads db
        /\ bounces (fst (_send_one env db cl campaign)) = bounces db)
    /\ sent_emails (fst (_send_one env db cl campaign)) = sent_emails db.
Proof.
  intros env db cl campaign lead step account vi subject body request error
         Hrow Hlead Hsup Hstep Hpick Hprep Hsend.
  rewrite (send_one_attempt env db cl campaign lead step account vi subject body
             request Hlead Hsup Hstep Hpick Hprep), Hsend.
  cbn [fst snd].
  destruct (find_present (fun a => String.eqb (ea_id a) (ea_id account))
              (email_accounts db) account
              (picked_account_row env db campaign account Hpick)
              (String.eqb_refl _)) as [row Hfind].
  assert (Hacc : forall d,
    email_accounts d
    = email_accounts (update_account (ea_id account)
                        (account_with_last_error (Some (PyStr.take 200 error))) db) ->
    exists account' kept rest,
      get_account (ea_id account) d = Some account'
      /\ ea_last_error account' = Some kept
      /\ error = kept ++ rest
      /\ String.length kept = Nat.min 200 (String.length error)).
  { intros d Hd. unfold get_account. rewrite Hd.
    change (find _ (email_accounts (update_account ?i ?f db)))
      with (get_account i (update_account i f db)).
    rewrite get_account_update_account by reflexivity.
    unfold get_account. rewrite Hfind. cbn [option_map].
    destruct (take_prefix 200 error) as [rest Hrest].
    eexists. exists (PyStr.take 200 error), rest.
    split; [reflexivity|]. split; [reflexivity|].
    split; [exact Hrest | apply take_min]. }
  unfold on_failure.
  split; [destruct (is_hard_bounce error); apply Hacc; reflexivity|].
  split; [apply hard_bounce_of_indicator|].
  split; [unfold is_hard_bounce; apply existsb_exists|].
  split; [|split].
  - intro Hb. rewrite Hb.
    exists (cl_with_status Bounced cl), (lead_with_status LeadBounced lead).
    split; [|do 6 (split; [reflexivity|]);
             split; [|do 3 (split; [reflexivity|]); reflexivity]].
    + change (get_cl (cl_id cl) (update_lead ?i ?f (with_bounces ?l ?d)))
        with (get_cl (cl_id cl) d).
      rewrite get_cl_update_cl by reflexivity.
      change (get_cl (cl_id cl) (update_account ?i ?f db)) with (get_cl (cl_id cl) db).
      now rewrite Hrow.
    + rewrite get_lead_update_lead by reflexivity.
      change (get_lead (l_id lead) (with_bounces ?l (update_cl ?i ?f (update_account ?j ?g db))))
        with (get_lead (l_id lead) db).
      rewrite (get_lead_id _ _ _ Hlead). now rewrite Hlead.
  - intro Hb. rewrite Hb.
    change (get_cl (cl_id cl) (update_account ?i ?f db)) with (get_cl (cl_id cl) db).
    auto.
  - now destruct (is_hard_bounce error).
Qed.

Lemma send_one_failure_witness :
  exists cl' lead',
    get_cl "cl1" (fst (_send_one Fixtures.env_refused Fixtures.db0 (Fixtures.cl_at 0)
                         Fixtures.camp1)) = Some cl'
    /\ cl_status cl' = Bounced
    /\ get_lead "l1" (fst (_send_one Fixtures.env_refused Fixtures.db0 (Fixtures.cl_at 0)
                             Fixtures.camp1)) = Some lead'
    /\ l_status lead' = LeadBounced.
Proof.
  destruct (send_one_failure Fixtures.env_refused Fixtures.db0 (Fixtures.cl_at 0)
              Fixtures.camp1 Fixtures.lead1 (Fixtures.step 1 0) Fixtures.a2
              (fst (fst (fst Fixtures.prepared1))) (snd (fst (fst Fixtures.prepared1)))
              (snd (fst Fixtures.prepared1)) (snd Fixtures.prepared1)
              "550 5.1.1 Mailbox does Not Exist"
              eq_refl eq_refl eq_refl eq_refl eq_refl eq_refl eq_refl)
    as (_ & _ & _ & Hhard & _).
  destruct (Hhard eq_refl)
    as (cl' & lead' & Hcl & Hst & _ & _ & _ & _ & _ & Hl & Hls & _).
  exists cl', lead'. repeat split; assumption.
Defined.

End Sequencer.

(* ================================================================== *)
(** * Allocation by round robin, and deferral *)
(* ================================================================== *)

Module Allocation.
Import Db Transport CampaignWorker Allocator.
Local Open Scope Z_scope.




End Allocation.

(* ================================================================== *)
(** * Threading headers *)
(* ================================================================== *)

Module Threading.
Import Db Transport CampaignWorker.
Local Open Scope Z_scope.

Lemma latest_of_fold (r : list SentEmail) :
  forall x,
    let best := fold_left (fun best y => if se_sent_at best <? se_sent_at y
                                         then y else best) r x in
    In best (x :: r) /\ forall e, In e (x :: r) -> se_sent_at e <= se_sent_at best.
Proof.
  induction r as [|y r IH]; intro x; cbn [fold_left].
  - split; [now left|]. intros e [<-|[]]. lia.
  - destruct (Z.ltb_spec (se_sent_at x) (se_sent_at y)) as [Hlt|Hge].
    + destruct (IH y) as [Hin Hmax]. split.
      * right. exact Hin.
      * intros e [<-|He]; [|now apply Hmax].
        specialize (Hmax y (or_introl eq_refl)). lia.
    + destruct (IH x) as [Hin Hmax]. split.
      * destruct Hin as [<-|Hin]; [now left | right; now right].
      * intros e [<-|[<-|He]].
        -- apply Hmax. now left.
        -- specialize (Hmax x (or_introl eq_refl)). lia.
        -- apply Hmax. now right.
Qed.

(** [most_recent] returns a row of the list with the greatest [sent_at]. *)
Lemma most_recent_latest (l : list SentEmail) (prev : SentEmail) :
  most_recent l = Some prev ->
  In prev l /\ forall e, In e l -> se_sent_at e <= se_sent_at prev.
Proof.
  destruct l as [|x r]; [discriminate|].
  unfold most_recent. intro H. injection H as <-. apply latest_of_fold.
Qed.

Lemma chronological_filter (p : SentEmail -> bool) (l : list SentEmail) :
  chronological l -> chronological (filter p l).
Proof.
  unfold chronological. induction 1 as [|x l Hs IH Hx]; [constructor|].
  cbn [filter]. destruct (p x); [|exact IH].
  constructor; [exact IH|].
  rewrite Forall_forall in *. intros y Hy. apply Hx.
  apply filter_In in Hy. tauto.
Qed.

Lemma truthy_nonempty (m : string) : m <> EmptyString -> truthy (Some m) = true.
Proof. destruct m; [congruence | reflexivity]. Qed.

Lemma find_step_number (db : DB) (id : string) (n : Z) (step : Step) :
  find_step db id n = Some step -> st_step_number step = n.
Proof.
  intro H. apply find_some in H. destruct H as [_ H].
  apply andb_true_iff in H. destruct H as [_ H]. now apply Z.eqb_eq.
Qed.

Lemma message_ids_listed (l : list SentEmail) :
  message_ids l
  = flat_map (fun e => match se_message_id e with
                       | Some (String a r) => [String a r]
                       | _ => []
                       end) l.
Proof.
  induction l as [|e l IH]; [reflexivity|]. cbn [message_ids flat_map].
  destruct (se_message_id e) as [[|a r]|]; cbn [truthy app]; now rewrite IH.
Qed.

(** The request of a follow-up step: [in_reply_to] is the transport id of
    the most recent SentEmail of the pair, [references] lists the ids of
    the pair's SentEmails in table order. *)
Lemma threading_request (env : SendEnv) (db : DB) (cl : CampaignLead)
    (campaign : Campaign) (lead : Lead) (step : Step) (account : EmailAccount)
    (prev : SentEmail) (m : string) :
  get_lead (cl_lead_id cl) db = Some lead ->
  _is_suppressed db (c_user_id campaign) (l_email lead) = false ->
  find_step db (c_id campaign) (cl_current_step cl + 1) = Some step ->
  _pick_account env db campaign = Some account ->
  1 < st_step_number step ->
  most_recent (filter (same_thread (l_id lead) (c_id campaign)) (sent_emails db))
  = Some prev ->
  se_message_id prev = Some m ->
  m <> EmptyString ->
  exists rq,
    snd (_send_one env db cl campaign) = Some rq
    /\ rq_in_reply_to rq = Some m
    /\ rq_references rq
       = Some (PyStr.join " "
                 (message_ids (filter (same_thread (l_id lead) (c_id campaign))
                                      (sent_emails db)))).
Proof.
  intros Hlead Hsup Hstep Hpick Hnum Hprev Hmid Hne.
  pose proof (find_step_number _ _ _ _ Hstep) as Hn.
  assert (Hthr : threading db (l_id lead) (c_id campaign) (cl_current_step cl + 1)
                 = (Some m,
                    Some (PyStr.join " "
                            (message_ids
                               (filter (same_thread (l_id lead) (c_id campaign))
                                       (sent_emails db)))))).
  { unfold threading.
    destruct (Z.ltb_spec 1 (cl_current_step cl + 1)) as [_|Hle]; [|lia].
    rewrite Hprev, Hmid, (truthy_nonempty m Hne). reflexivity. }
  unfold _send_one. rewrite Hlead, Hsup, Hstep, Hpick.
  unfold prepare. destruct (pick_variant env step) as [[vi st] bt].
  rewrite Hthr.
  destruct (transport env _); cbn [snd]; eexists; split; try reflexivity;
    split; reflexivity.
Qed.

End Threading.

(* ================================================================== *)
(** * The daily reset of the dispatch loop *)
(* ================================================================== *)

Module DailyReset.
Import Db CampaignWorker.
Local Open Scope Z_scope.

Lemma at_midnight_minute (now : datetime) :
  at_midnight now = true <-> now mod usec_per_day < 60 * usec_per_second.
Proof.
  unfold at_midnight, hour, minute, usec_per_day, usec_per_second.
  rewrite andb_true_iff, !Z.eqb_eq.
  change (86400 * 1000000) with 86400000000.
  change (3600 * 1000000) with 3600000000.
  change (60 * 1000000) with 60000000.
  Z.div_mod_to_equations. lia.
Qed.

Lemma reset_zeroes (db : DB) :
  Forall (fun a => ea_sends_today a = 0) (email_accounts (reset_daily_counts db))
  /\ Forall (fun l => ca_sends_today l = 0) (campaign_accounts (reset_daily_counts db)).
Proof.
  unfold reset_daily_counts.
  cbn [email_accounts campaign_accounts with_campaign_accounts with_email_accounts].
  split; apply Forall_forall; intros x Hx; apply in_map_iff in Hx;
    destruct Hx as (y & <- & _); reflexivity.
Qed.

(** C3, as the code has it: an iteration of the dispatch loop zeroes every
    account's and every campaign-account link's [sends_today] exactly
    when its start time lies in the minute 00:00 UTC, and then does so
    before it selects candidates; an iteration that starts at any other
    time resets nothing.  The decision is a function of the start time
    alone: the loop keeps no record of the last reset. *)
Theorem midnight_reset_by_minute :
  forall (it : Iteration) (db : DB),
    (at_midnight (it_now it) = true <->
     it_now it mod usec_per_day < 60 * usec_per_second)
    /\ (at_midnight (it_now it) = true ->
        Forall (fun a => ea_sends_today a = 0)
               (email_accounts (midnight_reset (it_now it) db))
        /\ Forall (fun l => ca_sends_today l = 0)
                  (campaign_accounts (midnight_reset (it_now it) db)))
    /\ (at_midnight (it_now it) = false -> midnight_reset (it_now it) db = db)
    /\ worker_iteration it db
       = process_pending it 0
           (_get_pending_leads (it_query_now it) (midnight_reset (it_now it) db))
           (midnight_reset (it_now it) db).
Proof.
  intros it db. split; [apply at_midnight_minute|].
  split; [|split; [|reflexivity]]; intro H; unfold midnight_reset; rewrite H.
  - apply reset_zeroes.
  - reflexivity.
Qed.

Lemma midnight_reset_by_minute_witness :
  Forall (fun a => ea_sends_today a = 0)
    (email_accounts
       (midnight_reset (it_now (Fixtures.iteration_at (days 1 + Fixtures.seconds 5)))
          Fixtures.db0))
  /\ midnight_reset (it_now (Fixtures.iteration_at (days 1 + Fixtures.seconds 65)))
       Fixtures.db0 = Fixtures.db0.
Proof.
  split.
  - apply (midnight_reset_by_minute
             (Fixtures.iteration_at (days 1 + Fixtures.seconds 5)) Fixtures.db0).
    reflexivity.
  - apply (midnight_reset_by_minute
             (Fixtures.iteration_at (days 1 + Fixtures.seconds 65)) Fixtures.db0).
    reflexivity.
Defined.

(** C3 as stated fails both ways.  When the loop is busy over midnight
    (an iteration starts at 23:59:30, the next at 00:01:05) the new day
    gets no reset and the counters of the day before stay.  When two
    iterations start within the minute 00:00 the reset runs twice, and
    the send made in between is wiped from the counters. *)
Lemma midnight_reset_counterexample :
  (map (fun it => date (it_now it)) Fixtures.its_over_midnight = [0; 1]
   /\ resets_on_day 1 Fixtures.its_over_midnight = 0%nat
   /\ map ea_sends_today (email_accounts Fixtures.db0) = [3; 1]
   /\ map ea_sends_today
        (email_accounts (_worker_loop Fixtures.its_over_midnight Fixtures.db0))
      = [3; 2])
  /\ (map (fun it => date (it_now it)) Fixtures.its_within_minute = [1; 1]
      /\ resets_on_day 1 Fixtures.its_within_minute = 2%nat
      /\ List.length
           (sent_emails (_worker_loop Fixtures.its_within_minute Fixtures.db0))
         = 1%nat
      /\ map ea_sends_today
           (email_accounts (_worker_loop Fixtures.its_within_minute Fixtures.db0))
         = [0; 0]).
Proof. vm_compute. repeat split. Qed.

End DailyReset.

(* ================================================================== *)
(** * Account status after a warmup cycle *)
(* ================================================================== *)

Module WarmupStatus.
Import Db Transport WarmupWorker DbFacts.
Local Open Scope Z_scope.

Lemma refresh_id (db : DB) (a : EmailAccount) : ea_id (refresh db a) = ea_id a.
Proof.
  unfold refresh, get_account.
  destruct (find _ (email_accounts db)) as [r|] eqn:E; [|reflexivity].
  apply find_some in E. now apply String.eqb_eq.
Qed.

Lemma get_account_id (id : string) (db : DB) (row : EmailAccount) :
  get_account id db = Some row -> ea_id row = id.
Proof.
  intro H. apply find_some in H. now apply String.eqb_eq.
Qed.

Lemma get_account_update_other (id id' : string)
    (f : EmailAccount -> EmailAccount) (db : DB) :
  id' <> id ->
  (forall r, ea_id (f r) = ea_id r) ->
  get_account id' (update_account id f db) = get_account id' db.
Proof.
  intros Hne Hf. unfold get_account, update_account.
  cbn [email_accounts with_email_accounts].
  rewrite find_update_other by (intro r; now rewrite Hf).
  destruct (find _ (email_accounts db)) as [r|] eqn:E; [|reflexivity].
  apply find_some in E. destruct E as [_ E]. apply String.eqb_eq in E.
  cbn [option_map]. destruct (String.eqb_spec (ea_id r) id); [congruence|reflexivity].
Qed.

Lemma count_app {A : Type} (p : A -> bool) (l l' : list A) :
  count p (l ++ l') = count p l + count p l'.
Proof.
  unfold count. rewrite filter_app, List.length_app. lia.
Qed.

Lemma count_none {A : Type} (p : A -> bool) (l : list A) :
  Forall (fun x => p x = false) l -> count p l = 0.
Proof.
  unfold count. induction 1 as [|x l Hx _ IH]; [reflexivity|].
  cbn [filter]. now rewrite Hx.
Qed.

Lemma own_turn_refl (id : string) (db : DB) : own_turn id db db.
Proof.
  split; [exists []; now rewrite app_nil_r|]. split; [reflexivity|].
  intros row H. now exists row.
Qed.

Lemma own_turn_trans (id : string) (db1 db2 db3 : DB) :
  own_turn id db1 db2 -> own_turn id db2 db3 -> own_turn id db1 db3.
Proof.
  intros ((n1 & E1 & F1) & O1 & R1) ((n2 & E2 & F2) & O2 & R2).
  split; [|split].
  - exists (n1 ++ n2)%list. split; [now rewrite E2, E1, app_assoc|].
    apply Forall_app. now split.
  - intros id' Hne. now rewrite O2, O1.
  - intros row H. destruct (R1 row H) as (r1 & H1 & W1).
    destruct (R2 r1 H1) as (r2 & H2 & W2). exists r2. split; congruence.
Qed.

Lemma send_to_targets_own (env : AccountEnv) (account : EmailAccount)
    (targets : list EmailAccount) :
  forall (k : nat) (db : DB),
    own_turn (ea_id account) db (fst (send_to_targets env k account targets db)).
Proof.
  induction targets as [|t rest IH]; intros k db; [apply own_turn_refl|].
  cbn [send_to_targets].
  match goal with
  | |- context [send_to_targets env (S k) account rest ?d] =>
      set (db1 := d);
      assert (H1 : own_turn (ea_id account) db db1)
  end.
  { subst db1. destruct (w_transport env k _); [|apply own_turn_refl].
    split; [|split].
    - eexists. split; [reflexivity|]. now constructor.
    - intros id' Hne.
      rewrite get_account_update_other by (auto; reflexivity). reflexivity.
    - intros row H. rewrite get_account_update_account by reflexivity.
      change (get_account (ea_id account) (with_warmup_logs ?l db))
        with (get_account (ea_id account) db).
      rewrite H. cbn [option_map]. eexists. split; reflexivity. }
  specialize (IH (S k) db1).
  destruct (send_to_targets env (S k) account rest db1) as [db2 more].
  cbn [fst] in *. eapply own_turn_trans; eassumption.
Qed.

Lemma sent_since_own_turn (id id' : string) (db db' : DB) (since : datetime) :
  own_turn id db db' -> id' <> id -> sent_since db' id' since = sent_since db id' since.
Proof.
  intros ((new & E & F) & _) Hne. unfold sent_since. rewrite E, count_app.
  rewrite (count_none _ new); [lia|].
  eapply Forall_impl; [|exact F]. cbn beta. intros w Hw. rewrite Hw.
  destruct (String.eqb_spec id id'); [congruence|reflexivity].
Qed.

(** The turn of [account]: its own row ends [warming] when quota
    remains, and nothing at all happens when none does. *)
Lemma warmup_account_own (env : AccountEnv) (accounts : list EmailAccount)
    (account row : EmailAccount) (db : DB) :
  get_account (ea_id account) db = Some row ->
  ea_warmup_enabled row = true ->
  (0 < remaining env db row ->
   exists a', get_account (ea_id account)
                (fst (warmup_account env accounts account db)) = Some a'
              /\ ea_status a' = AccWarming)
  /\ (remaining env db row <= 0 ->
      fst (warmup_account env accounts account db) = db).
Proof.
  intros Hrow Hen.
  assert (Hr : refresh db account = row) by (unfold refresh; now rewrite Hrow).
  pose proof (get_account_id _ _ _ Hrow) as Hid.
  unfold warmup_account. rewrite Hr. cbv zeta.
  destruct (Z.leb_spec (remaining env db row) 0) as [Hle|Hgt].
  - split; [lia | reflexivity].
  - split; [|lia]. intros _.
    match goal with
    | |- context [send_to_targets env 0 row ?ts db] =>
        pose proof (send_to_targets_own env row ts 0 db) as Hown;
        destruct (send_to_targets env 0 row ts db) as [db1 sent]
    end.
    cbn [fst] in *. destruct Hown as (_ & _ & Hmine).
    rewrite Hid in *. destruct (Hmine row Hrow) as (row' & Hrow' & Hen').
    rewrite get_account_update_account by reflexivity.
    rewrite Hrow'. cbn [option_map]. eexists. split; [reflexivity|].
    cbn [ea_status account_with_warmup].
    assert (Hr' : refresh db1 row = row').
    { unfold refresh. now rewrite Hid, Hrow'. }
    now rewrite Hr', Hen', Hen.
Qed.

(** The turn of [account] leaves the rows and the logged sends of every
    other account as they were. *)
Lemma warmup_account_frame (env : AccountEnv) (accounts : list EmailAccount)
    (account : EmailAccount) (db : DB) (id : string) :
  id <> ea_id account ->
  get_account id (fst (warmup_account env accounts account db)) = get_account id db
  /\ forall since,
       sent_since (fst (warmup_account env accounts account db)) id since
       = sent_since db id since.
Proof.
  intro Hne. unfold warmup_account. cbv zeta.
  pose proof (refresh_id db account) as Hid.
  destruct (Z.leb_spec (remaining env db (refresh db account)) 0); [now split|].
  match goal with
  | |- context [send_to_targets env 0 ?acc ?ts db] =>
      pose proof (send_to_targets_own env acc ts 0 db) as Hown;
      destruct (send_to_targets env 0 acc ts db) as [db1 sent]
  end.
  cbn [fst] in *. rewrite Hid in *. split.
  - rewrite get_account_update_other by (auto; reflexivity).
    destruct Hown as (_ & Hothers & _). now apply Hothers.
  - intro since.
    change (sent_since (update_account ?i ?f db1) id since)
      with (sent_since db1 id since).
    now apply (sent_since_own_turn (ea_id account)).
Qed.

Lemma remaining_frame (env : AccountEnv) (db db' : DB) (row : EmailAccount) :
  (forall since, sent_since db' (ea_id row) since = sent_since db (ea_id row) since) ->
  remaining env db' row = remaining env db row.
Proof. intro H. unfold remaining. now rewrite H. Qed.

Lemma warmup_accounts_frame (envs : nat -> AccountEnv) (accounts : list EmailAccount)
    (id : string) (todo : list EmailAccount) :
  forall (i : nat) (db : DB),
    ~ In id (map ea_id todo) ->
    get_account id (fst (warmup_accounts envs i accounts todo db)) = get_account id db.
Proof.
  induction todo as [|b rest IH]; intros i db Hnot; [reflexivity|].
  cbn [warmup_accounts].
  pose proof (warmup_account_frame (envs i) accounts b db id) as Hf.
  destruct (warmup_account (envs i) accounts b db) as [db1 out].
  specialize (IH (S i) db1).
  destruct (warmup_accounts envs (S i) accounts rest db1) as [db2 more].
  cbn [fst] in *. cbn [map In] in Hnot.
  rewrite IH by tauto. apply Hf. intro E. apply Hnot. now left.
Qed.

Lemma warmup_accounts_status (envs : nat -> AccountEnv)
    (accounts : list EmailAccount) (todo : list EmailAccount) :
  forall (i : nat) (db : DB),
    NoDup (map ea_id todo) ->
    forall (j : nat) (a row : EmailAccount),
      nth_error todo j = Some a ->
      get_account (ea_id a) db = Some row ->
      ea_warmup_enabled row = true ->
      exists a',
        get_account (ea_id a) (fst (warmup_accounts envs i accounts todo db))
        = Some a'
        /\ (0 < remaining (envs (i + j)%nat) db row -> ea_status a' = AccWarming)
        /\ (remaining (envs (i + j)%nat) db row <= 0 -> a' = row).
Proof.
  induction todo as [|b rest IH]; intros i db Hnd j a row Hnth Hrow Hen.
  - destruct j; discriminate.
  - cbn [map] in Hnd. inversion Hnd as [|? ? Hnotin Hnd']. subst.
    cbn [warmup_accounts]. destruct j as [|j].
    + cbn [nth_error] in Hnth. injection Hnth as ->.
      rewrite Nat.add_0_r.
      destruct (warmup_account_own (envs i) accounts a row db Hrow Hen)
        as [Hpos Hzero].
      pose proof (warmup_accounts_frame envs accounts (ea_id a) rest (S i)
                    (fst (warmup_account (envs i) accounts a db)) Hnotin) as Hfr.
      destruct (warmup_account (envs i) accounts a db) as [db1 out].
      cbn [fst] in *.
      destruct (warmup_accounts envs (S i) accounts rest db1) as [db2 more].
      cbn [fst] in *. rewrite Hfr.
      destruct (Z.leb_spec (remaining (envs i) db row) 0) as [Hle|Hgt].
      * rewrite (Hzero Hle). exists row. split; [exact Hrow|]. split; [lia|reflexivity].
      * destruct (Hpos Hgt) as (a' & Ha' & Hst). exists a'.
        split; [exact Ha'|]. split; [now intros _|lia].
    + cbn [nth_error] in Hnth.
      assert (Hne : ea_id a <> ea_id b).
      { intro E. apply Hnotin. rewrite <- E. apply in_map.
        eapply nth_error_In. exact Hnth. }
      destruct (warmup_account_frame (envs i) accounts b db (ea_id a) Hne)
        as [Hget Hsent].
      specialize (IH (S i) (fst (warmup_account (envs i) accounts b db)) Hnd' j a row
                     Hnth).
      rewrite Hget in IH. specialize (IH Hrow Hen).
      rewrite <- (get_account_id _ _ _ Hrow) in Hsent.
      rewrite (remaining_frame _ db _ row Hsent) in IH.
      replace (i + S j)%nat with (S i + j)%nat by lia.
      destruct (warmup_account (envs i) accounts b db) as [db1 out].
      cbn [fst] in *.
      destruct (warmup_accounts envs (S i) accounts rest db1) as [db2 more].
      cbn [fst] in *. exact IH.
Qed.

Lemma NoDup_ids_filter (p : EmailAccount -> bool) (l : list EmailAccount) :
  NoDup (map ea_id l) -> NoDup (map ea_id (filter p l)).
Proof.
  induction l as [|x l IH]; intro H; [constructor|].
  cbn [map] in H. inversion H as [|? ? Hnot Hnd]. subst.
  cbn [filter]. destruct (p x); [|now apply IH].
  cbn [map]. constructor; [|now apply IH].
  intro Hin. apply Hnot. apply in_map_iff in Hin. destruct Hin as (y & Ey & Hy).
  apply filter_In in Hy. rewrite <- Ey. apply in_map. tauto.
Qed.

Lemma get_account_unique (db : DB) (a : EmailAccount) :
  NoDup (map ea_id (email_accounts db)) ->
  In a (email_accounts db) ->
  get_account (ea_id a) db = Some a.
Proof.
  unfold get_account. induction (email_accounts db) as [|x l IH]; intros Hnd Hin.
  - destruct Hin.
  - cbn [map] in Hnd. inversion Hnd as [|? ? Hnot Hnd']. subst.
    cbn [find]. destruct (String.eqb_spec (ea_id x) (ea_id a)) as [E|E].
    + destruct Hin as [->|Hin]; [reflexivity|].
      exfalso. apply Hnot. rewrite E. now apply in_map.
    + destruct Hin as [->|Hin]; [congruence | now apply IH].
Qed.

(** C10, as the code has it: in a cycle over a pool of at least two
    accounts (warmup enabled, status [active] or [warming], primary keys
    distinct), an account whose remaining quota for the day (its daily
    target minus the warmup sends it has logged today) is positive when
    its turn comes ends the cycle with status [warming], whatever its
    status was; an account whose quota is used up is skipped and ends the
    cycle with its row, status included, as it was.  With fewer than two
    pool accounts the cycle changes nothing. *)
Theorem warmup_cycle_status :
  forall (envs : nat -> AccountEnv) (db : DB),
    (NoDup (map ea_id (email_accounts db)) ->
     (2 <= List.length (filter in_pool (email_accounts db)))%nat ->
     forall (i : nat) (a : EmailAccount),
       nth_error (filter in_pool (email_accounts db)) i = Some a ->
       exists a',
         get_account (ea_id a) (fst (_warmup_cycle envs db)) = Some a'
         /\ (0 < remaining (envs i) db a -> ea_status a' = AccWarming)
         /\ (remaining (envs i) db a <= 0 -> a' = a))
    /\ ((List.length (filter in_pool (email_accounts db)) < 2)%nat ->
        fst (_warmup_cycle envs db) = db).
Proof.
  intros envs db. split.
  - intros Hnd Hlen i a Hnth. unfold _warmup_cycle.
    destruct (Nat.ltb_spec (List.length (filter in_pool (email_accounts db))) 2);
      [lia|].
    assert (Hin : In a (filter in_pool (email_accounts db)))
      by (eapply nth_error_In; exact Hnth).
    apply filter_In in Hin. destruct Hin as [Hin Hpool].
    apply andb_true_iff in Hpool. destruct Hpool as [Hen _].
    apply (warmup_accounts_status envs _ _ 0 db
             (NoDup_ids_filter in_pool _ Hnd) i a a Hnth
             (get_account_unique db a Hnd Hin) Hen).
  - intro Hlen. unfold _warmup_cycle.
    destruct (Nat.ltb_spec (List.length (filter in_pool (email_accounts db))) 2);
      [reflexivity | lia].
Qed.

(** [w2] still has quota and ends [warming]. *)
Lemma warmup_cycle_status_witness :
  exists a',
    get_account "w2" (fst (_warmup_cycle Fixtures.env_pool Fixtures.db_pool))
    = Some a'
    /\ ea_status a' = AccWarming.
Proof.
  destruct (proj1 (warmup_cycle_status Fixtures.env_pool Fixtures.db_pool)
              ltac:(repeat constructor; cbn; intuition discriminate)
              ltac:(cbn; lia) 1%nat
              (Fixtures.account "w2" AccActive 0 40 true None) eq_refl)
    as (a' & Hget & Hpos & _).
  exists a'. split; [exact Hget|]. apply Hpos. reflexivity.
Defined.

(** C10 as stated fails: [w1] is warmup-enabled, [active], in the pool
    and met without error, but it has used its quota of the day; the
    cycle skips it and it ends the cycle [active], while [w2] ends it
    [warming]. *)
Lemma warmup_cycle_status_counterexample :
  map ea_id (filter in_pool (email_accounts Fixtures.db_pool)) = ["w1"; "w2"]
  /\ map ea_warmup_enabled (email_accounts Fixtures.db_pool) = [true; true]
  /\ map ea_status (email_accounts Fixtures.db_pool) = [AccActive; AccActive]
  /\ map ea_status
       (email_accounts (fst (_warmup_cycle Fixtures.env_pool Fixtures.db_pool)))
     = [AccActive; AccWarming].
Proof. vm_compute. repeat split. Qed.

End WarmupStatus.

(* ================================================================== *)
(** * Terminal statuses are final *)
(* ================================================================== *)

Module Finality.
Import Db Transport CampaignWorker Platform.
Local Open Scope Z_scope.

Lemma pending_active (now : datetime) (db : DB) (cl : CampaignLead) (c : Campaign) :
  In (cl, c) (_get_pending_leads now db) ->
  cl_status cl = Active /\ c_status c = CampActive
  /\ In cl (campaign_leads db) /\ In c (campaigns db)
  /\ cl_campaign_id cl = c_id c /\ next_send_due now cl = true.
Proof.
  unfold _get_pending_leads. intro H.
  assert (H' : In (cl, c)
                 (flat_map
                    (fun cl0 =>
                       map (fun c0 => (cl0, c0))
                         (filter
                            (fun c0 =>
                               String.eqb (cl_campaign_id cl0) (c_id c0)
                               && campaign_active c0
                               && link_active (cl_status cl0)
                               && next_send_due now cl0)
                            (campaigns db)))
                    (campaign_leads db))).
  { rewrite <- (firstn_skipn 20). apply in_or_app. left. exact H. }
  clear H. apply in_flat_map in H'. destruct H' as (cl0 & Hcl & H).
  apply in_map_iff in H. destruct H as (c0 & E & H). injection E as -> ->.
  apply filter_In in H. destruct H as [Hc H].
  repeat (apply andb_true_iff in H; destruct H as [H ?]).
  apply String.eqb_eq in H.
  unfold campaign_active in *. unfold link_active in *.
  destruct (cl_status cl); try discriminate.
  destruct (c_status c); try discriminate.
  auto 10.
Qed.

Lemma keeps_terminal_refl (l : list CampaignLead) : keeps_terminal l l.
Proof. induction l; constructor; auto. Qed.

Lemma keeps_terminal_trans (l1 l2 l3 : list CampaignLead) :
  keeps_terminal l1 l2 -> keeps_terminal l2 l3 -> keeps_terminal l1 l3.
Proof.
  unfold keeps_terminal. intro H. revert l3.
  induction H as [|x y l1 l2 [Hid Hst] _ IH]; intros l3 H3; inversion H3; subst.
  - constructor.
  - constructor; [|now apply IH].
    match goal with Hr : _ /\ _ |- _ => destruct Hr as [Hid' Hst'] end.
    split; [congruence | auto].
Qed.

Lemma keeps_terminal_update (p : CampaignLead -> bool)
    (f : CampaignLead -> CampaignLead) (l : list CampaignLead) :
  (forall r, cl_id (f r) = cl_id r) ->
  (forall r, cl_status (f r) = Active -> cl_status r = Active) ->
  keeps_terminal l (update_where p f l).
Proof.
  intros Hid Hst. induction l as [|x l IH]; [constructor|].
  cbn [update_where map]. constructor; [|exact IH].
  destruct (p x); auto.
Qed.

Lemma keeps_terminal_status (p : CampaignLead -> bool) (s : LinkStatus)
    (l : list CampaignLead) :
  s <> Active -> keeps_terminal l (update_where p (cl_with_status s) l).
Proof.
  intro Hs. apply keeps_terminal_update; [reflexivity|].
  intros r H. cbn in H. congruence.
Qed.

Lemma keeps_terminal_in (l l' : list CampaignLead) (r' : CampaignLead) :
  keeps_terminal l l' -> In r' l' ->
  exists r, In r l /\ cl_id r' = cl_id r
            /\ (cl_status r' = Active -> cl_status r = Active).
Proof.
  induction 1 as [|x y l l' Hxy _ IH]; intros Hin; [destruct Hin|].
  destruct Hin as [<-|Hin].
  - exists x. split; [now left | exact Hxy].
  - destruct (IH Hin) as (r & Hr & H). exists r. split; [now right | exact H].
Qed.

Lemma terminal_kept (id : string) (db db' : DB) :
  keeps_terminal (campaign_leads db) (campaign_leads db') ->
  terminal id db -> terminal id db'.
Proof.
  intros Hk Ht r' Hin Hid Hact.
  destruct (keeps_terminal_in _ _ r' Hk Hin) as (r & Hr & Eid & Hst).
  apply (Ht r Hr); [congruence | auto].
Qed.

Lemma send_one_keeps_terminal (env : SendEnv) (db : DB) (cl : CampaignLead)
    (campaign : Campaign) :
  keeps_terminal (campaign_leads db)
                 (campaign_leads (fst (_send_one env db cl campaign))).
Proof.
  unfold _send_one.
  destruct (get_lead (cl_lead_id cl) db) as [lead|]; [|apply keeps_terminal_refl].
  destruct (_is_suppressed db (c_user_id campaign) (l_email lead)).
  { apply keeps_terminal_status. discriminate. }
  destruct (find_step db (c_id campaign) (cl_current_step cl + 1)) as [step|];
    [|apply keeps_terminal_status; discriminate].
  destruct (_pick_account env db campaign) as [account|]; [|apply keeps_terminal_refl].
  destruct (prepare env db campaign lead account step (cl_current_step cl + 1))
    as [[[vi subject] body] request].
  destruct (transport env request) as [mid|error]; cbn [fst].
  - unfold on_success.
    change (campaign_leads (update_account ?i ?f (update_cl ?j ?g (with_sent_emails ?l db))))
      with (update_where (fun c => String.eqb (cl_id c) j) g (campaign_leads db)).
    destruct (find_step db (c_id campaign) (cl_current_step cl + 1 + 1));
      apply keeps_terminal_update; try reflexivity; intros r H; cbn in H;
      congruence.
  - unfold on_failure. destruct (is_hard_bounce error).
    + change (campaign_leads (update_lead ?i ?f (with_bounces ?l
                (update_cl ?j ?g (update_account ?k ?h db)))))
        with (update_where (fun c => String.eqb (cl_id c) j) g (campaign_leads db)).
      apply keeps_terminal_status. discriminate.
    + apply keeps_terminal_refl.
Qed.

Lemma process_pending_keeps_terminal (it : Iteration)
    (pending : list (CampaignLead * Campaign)) :
  forall (k : nat) (db : DB),
    keeps_terminal (campaign_leads db)
                   (campaign_leads (fst (process_pending it k pending db))).
Proof.
  induction pending as [|[cl campaign] rest IH]; intros k db;
    [apply keeps_terminal_refl|].
  cbn [process_pending].
  destruct (negb (it_running it k)); [apply keeps_terminal_refl|].
  destruct (negb (in_send_window (it_now it) campaign)); [apply IH|].
  destruct (negb (on_send_day (it_now it) campaign)); [apply IH|].
  pose proof (send_one_keeps_terminal (it_env it k) db (refresh db cl) campaign) as H1.
  destruct (_send_one (it_env it k) db (refresh db cl) campaign) as [db1 sent].
  specialize (IH (S k) db1).
  destruct (process_pending it (S k) rest db1) as [db2 more].
  cbn [fst] in *. eapply keeps_terminal_trans; eassumption.
Qed.

Lemma worker_iteration_keeps_terminal (it : Iteration) (db : DB) :
  keeps_terminal (campaign_leads db)
                 (campaign_leads (fst (worker_iteration it db))).
Proof.
  unfold worker_iteration.
  assert (E : campaign_leads (midnight_reset (it_now it) db) = campaign_leads db).
  { unfold midnight_reset. now destruct (at_midnight (it_now it)). }
  rewrite <- E at 1. apply process_pending_keeps_terminal.
Qed.

Lemma send_to_targets_leads (env : WarmupWorker.AccountEnv) (account : EmailAccount)
    (targets : list EmailAccount) :
  forall (k : nat) (db : DB),
    campaign_leads (fst (WarmupWorker.send_to_targets env k account targets db))
    = campaign_leads db.
Proof.
  induction targets as [|t rest IH]; intros k db; [reflexivity|].
  cbn [WarmupWorker.send_to_targets].
  match goal with
  | |- context [WarmupWorker.send_to_targets env (S k) account rest ?d] =>
      set (db1 := d);
      assert (H1 : campaign_leads db1 = campaign_leads db)
        by (subst db1; now destruct (WarmupWorker.w_transport env k _))
  end.
  specialize (IH (S k) db1).
  destruct (WarmupWorker.send_to_targets env (S k) account rest db1) as [db2 more].
  cbn [fst] in *. congruence.
Qed.

Lemma warmup_account_leads (env : WarmupWorker.AccountEnv)
    (accounts : list EmailAccount) (account : EmailAccount) (db : DB) :
  campaign_leads (fst (WarmupWorker.warmup_account env accounts account db))
  = campaign_leads db.
Proof.
  unfold WarmupWorker.warmup_account. cbv zeta.
  destruct (_ <=? 0); [reflexivity|].
  match goal with
  | |- context [WarmupWorker.send_to_targets env 0 ?acc ?ts db] =>
      pose proof (send_to_targets_leads env acc ts 0 db) as H;
      destruct (WarmupWorker.send_to_targets env 0 acc ts db) as [db1 sent]
  end.
  cbn [fst] in *. exact H.
Qed.

Lemma warmup_cycle_leads (envs : nat -> WarmupWorker.AccountEnv) (db : DB) :
  campaign_leads (fst (WarmupWorker._warmup_cycle envs db)) = campaign_leads db.
Proof.
  unfold WarmupWorker._warmup_cycle.
  destruct (_ <? 2)%nat; [reflexivity|].
  generalize (filter WarmupWorker.in_pool (email_accounts db)) at 1 as accounts.
  generalize (filter WarmupWorker.in_pool (email_accounts db)) as todo.
  generalize 0%nat as i. intros i todo. revert i db.
  induction todo as [|a rest IH]; intros i db accounts; [reflexivity|].
  cbn [WarmupWorker.warmup_accounts].
  pose proof (warmup_account_leads (envs i) accounts a db) as H1.
  destruct (WarmupWorker.warmup_account (envs i) accounts a db) as [db1 out].
  specialize (IH (S i) db1 accounts).
  destruct (WarmupWorker.warmup_accounts envs (S i) accounts rest db1) as [db2 more].
  cbn [fst] in *. congruence.
Qed.

Lemma match_reply_keeps_terminal (now : datetime) (irt : string) (db : DB) :
  keeps_terminal (campaign_leads db)
                 (campaign_leads (Routes.match_reply now irt db)).
Proof.
  unfold Routes.match_reply.
  destruct irt as [|c irt]; [apply keeps_terminal_refl|].
  destruct (find _ (sent_emails db)) as [sent|]; [|apply keeps_terminal_refl].
  cbv zeta.
  destruct (find _ (campaign_leads _)) as [cl|]; [|apply keeps_terminal_refl].
  apply keeps_terminal_status. discriminate.
Qed.

Lemma public_unsubscribe_keeps_terminal (user_id email : string) (db : DB) :
  keeps_terminal (campaign_leads db)
                 (campaign_leads (Routes.public_unsubscribe user_id email db)).
Proof.
  unfold Routes.public_unsubscribe. cbv zeta.
  match goal with
  | |- context [find ?p (leads ?d)] =>
      assert (E : campaign_leads d = campaign_leads db)
        by (destruct (find _ (unsubscribes db)); reflexivity);
      destruct (find p (leads d)) as [lead|]
  end.
  - cbn [campaign_leads with_campaign_leads update_lead with_leads].
    rewrite E. apply keeps_terminal_status. discriminate.
  - rewrite E. apply keeps_terminal_refl.
Qed.

Lemma start_campaign_keeps_terminal (now : datetime) (user_id campaign_id : string)
    (db : DB) :
  keeps_terminal (campaign_leads db)
                 (campaign_leads (Routes.start_campaign now user_id campaign_id db)).
Proof.
  unfold Routes.start_campaign.
  destruct (Routes.owned_campaign db user_id campaign_id) as [campaign|];
    [|apply keeps_terminal_refl].
  cbv zeta. destruct (_ && _ && _); [|apply keeps_terminal_refl].
  cbn [campaign_leads update_campaign with_campaigns with_campaign_leads].
  apply keeps_terminal_update; [reflexivity | auto].
Qed.

Lemma pause_campaign_keeps_terminal (user_id campaign_id : string) (db : DB) :
  keeps_terminal (campaign_leads db)
                 (campaign_leads (Routes.pause_campaign user_id campaign_id db)).
Proof.
  unfold Routes.pause_campaign.
  destruct (Routes.owned_campaign db user_id campaign_id);
    apply keeps_terminal_refl.
Qed.

Lemma enrol_terminal (new_id campaign_id lead_id id : string) (db : DB) :
  In id (map cl_id (campaign_leads db)) \/ new_id <> id ->
  terminal id db -> terminal id (Routes.enrol new_id campaign_id lead_id db).
Proof.
  intros Hfresh Ht. unfold Routes.enrol.
  destruct (existsb _ (campaign_leads db)); [exact Ht|].
  destruct (existsb (fun c => String.eqb (cl_id c) new_id) (campaign_leads db))
    eqn:Ex; [exact Ht|].
  assert (Hne : new_id <> id).
  { destruct Hfresh as [Hin|Hne]; [|exact Hne]. intros ->.
    apply in_map_iff in Hin. destruct Hin as (r & Er & Hr).
    assert (existsb (fun c => String.eqb (cl_id c) id) (campaign_leads db) = true).
    { apply existsb_exists. exists r. split; [exact Hr|]. now apply String.eqb_eq. }
    congruence. }
  intros r Hin Hid. cbn [campaign_leads with_campaign_leads] in Hin.
  apply in_app_or in Hin. destruct Hin as [Hin|[<-|[]]].
  - now apply (Ht r).
  - cbn in Hid. congruence.
Qed.

Lemma remove_lead_terminal (user_id campaign_id lead_id id : string) (db : DB) :
  terminal id db ->
  terminal id (Routes.remove_lead_from_campaign user_id campaign_id lead_id db).
Proof.
  intro Ht. unfold Routes.remove_lead_from_campaign.
  destruct (Routes.owned_campaign db user_id campaign_id); [|exact Ht].
  destruct (find _ (campaign_leads db)) as [cl|]; [|exact Ht].
  intros r Hin. cbn [campaign_leads with_campaign_leads] in Hin.
  apply filter_In in Hin. now apply (Ht r).
Qed.

Lemma sync_reply_keeps_terminal (env : Routes.ReplyEnv) (account_id : string)
    (stored : list Routes.InboxMessage) (reply : Routes.Reply)
    (st : list Routes.InboxMessage * DB) :
  keeps_terminal (campaign_leads (snd st))
    (campaign_leads (snd (Routes.sync_reply env account_id stored reply st))).
Proof.
  unfold Routes.sync_reply.
  destruct (Routes.already_stored stored account_id reply);
    [apply keeps_terminal_refl|].
  cbn [snd]. apply match_reply_keeps_terminal.
Qed.

Lemma sync_replies_keeps_terminal (envs : nat -> Routes.ReplyEnv)
    (account_id : string) (stored : list Routes.InboxMessage)
    (replies : list Routes.Reply) :
  forall (k : nat) (st : list Routes.InboxMessage * DB),
    keeps_terminal (campaign_leads (snd st))
      (campaign_leads (snd (Routes.sync_replies envs k account_id stored replies st))).
Proof.
  induction replies as [|reply rest IH]; intros k st; [apply keeps_terminal_refl|].
  cbn [Routes.sync_replies].
  eapply keeps_terminal_trans; [apply sync_reply_keeps_terminal | apply IH].
Qed.

Lemma sync_accounts_keeps_terminal (fetch_replies : EmailAccount -> list Routes.Reply)
    (envs : nat -> Routes.ReplyEnv) (stored : list Routes.InboxMessage)
    (accounts : list EmailAccount) :
  forall (k : nat) (st : list Routes.InboxMessage * DB),
    keeps_terminal (campaign_leads (snd st))
      (campaign_leads
         (snd (Routes.sync_accounts fetch_replies envs k stored accounts st))).
Proof.
  induction accounts as [|a rest IH]; intros k st; [apply keeps_terminal_refl|].
  cbn [Routes.sync_accounts].
  eapply keeps_terminal_trans; [apply sync_replies_keeps_terminal | apply IH].
Qed.

Lemma sync_inbox_keeps_terminal (fetch_replies : EmailAccount -> list Routes.Reply)
    (envs : nat -> Routes.ReplyEnv) (user_id : string)
    (inbox : list Routes.InboxMessage) (db : DB) :
  keeps_terminal (campaign_leads db)
    (campaign_leads (snd (Routes.sync_inbox fetch_replies envs user_id inbox db))).
Proof.
  unfold Routes.sync_inbox. cbv zeta.
  match goal with
  | |- context [Routes.sync_accounts ?f ?e ?k ?i ?a ?st] =>
      pose proof (sync_accounts_keeps_terminal f e i a k st) as H;
      destruct (Routes.sync_accounts f e k i a st) as [added db']
  end.
  exact H.
Qed.

Lemma refresh_cl_id (db : DB) (cl : CampaignLead) : cl_id (refresh db cl) = cl_id cl.
Proof.
  unfold refresh, get_cl.
  destruct (find _ (campaign_leads db)) as [r|] eqn:E; [|reflexivity].
  apply find_some in E. now apply String.eqb_eq.
Qed.

(** A dispatched pair is the head of the batch, with the row's current
    columns. *)
Lemma dispatched_head (op : Op) (st : State) (cl : CampaignLead) (c : Campaign) :
  dispatched op st = Some (cl, c) ->
  exists running env cl0 rest,
    op = WorkerTurn running env
    /\ s_batch st = (cl0, c) :: rest
    /\ cl = refresh (s_db st) cl0
    /\ cl_id cl = cl_id cl0.
Proof.
  destruct op; cbn [dispatched]; try discriminate.
  destruct (s_batch st) as [|[cl0 c0] rest]; [discriminate|].
  destruct (_ && _ && _); [|discriminate].
  intro H. injection H as <- <-.
  exists running, env, cl0, rest. repeat split. apply refresh_cl_id.
Qed.

Lemma apply_op_terminal (op : Op) (st : State) (id : string) :
  In id (map cl_id (campaign_leads (s_db st))) \/ never_reissued id op ->
  terminal id (s_db st) -> terminal id (s_db (apply_op op st)).
Proof.
  intros Hfresh Ht. destruct op; cbn [apply_op].
  - cbn [s_db]. intros r Hin.
    assert (E : campaign_leads (midnight_reset now (s_db st)) = campaign_leads (s_db st)).
    { unfold midnight_reset. now destruct (at_midnight now). }
    rewrite E in Hin. now apply (Ht r).
  - destruct (s_batch st) as [|[cl0 c0] rest] eqn:Eb; [exact Ht|].
    destruct running; cbn [negb]; [|exact Ht].
    cbn [dispatched]. rewrite Eb.
    destruct (_ && _ && _); [|exact Ht].
    cbn [with_batch with_db s_db].
    eapply terminal_kept; [apply send_one_keeps_terminal | exact Ht].
  - cbn [with_db s_db]. intros r Hin. rewrite warmup_cycle_leads in Hin.
    now apply (Ht r).
  - cbn [with_db s_db]. intros r Hin. rewrite warmup_account_leads in Hin.
    now apply (Ht r).
  - pose proof (sync_inbox_keeps_terminal fetch_replies envs user_id
                  (s_inbox st) (s_db st)) as H.
    destruct (Routes.sync_inbox fetch_replies envs user_id (s_inbox st) (s_db st))
      as [inbox db'].
    cbn [s_db snd] in *. eapply terminal_kept; [exact H | exact Ht].
  - eapply terminal_kept; [apply public_unsubscribe_keeps_terminal | exact Ht].
  - eapply terminal_kept; [apply start_campaign_keeps_terminal | exact Ht].
  - eapply terminal_kept; [apply pause_campaign_keeps_terminal | exact Ht].
  - apply enrol_terminal; assumption.
  - now apply remove_lead_terminal.
Qed.

(** No pair of the batch in hand has the key [id]. *)
Lemma apply_op_batch (op : Op) (st : State) (id : string) :
  terminal id (s_db st) ->
  (forall p, In p (s_batch st) -> cl_id (fst p) <> id) ->
  forall p, In p (s_batch (apply_op op st)) -> cl_id (fst p) <> id.
Proof.
  intros Ht Hb. destruct op; cbn [apply_op]; try exact Hb.
  - cbn [s_batch]. intros [cl c] Hin Hid. cbn [fst] in Hid.
    destruct (pending_active _ _ cl c Hin) as (Hact & _ & Hrow & _).
    assert (E : campaign_leads (midnight_reset now (s_db st)) = campaign_leads (s_db st)).
    { unfold midnight_reset. now destruct (at_midnight now). }
    rewrite E in Hrow. exact (Ht cl Hrow Hid Hact).
  - destruct (s_batch st) as [|[cl0 c0] rest] eqn:Eb; [now rewrite Eb|].
    destruct running; cbn [negb]; [|intros p []].
    assert (Hrest : forall p, In p rest -> cl_id (fst p) <> id).
    { intros p Hp. apply Hb. now right. }
    cbn [dispatched]. rewrite Eb. destruct (_ && _ && _); exact Hrest.
  - destruct (Routes.sync_inbox fetch_replies envs user_id (s_inbox st) (s_db st)).
    exact Hb.
Qed.

Lemma run_terminal (ops : list Op) :
  forall (st : State) (id : string),
    terminal id (s_db st) -> Forall (never_reissued id) ops ->
    terminal id (s_db (run ops st))
    /\ ((forall p, In p (s_batch st) -> cl_id (fst p) <> id) ->
        forall p, In p (s_batch (run ops st)) -> cl_id (fst p) <> id).
Proof.
  induction ops as [|op ops IH]; intros st id Ht Hf; [split; auto|].
  inversion Hf as [|? ? Hop Hops]. subst.
  change (run (op :: ops) st) with (run ops (apply_op op st)).
  assert (Ht' : terminal id (s_db (apply_op op st)))
    by (apply apply_op_terminal; [now right | exact Ht]).
  destruct (IH (apply_op op st) id Ht' Hops) as [H1 H2].
  split; [exact H1|]. intro Hb. apply H2. now apply apply_op_batch.
Qed.

Lemma run_app (ops1 ops2 : list Op) (st : State) :
  run (ops1 ++ ops2) st = run ops2 (run ops1 st).
Proof. unfold run. apply fold_left_app. Qed.

(** One iteration of the loop is its fetch followed by its turns, when
    nothing else happens in between. *)
Lemma turns_as_process_pending (it : Iteration) (n : nat) :
  forall (k : nat) (st : State),
    s_now st = it_now it ->
    (List.length (s_batch st) <= n)%nat ->
    s_db (run (map (fun j => WorkerTurn (it_running it j) (it_env it j)) (seq k n)) st)
    = fst (process_pending it k (s_batch st) (s_db st)).
Proof.
  induction n as [|n IH]; intros k st Hnow Hlen.
  - destruct (s_batch st); [reflexivity | cbn in Hlen; lia].
  - cbn [seq map]. 
    change (run (?op :: ?ops) st) with (run ops (apply_op op st)).
    destruct (s_batch st) as [|[cl c] rest] eqn:Eb.
    + cbn [apply_op]. rewrite Eb. rewrite IH; [now rewrite Eb | exact Hnow|].
      rewrite Eb. cbn. lia.
    + cbn [List.length] in Hlen. cbn [apply_op process_pending]. rewrite Eb.
      destruct (it_running it k); cbn [negb].
      2: { rewrite IH; [reflexivity | exact Hnow | cbn; lia]. }
      cbn [dispatched]. rewrite Eb, Hnow. cbn [andb].
      destruct (in_send_window (it_now it) c); cbn [negb andb].
      2: { rewrite IH; [reflexivity | exact Hnow | cbn; lia]. }
      destruct (on_send_day (it_now it) c); cbn [negb].
      2: { rewrite IH; [reflexivity | exact Hnow | cbn; lia]. }
      rewrite IH; [| exact Hnow | cbn; lia].
      cbn [with_batch with_db s_db s_batch].
      destruct (_send_one (it_env it k) (s_db st) (refresh (s_db st) cl) c)
        as [db1 sent].
      cbn [fst]. now destruct (process_pending it (S k) rest db1).
Qed.

Lemma run_cons (op : Op) (ops : list Op) (st : State) :
  run (op :: ops) st = run ops (apply_op op st).
Proof. reflexivity. Qed.

Lemma turns_make_iteration (it : Iteration) (st : State) :
  s_db (run (WorkerFetch (it_now it) (it_query_now it) :: turns_of it 20) st)
  = fst (worker_iteration it (s_db st)).
Proof.
  rewrite run_cons. unfold turns_of.
  rewrite turns_as_process_pending; [reflexivity | reflexivity|].
  cbn [apply_op s_batch]. unfold _get_pending_leads. apply firstn_le_length.
Qed.

End Finality.

(* ================================================================== *)
(** * Suppression *)
(* ================================================================== *)

Module Suppression.
Import Db Transport CampaignWorker DbFacts.
Local Open Scope Z_scope.

Lemma find_some_iff {A : Type} (p : A -> bool) (l : list A) :
  (exists x, find p l = Some x) <-> exists x, In x l /\ p x = true.
Proof.
  split.
  - intros (x & H). exists x. now apply find_some in H.
  - intros (x & Hin & Hp). now apply (find_present p l x).
Qed.

Lemma is_suppressed_spec (db : DB) (user_id email : string) :
  _is_suppressed db user_id email = true
  <-> ((exists u, In u (unsubscribes db)
                  /\ u_user_id u = user_id /\ u_email u = email)
       \/ (exists b, In b (bounces db)
                     /\ b_user_id b = user_id /\ b_email b = email
                     /\ b_bounce_type b = Hard)).
Proof.
  unfold _is_suppressed.
  set (pu := fun u => String.eqb (u_user_id u) user_id && String.eqb (u_email u) email).
  set (pb := fun b => String.eqb (b_user_id b) user_id
                      && String.eqb (b_email b) email && is_hard b).
  assert (Hu : (exists x, find pu (unsubscribes db) = Some x)
               <-> exists u, In u (unsubscribes db)
                             /\ u_user_id u = user_id /\ u_email u = email).
  { rewrite find_some_iff. split; intros (u & Hin & H); exists u; split; auto.
    - unfold pu in H. apply andb_true_iff in H. now rewrite !String.eqb_eq in H.
    - unfold pu. destruct H as [-> ->]. now rewrite !String.eqb_refl. }
  assert (Hb : (exists x, find pb (bounces db) = Some x)
               <-> exists b, In b (bounces db)
                             /\ b_user_id b = user_id /\ b_email b = email
                             /\ b_bounce_type b = Hard).
  { rewrite find_some_iff. split; intros (b & Hin & H); exists b; split; auto.
    - unfold pb in H. apply andb_true_iff in H. destruct H as [H Hh].
      apply andb_true_iff in H. rewrite !String.eqb_eq in H.
      unfold is_hard in Hh. destruct (b_bounce_type b); [tauto | discriminate].
    - unfold pb, is_hard. destruct H as (-> & -> & ->).
      now rewrite !String.eqb_refl. }
  destruct (find pu (unsubscribes db)) as [u|] eqn:Eu.
  - split; [intros _; left; apply Hu; now exists u | reflexivity].
  - destruct (find pb (bounces db)) as [b|] eqn:Eb.
    + split; [intros _; right; apply Hb; now exists b | reflexivity].
    + split; [discriminate|].
      intros [H|H]; [apply Hu in H | apply Hb in H]; destruct H; discriminate.
Qed.

(** X1: an address is suppressed for a tenant exactly when the tenant has
    an Unsubscribe row for it or a Bounce row of type [hard] for it; soft
    bounces alone never suppress. *)
Theorem is_suppressed_iff :
  forall (db : DB) (user_id email : string),
    _is_suppressed db user_id email = true
    <-> ((exists u, In u (unsubscribes db)
                    /\ u_user_id u = user_id /\ u_email u = email)
         \/ (exists b, In b (bounces db)
                       /\ b_user_id b = user_id /\ b_email b = email
                       /\ b_bounce_type b = Hard)).
Proof.
  intros db user_id email. apply is_suppressed_spec.
Qed.

(** A suppressed address gets no send: the link is marked
    [unsubscribed] and no other table is written. *)
Lemma suppressed_no_send (env : SendEnv) (db : DB) (cl : CampaignLead)
    (campaign : Campaign) (lead : Lead) :
  get_lead (cl_lead_id cl) db = Some lead ->
  _is_suppressed db (c_user_id campaign) (l_email lead) = true ->
  _send_one env db cl campaign
  = (update_cl (cl_id cl) (cl_with_status Unsubscribed) db, None).
Proof.
  intros Hlead Hsup. unfold _send_one. now rewrite Hlead, Hsup.
Qed.

Lemma unsubscribe_suppresses (user_id email : string) (db : DB) :
  _is_suppressed (Routes.public_unsubscribe user_id email db) user_id email = true.
Proof.
  apply is_suppressed_spec. left.
  unfold Routes.public_unsubscribe. cbv zeta.
  set (pu := fun u => String.eqb (u_user_id u) user_id && String.eqb (u_email u) email).
  assert (H : exists u, In u (unsubscribes
                (match find pu (unsubscribes db) with
                 | Some _ => db
                 | None =>
                     with_unsubscribes
                       (unsubscribes db
                        ++ [{| u_user_id := user_id; u_email := email;
                               u_source := "link" |}]) db
                 end))
              /\ u_user_id u = user_id /\ u_email u = email).
  { destruct (find pu (unsubscribes db)) as [u|] eqn:E.
    - apply find_some in E. destruct E as [Hin E]. unfold pu in E.
      apply andb_true_iff in E. rewrite !String.eqb_eq in E. now exists u.
    - eexists. split; [cbn [unsubscribes with_unsubscribes]; apply in_or_app; right;
                        left; reflexivity|]. now split. }
  destruct H as (u & Hin & Hu). exists u. split; [|exact Hu].
  match goal with
  | |- In u (unsubscribes (match ?f with Some _ => _ | None => _ end)) =>
      destruct f; exact Hin
  end.
Qed.

(** X2: after the public unsubscribe of an address for a tenant, a dispatch
    of any lead with that address in a campaign of that tenant sends
    nothing; it marks the CampaignLead [unsubscribed] and leaves the
    accounts and the SentEmail log as they are. *)
Theorem unsubscribe_blocks_dispatch :
  forall (env : SendEnv) (db : DB) (user_id email : string)
         (cl : CampaignLead) (campaign : Campaign) (lead : Lead),
    get_lead (cl_lead_id cl) (Routes.public_unsubscribe user_id email db) = Some lead ->
    l_email lead = email ->
    c_user_id campaign = user_id ->
    snd (_send_one env (Routes.public_unsubscribe user_id email db) cl campaign) = None
    /\ sent_emails (fst (_send_one env (Routes.public_unsubscribe user_id email db)
                           cl campaign))
       = sent_emails db
    /\ email_accounts (fst (_send_one env (Routes.public_unsubscribe user_id email db)
                              cl campaign))
       = email_accounts db
    /\ forall r, In r (campaign_leads
                         (fst (_send_one env (Routes.public_unsubscribe user_id email db)
                                 cl campaign))) ->
                 cl_id r = cl_id cl -> cl_status r = Unsubscribed.
Proof.
  intros env db user_id email cl campaign lead Hlead He Hu.
  rewrite (suppressed_no_send env _ cl campaign lead Hlead)
    by (rewrite He, Hu; apply unsubscribe_suppresses).
  cbn [fst snd]. split; [reflexivity|].
  assert (Hs : sent_emails (Routes.public_unsubscribe user_id email db) = sent_emails db
               /\ email_accounts (Routes.public_unsubscribe user_id email db)
                  = email_accounts db).
  { unfold Routes.public_unsubscribe. cbv zeta.
    destruct (find _ (unsubscribes db)); destruct (find _ (leads _)); split; reflexivity. }
  split; [apply Hs|]. split; [apply Hs|].
  intros r Hin Hid. cbn [campaign_leads update_cl with_campaign_leads] in Hin.
  unfold update_where in Hin. apply in_map_iff in Hin. destruct Hin as (r0 & E & _).
  destruct (String.eqb_spec (cl_id r0) (cl_id cl)) as [_|Hne]; subst r;
    [reflexivity | contradiction].
Qed.

Lemma unsubscribe_blocks_dispatch_witness :
  snd (_send_one Fixtures.env_sent
         (Routes.public_unsubscribe "u1" "sam@acme.io" Fixtures.db0)
         (Fixtures.cl_at 0) Fixtures.camp1) = None.
Proof.
  apply (unsubscribe_blocks_dispatch Fixtures.env_sent Fixtures.db0 "u1" "sam@acme.io"
           (Fixtures.cl_at 0) Fixtures.camp1
           (lead_with_status LeadUnsubscribed Fixtures.lead1)
           eq_refl eq_refl eq_refl).
Defined.

(** X3: when a send fails with a hard bounce, the address is suppressed
    for the tenant from then on: a later dispatch of any lead with that
    address in any campaign of the tenant sends nothing. *)
Theorem hard_bounce_suppresses :
  forall (env : SendEnv) (db : DB) (cl : CampaignLead) (campaign : Campaign)
         (lead : Lead) (step : Step) (account : EmailAccount)
         (variant_index : nat) (subject body : string) (request : SendRequest)
         (error : string),
    get_lead (cl_lead_id cl) db = Some lead ->
    _is_suppressed db (c_user_id campaign) (l_email lead) = false ->
    find_step db (c_id campaign) (cl_current_step cl + 1) = Some step ->
    _pick_account env db campaign = Some account ->
    prepare env db campaign lead account step (cl_current_step cl + 1)
    = (variant_index, subject, body, request) ->
    transport env request = SendError error ->
    is_hard_bounce error = true ->
    _is_suppressed (fst (_send_one env db cl campaign))
      (c_user_id campaign) (l_email lead) = true
    /\ forall (env' : SendEnv) (cl' : CampaignLead) (campaign' : Campaign)
              (lead' : Lead),
         get_lead (cl_lead_id cl') (fst (_send_one env db cl campaign)) = Some lead' ->
         l_email lead' = l_email lead ->
         c_user_id campaign' = c_user_id campaign ->
         snd (_send_one env' (fst (_send_one env db cl campaign)) cl' campaign') = None.
Proof.
  intros env db cl campaign lead step account vi subject body request error
         Hlead Hsup Hstep Hpick Hprep Hsend Hhard.
  assert (Hs : _is_suppressed (fst (_send_one env db cl campaign))
                 (c_user_id campaign) (l_email lead) = true).
  { rewrite (Sequencer.send_one_attempt env db cl campaign lead step account vi
               subject body request Hlead Hsup Hstep Hpick Hprep), Hsend.
    cbn [fst]. unfold on_failure. rewrite Hhard.
    apply is_suppressed_spec. right. eexists. split.
    - cbn [bounces update_lead with_leads with_bounces].
      apply in_or_app. right. left. reflexivity.
    - cbn. auto. }
  split; [exact Hs|].
  intros env' cl' campaign' lead' Hlead' He Hu.
  rewrite (suppressed_no_send env' _ cl' campaign' lead' Hlead');
    [reflexivity | now rewrite He, Hu].
Qed.

Lemma hard_bounce_suppresses_witness :
  _is_suppressed (fst (_send_one Fixtures.env_refused Fixtures.db0 (Fixtures.cl_at 0)
                         Fixtures.camp1)) "u1" "sam@acme.io" = true.
Proof.
  apply (hard_bounce_suppresses Fixtures.env_refused Fixtures.db0 (Fixtures.cl_at 0)
           Fixtures.camp1 Fixtures.lead1 (Fixtures.step 1 0) Fixtures.a2
           (fst (fst (fst Fixtures.prepared1))) (snd (fst (fst Fixtures.prepared1)))
           (snd (fst Fixtures.prepared1)) (snd Fixtures.prepared1)
           "550 5.1.1 Mailbox does Not Exist"
           eq_refl eq_refl eq_refl eq_refl eq_refl eq_refl eq_refl).
Defined.

End Suppression.

(* ================================================================== *)
(** * Final statuses under interleaving *)
(* ================================================================== *)

Module FinalStatus.
Import Db Transport CampaignWorker Platform Finality.
Local Open Scope Z_scope.

(** C7: candidate selection returns only pairs whose CampaignLead is
    [active] and whose Campaign is [active].  No operation (a fetch or a
    turn of the dispatch loop, a warmup cycle or one account's turn in
    it, an inbox sync, the public
    unsubscribe, starting or pausing a campaign, enrolling a lead,
    removing a lead from a campaign) turns a CampaignLead row that is not
    [active] into an [active] one.  Hence, after any sequence of these
    operations, in any order, a CampaignLead that was in a status other
    than [active] still is, and is not among the candidates of any later
    fetch; and a turn of the loop hands it to [_send_one] only if its pair
    was in the batch the loop already held when the sequence began.  (For
    the sequence, the primary key of the row is not handed out a second
    time to a new enrolment.)  Whatever pair it is handed, [_send_one]
    makes no request for an address that has an Unsubscribe row or a hard
    Bounce row of the campaign's tenant. *)
Theorem terminal_lead_never_dispatched :
  (forall (now : datetime) (db : DB) (cl : CampaignLead) (c : Campaign),
     In (cl, c) (_get_pending_leads now db) ->
     cl_status cl = Active /\ c_status c = CampActive /\ In cl (campaign_leads db))
  /\ (forall (op : Op) (st : State) (id : string),
        In id (map cl_id (campaign_leads (s_db st))) ->
        (forall r, In r (campaign_leads (s_db st)) -> cl_id r = id ->
                   cl_status r <> Active) ->
        forall r, In r (campaign_leads (s_db (apply_op op st))) -> cl_id r = id ->
                  cl_status r <> Active)
  /\ (forall (ops : list Op) (st : State) (id : string),
        (forall r, In r (campaign_leads (s_db st)) -> cl_id r = id ->
                   cl_status r <> Active) ->
        Forall (never_reissued id) ops ->
        (forall r, In r (campaign_leads (s_db (run ops st))) -> cl_id r = id ->
                   cl_status r <> Active)
        /\ (forall (now : datetime) (cl : CampaignLead) (c : Campaign),
              In (cl, c) (_get_pending_leads now (s_db (run ops st))) ->
              cl_id cl <> id)
        /\ ((forall p, In p (s_batch st) -> cl_id (fst p) <> id) ->
            forall (before after : list Op) (op : Op)
                   (cl : CampaignLead) (c : Campaign),
              ops = (before ++ op :: after)%list ->
              dispatched op (run before st) = Some (cl, c) ->
              cl_id cl <> id))
  /\ (forall (env : SendEnv) (db : DB) (cl : CampaignLead) (campaign : Campaign)
             (lead : Lead),
        get_lead (cl_lead_id cl) db = Some lead ->
        (exists u, In u (unsubscribes db)
                   /\ u_user_id u = c_user_id campaign /\ u_email u = l_email lead)
        \/ (exists b, In b (bounces db)
                      /\ b_user_id b = c_user_id campaign /\ b_email b = l_email lead
                      /\ b_bounce_type b = Hard) ->
        snd (_send_one env db cl campaign) = None
        /\ sent_emails (fst (_send_one env db cl campaign)) = sent_emails db).
Proof.
  split; [|split; [|split]].
  4: { intros env db cl campaign lead Hlead Hsup.
       rewrite (Suppression.suppressed_no_send env db cl campaign lead Hlead)
         by (now apply Suppression.is_suppressed_spec).
       split; reflexivity. }
  - intros now db cl c H.
    destruct (pending_active now db cl c H) as (H1 & H2 & H3 & _). auto.
  - intros op st id Hin Ht. apply apply_op_terminal; [now left | exact Ht].
  - intros ops st id Ht Hf.
    destruct (run_terminal ops st id Ht Hf) as [Hr _]. split; [exact Hr|].
    split.
    + intros now cl c Hin Hid.
      destruct (pending_active now _ cl c Hin) as (Hact & _ & Hrow & _).
      exact (Hr cl Hrow Hid Hact).
    + intros Hb before after op cl c Hops Hd.
      rewrite Hops in Hf. apply Forall_app in Hf. destruct Hf as [Hf _].
      destruct (run_terminal before st id Ht Hf) as [_ Hclean].
      destruct (dispatched_head op _ cl c Hd) as (running & env & cl0 & rest & _ & Eb & _ & Eid).
      rewrite Eid. apply (Hclean Hb (cl0, c)). rewrite Eb. now left.
Qed.

(** The bounced lead of [st_bounced] through two iterations of the loop
    and the requests between them: the other lead of the campaign gets
    its first step, the bounced one stays as it is. *)
Lemma terminal_lead_never_dispatched_witness :
  (forall r, In r (campaign_leads (s_db (run Fixtures.ops_after_bounce
                                          Fixtures.st_bounced))) ->
             cl_id r = "cl1" -> cl_status r <> Active)
  /\ map se_lead_id
       (sent_emails (s_db (run Fixtures.ops_after_bounce Fixtures.st_bounced)))
     = ["l2"].
Proof.
  split; [|reflexivity].
  apply (proj1 (proj2 (proj2 terminal_lead_never_dispatched))
           Fixtures.ops_after_bounce Fixtures.st_bounced "cl1").
  - intros r [<-|[<-|[]]]; cbn; intros; discriminate.
  - unfold Fixtures.ops_after_bounce.
    repeat constructor; cbn; discriminate.
Defined.

(** The loop fetches its batch while the lead is [active]; the lead's
    reply is matched before the lead's turn; the turn still sends it
    step 2. *)
Lemma terminal_lead_dispatched_counterexample :
  (forall r, In r (campaign_leads (s_db Fixtures.st_replied_in_batch)) ->
             cl_id r = "cl1" -> cl_status r = Replied)
  /\ (exists cl,
        dispatched Fixtures.turn_after_reply Fixtures.st_replied_in_batch
        = Some (cl, Fixtures.camp1)
        /\ cl_id cl = "cl1" /\ cl_status cl = Replied)
  /\ map se_step_id
       (sent_emails (s_db (apply_op Fixtures.turn_after_reply
                             Fixtures.st_replied_in_batch)))
     = ["s1"; "s2"]
  /\ map (fun r => (cl_id r, cl_current_step r))
       (campaign_leads (s_db (apply_op Fixtures.turn_after_reply
                                Fixtures.st_replied_in_batch)))
     = [("cl1", 2)].
Proof.
  split; [|split; [|split]].
  - intros r [<-|[]] _. reflexivity.
  - eexists. split; [reflexivity|]. split; reflexivity.
  - reflexivity.
  - reflexivity.
Qed.

End FinalStatus.

(* ================================================================== *)
(** * Capacity: allocation under every strategy, and the daily limit *)
(* ================================================================== *)

Module Capacity.
Import Db Transport CampaignWorker DbFacts Invariants.
Local Open Scope Z_scope.

Lemma picked_is_candidate (env : SendEnv) (db : DB) (campaign : Campaign)
    (account : EmailAccount) :
  _pick_account env db campaign = Some account ->
  In account (linked_eligible db campaign).
Proof.
  intro H. unfold _pick_account in H.
  destruct (filter _ (campaign_accounts db)) as [|l0 ls]; [discriminate|].
  destruct (linked_eligible db campaign) as [|a0 rest]; [discriminate|].
  destruct (c_rotation_strategy campaign).
  - injection H as <-.
    destruct (Allocator.py_min_first ea_sends_today rest a0) as (b & a & Eq & _).
    rewrite Eq. apply in_or_app. right. now left.
  - destruct (weighted_draw _ _ _) as [acc|] eqn:W.
    + injection H as <-.
      remember (a0 :: rest) as accounts eqn:Ea. clear Ea.
      revert W. generalize 0. clear.
      induction accounts as [|x xs IH]; intros c W; [discriminate|].
      cbn [map weighted_draw] in W.
      destruct (QArith_base.Qle_bool _ _).
      * injection W as <-. now left.
      * right. eapply IH. exact W.
    + injection H as <-. now left.
  - injection H as <-.
    destruct (nth_in_or_default (pick_choice env mod Datatypes.length (a0 :: rest))
                (a0 :: rest) a0) as [Hn|Hn]; [exact Hn | left; symmetry; exact Hn].
Qed.

(** X4: whatever the rotation strategy and the random inputs, the account
    [_pick_account] returns is a row of [email_accounts] that is linked to
    the campaign, has status [active] or [warming], and has
    [sends_today < daily_limit] at the moment of allocation. *)
Theorem pick_account_has_capacity :
  forall (env : SendEnv) (db : DB) (campaign : Campaign) (a : EmailAccount),
    _pick_account env db campaign = Some a ->
    In a (email_accounts db)
    /\ (exists link, In link (campaign_accounts db)
                     /\ ca_campaign_id link = c_id campaign
                     /\ ca_account_id link = ea_id a)
    /\ (ea_status a = AccActive \/ ea_status a = AccWarming)
    /\ ea_sends_today a < ea_daily_limit a.
Proof.
  intros env db campaign a H.
  apply Allocator.linked_eligible_spec. now apply (picked_is_candidate env).
Qed.

Lemma pick_account_has_capacity_witness :
  ea_sends_today Fixtures.a1 < ea_daily_limit Fixtures.a1.
Proof.
  apply (pick_account_has_capacity Fixtures.env_third Fixtures.db2 Fixtures.camp1
           Fixtures.a1 eq_refl).
Defined.

Lemma same_id_same_row (l : list EmailAccount) (x y : EmailAccount) :
  NoDup (map ea_id l) -> In x l -> In y l -> ea_id x = ea_id y -> x = y.
Proof.
  induction l as [|z l IH]; intros Hnd Hx Hy E; [destruct Hx|].
  cbn [map] in Hnd. inversion Hnd as [|? ? Hnot Hnd']. subst.
  destruct Hx as [->|Hx], Hy as [->|Hy]; auto.
  - exfalso. apply Hnot. rewrite E. now apply in_map.
  - exfalso. apply Hnot. rewrite <- E. now apply in_map.
Qed.

Lemma ids_update_where (p : EmailAccount -> bool) (f : EmailAccount -> EmailAccount)
    (l : list EmailAccount) :
  (forall r, ea_id (f r) = ea_id r) ->
  map ea_id (update_where p f l) = map ea_id l.
Proof.
  intro Hf. unfold update_where. rewrite map_map. apply map_ext.
  intro r. destruct (p r); [apply Hf | reflexivity].
Qed.

Lemma send_one_keeps_limits (env : SendEnv) (db : DB) (cl : CampaignLead)
    (campaign : Campaign) :
  distinct_accounts db -> within_limits db ->
  distinct_accounts (fst (_send_one env db cl campaign))
  /\ within_limits (fst (_send_one env db cl campaign)).
Proof.
  intros Hnd Hw. unfold _send_one.
  destruct (get_lead (cl_lead_id cl) db) as [lead|]; [|now split].
  destruct (_is_suppressed db (c_user_id campaign) (l_email lead)); [now split|].
  destruct (find_step db (c_id campaign) (cl_current_step cl + 1)) as [step|];
    [|now split].
  destruct (_pick_account env db campaign) as [account|] eqn:Hpick; [|now split].
  destruct (prepare env db campaign lead account step (cl_current_step cl + 1))
    as [[[vi subject] body] request].
  destruct (Allocator.linked_eligible_spec db campaign account
              (picked_is_candidate env db campaign account Hpick))
    as (Hin & _ & _ & Hcap).
  destruct (transport env request) as [mid|error]; cbn [fst].
  - unfold on_success, distinct_accounts, within_limits.
    cbn [email_accounts update_account with_email_accounts update_cl
         with_campaign_leads with_sent_emails].
    split; [now rewrite ids_update_where by reflexivity|].
    intros a Ha. unfold update_where in Ha. apply in_map_iff in Ha.
    destruct Ha as (r & <- & Hr).
    destruct (String.eqb_spec (ea_id r) (ea_id account)) as [E|_]; [|now apply Hw].
    assert (r = account) by (apply (same_id_same_row _ _ _ Hnd Hr Hin E)). subst r.
    cbn. destruct (Hw account Hin). lia.
  - assert (E : email_accounts (on_failure env db cl campaign lead account error)
                = update_where (fun a => String.eqb (ea_id a) (ea_id account))
                    (account_with_last_error (Some (PyStr.take 200 error)))
                    (email_accounts db)).
    { unfold on_failure. now destruct (is_hard_bounce error). }
    unfold distinct_accounts, within_limits. rewrite E.
    split; [now rewrite ids_update_where by reflexivity|].
    intros a Ha. unfold update_where in Ha. apply in_map_iff in Ha.
    destruct Ha as (r & <- & Hr).
    destruct (String.eqb (ea_id r) (ea_id account)); [cbn|]; now apply Hw.
Qed.

Lemma process_pending_keeps_limits (it : Iteration)
    (pending : list (CampaignLead * Campaign)) :
  forall (k : nat) (db : DB),
    distinct_accounts db -> within_limits db ->
    distinct_accounts (fst (process_pending it k pending db))
    /\ within_limits (fst (process_pending it k pending db)).
Proof.
  induction pending as [|[cl campaign] rest IH]; intros k db Hnd Hw; [now split|].
  cbn [process_pending].
  destruct (negb (it_running it k)); [now split|].
  destruct (negb (in_send_window (it_now it) campaign)); [now apply IH|].
  destruct (negb (on_send_day (it_now it) campaign)); [now apply IH|].
  destruct (send_one_keeps_limits (it_env it k) db (refresh db cl) campaign Hnd Hw)
    as [Hnd1 Hw1].
  destruct (_send_one (it_env it k) db (refresh db cl) campaign) as [db1 sent].
  cbn [fst] in *. specialize (IH (S k) db1 Hnd1 Hw1).
  destruct (process_pending it (S k) rest db1) as [db2 more]. exact IH.
Qed.

Lemma midnight_reset_keeps_limits (now : datetime) (db : DB) :
  distinct_accounts db -> within_limits db ->
  distinct_accounts (midnight_reset now db) /\ within_limits (midnight_reset now db).
Proof.
  intros Hnd Hw. unfold midnight_reset. destruct (at_midnight now); [|now split].
  unfold distinct_accounts, within_limits, reset_daily_counts.
  cbn [email_accounts with_campaign_accounts with_email_accounts].
  split; [now rewrite map_map|].
  intros a Ha. apply in_map_iff in Ha. destruct Ha as (r & <- & Hr).
  cbn. destruct (Hw r Hr). lia.
Qed.

(** X5: the dispatch loop keeps every account within its daily limit.
    If the accounts have distinct primary keys, non-negative limits and
    [sends_today <= daily_limit], then this still holds after any number
    of iterations of the loop, whatever the transport answers. *)
Theorem worker_loop_within_limits :
  forall (its : list Iteration) (db : DB),
    distinct_accounts db ->
    within_limits db ->
    distinct_accounts (_worker_loop its db) /\ within_limits (_worker_loop its db).
Proof.
  induction its as [|it its IH]; intros db Hnd Hw; [now split|].
  cbn [_worker_loop]. apply IH; unfold worker_iteration;
    destruct (midnight_reset_keeps_limits (it_now it) db Hnd Hw) as [H1 H2];
    now apply process_pending_keeps_limits.
Qed.

Lemma worker_loop_within_limits_witness :
  within_limits (_worker_loop Fixtures.its_over_midnight Fixtures.db0).
Proof.
  apply (worker_loop_within_limits Fixtures.its_over_midnight Fixtures.db0).
  - unfold distinct_accounts. cbn. repeat constructor; cbn; intuition discriminate.
  - intros a [<-|[<-|[]]]; cbn; lia.
Defined.

End Capacity.

(* ================================================================== *)
(** * What one dispatch and one iteration can and cannot change *)
(* ================================================================== *)

Module Dispatch.
Import Db Transport CampaignWorker DbFacts.
Local Open Scope Z_scope.

Lemma get_cl_update_other (id id' : string) (f : CampaignLead -> CampaignLead)
    (db : DB) :
  id' <> id ->
  (forall r, cl_id (f r) = cl_id r) ->
  get_cl id' (update_cl id f db) = get_cl id' db.
Proof.
  intros Hne Hf. unfold get_cl, update_cl.
  cbn [campaign_leads with_campaign_leads].
  rewrite find_update_other by (intro r; now rewrite Hf).
  destruct (find _ (campaign_leads db)) as [r|] eqn:E; [|reflexivity].
  apply find_some in E. destruct E as [_ E]. apply String.eqb_eq in E.
  cbn [option_map]. destruct (String.eqb_spec (cl_id r) id); [congruence|reflexivity].
Qed.

(** The CampaignLead table after [_send_one]: unchanged, or rewritten on
    the rows with the key of [cl] by a function that keeps key, lead and
    campaign and moves [current_step] to [cl.current_step + 1] at most. *)
Lemma send_one_leads (env : SendEnv) (db : DB) (cl : CampaignLead)
    (campaign : Campaign) :
  campaign_leads (fst (_send_one env db cl campaign)) = campaign_leads db
  \/ exists f,
       campaign_leads (fst (_send_one env db cl campaign))
       = update_where (fun c => String.eqb (cl_id c) (cl_id cl)) f (campaign_leads db)
       /\ forall r, cl_id (f r) = cl_id r
                    /\ cl_lead_id (f r) = cl_lead_id r
                    /\ cl_campaign_id (f r) = cl_campaign_id r
                    /\ (cl_current_step (f r) = cl_current_step r
                        \/ cl_current_step (f r) = cl_current_step cl + 1).
Proof.
  unfold _send_one.
  destruct (get_lead (cl_lead_id cl) db) as [lead|]; [|now left].
  destruct (_is_suppressed db (c_user_id campaign) (l_email lead)).
  { right. eexists. split; [reflexivity|]. intro r. cbn. auto. }
  destruct (find_step db (c_id campaign) (cl_current_step cl + 1)) as [step|].
  2: { right. eexists. split; [reflexivity|]. intro r. cbn. auto. }
  destruct (_pick_account env db campaign) as [account|]; [|now left].
  destruct (prepare env db campaign lead account step (cl_current_step cl + 1))
    as [[[vi subject] body] request].
  destruct (transport env request) as [mid|error]; cbn [fst].
  - right. unfold on_success.
    destruct (find_step db (c_id campaign) (cl_current_step cl + 1 + 1));
      eexists; (split; [reflexivity|]); intro r; cbn; auto.
  - unfold on_failure. destruct (is_hard_bounce error); [|now left].
    right. eexists. split; [reflexivity|]. intro r. cbn. auto.
Qed.

(** X6: one call of [_send_one] advances at most the one CampaignLead it
    is given, by at most one step.  It never writes the campaigns, the
    steps, the campaign-account links, the unsubscribe list or the warmup
    log; every CampaignLead with another key is as before; the given one
    keeps its lead and campaign, and its [current_step] stays or grows by
    exactly 1. *)
Theorem send_one_advances_one_lead :
  forall (env : SendEnv) (db : DB) (cl : CampaignLead) (campaign : Campaign),
    campaigns (fst (_send_one env db cl campaign)) = campaigns db
    /\ steps (fst (_send_one env db cl campaign)) = steps db
    /\ campaign_accounts (fst (_send_one env db cl campaign)) = campaign_accounts db
    /\ unsubscribes (fst (_send_one env db cl campaign)) = unsubscribes db
    /\ warmup_logs (fst (_send_one env db cl campaign)) = warmup_logs db
    /\ (forall id, id <> cl_id cl ->
          get_cl id (fst (_send_one env db cl campaign)) = get_cl id db)
    /\ (get_cl (cl_id cl) db = Some cl ->
        exists r,
          get_cl (cl_id cl) (fst (_send_one env db cl campaign)) = Some r
          /\ cl_lead_id r = cl_lead_id cl
          /\ cl_campaign_id r = cl_campaign_id cl
          /\ (cl_current_step r = cl_current_step cl
              \/ cl_current_step r = cl_current_step cl + 1)).
Proof.
  intros env db cl campaign.
  assert (Hframe :
    campaigns (fst (_send_one env db cl campaign)) = campaigns db
    /\ steps (fst (_send_one env db cl campaign)) = steps db
    /\ campaign_accounts (fst (_send_one env db cl campaign)) = campaign_accounts db
    /\ unsubscribes (fst (_send_one env db cl campaign)) = unsubscribes db
    /\ warmup_logs (fst (_send_one env db cl campaign)) = warmup_logs db).
  { unfold _send_one.
    destruct (get_lead (cl_lead_id cl) db) as [lead|]; [|repeat split].
    destruct (_is_suppressed db (c_user_id campaign) (l_email lead)); [repeat split|].
    destruct (find_step db (c_id campaign) (cl_current_step cl + 1)) as [step|];
      [|repeat split].
    destruct (_pick_account env db campaign) as [account|]; [|repeat split].
    destruct (prepare env db campaign lead account step (cl_current_step cl + 1))
      as [[[vi subject] body] request].
    destruct (transport env request) as [mid|error]; cbn [fst].
    - repeat split.
    - unfold on_failure. destruct (is_hard_bounce error); repeat split. }
  destruct Hframe as (H1 & H2 & H3 & H4 & H5).
  repeat (split; [assumption|]).
  destruct (send_one_leads env db cl campaign) as [E|(f & E & Hf)].
  - split.
    + intros id _. unfold get_cl. now rewrite E.
    + intro Hrow. exists cl. unfold get_cl in *. rewrite E. auto.
  - split.
    + intros id Hne. unfold get_cl. rewrite E.
      change (find (fun c => String.eqb (cl_id c) id)
                (update_where (fun c => String.eqb (cl_id c) (cl_id cl)) f
                   (campaign_leads db)))
        with (get_cl id (update_cl (cl_id cl) f db)).
      apply get_cl_update_other; [exact Hne | apply Hf].
    + intro Hrow. exists (f cl). split.
      * unfold get_cl. rewrite E.
        change (find (fun c => String.eqb (cl_id c) (cl_id cl))
                  (update_where (fun c => String.eqb (cl_id c) (cl_id cl)) f
                     (campaign_leads db)))
          with (get_cl (cl_id cl) (update_cl (cl_id cl) f db)).
        rewrite get_cl_update_cl by apply Hf. now rewrite Hrow.
      * destruct (Hf cl) as (_ & Hl & Hc & Hs). auto.
Qed.

Lemma send_one_advances_one_lead_witness :
  exists r,
    get_cl "cl1" (fst (_send_one Fixtures.env_sent Fixtures.db0 (Fixtures.cl_at 0)
                         Fixtures.camp1)) = Some r
    /\ cl_lead_id r = "l1".
Proof.
  destruct (send_one_advances_one_lead Fixtures.env_sent Fixtures.db0
              (Fixtures.cl_at 0) Fixtures.camp1) as (_ & _ & _ & _ & _ & _ & H).
  destruct (H eq_refl) as (r & Hr & Hl & _). exists r. split; assumption.
Defined.

Lemma threading_shape (db : DB) (lead_id campaign_id : string) (n : Z) :
  (n <= 1 -> threading db lead_id campaign_id n = (None, None))
  /\ (threading db lead_id campaign_id n = (None, None)
      \/ exists m r, threading db lead_id campaign_id n = (Some m, Some r)
                     /\ truthy (Some m) = true).
Proof.
  unfold threading. destruct (Z.ltb_spec 1 n) as [Hlt|Hle].
  - split; [lia|].
    destruct (most_recent _) as [prev|]; [|now left].
    destruct (se_message_id prev) as [m|] eqn:Em; [|now left].
    destruct (truthy (Some m)) eqn:Et; [|now left].
    right. exists m. eexists. split; [reflexivity | exact Et].
  - split; [reflexivity | now left].
Qed.

(** X7: the first step of a sequence goes out unthreaded: when the
    CampaignLead has [current_step <= 0], the request carries neither
    [in_reply_to] nor [references], whatever SentEmail rows the pair
    already has, and [send_email] writes no threading header.  For any
    step the two fields come together: one is set exactly when the other
    is, and a set [in_reply_to] is never empty. *)
Theorem first_step_unthreaded :
  forall (env : SendEnv) (db : DB) (cl : CampaignLead) (campaign : Campaign)
         (rq : SendRequest),
    snd (_send_one env db cl campaign) = Some rq ->
    (rq_in_reply_to rq = None <-> rq_references rq = None)
    /\ (forall m, rq_in_reply_to rq = Some m -> m <> EmptyString)
    /\ (cl_current_step cl <= 0 ->
        rq_in_reply_to rq = None /\ rq_references rq = None
        /\ threading_headers rq = None).
Proof.
  intros env db cl campaign rq H. unfold _send_one in H.
  destruct (get_lead (cl_lead_id cl) db) as [lead|]; [|discriminate].
  destruct (_is_suppressed db (c_user_id campaign) (l_email lead)); [discriminate|].
  destruct (find_step db (c_id campaign) (cl_current_step cl + 1)) as [step|];
    [|discriminate].
  destruct (_pick_account env db campaign) as [account|]; [|discriminate].
  unfold prepare in H. destruct (pick_variant env step) as [[vi st] bt].
  destruct (threading_shape db (l_id lead) (c_id campaign) (cl_current_step cl + 1))
    as [Hfirst Hshape].
  destruct (threading db (l_id lead) (c_id campaign) (cl_current_step cl + 1))
    as [irt refs] eqn:Et.
  assert (Hrq : rq_in_reply_to rq = irt /\ rq_references rq = refs).
  { destruct (transport env _); cbn [snd] in H; injection H as <-; now split. }
  destruct Hrq as [Hi Hr]. rewrite Hi, Hr.
  destruct Hshape as [E|(m & r & E & Hm)]; injection E as -> ->.
  - split; [tauto|]. split; [discriminate|]. intros _.
    unfold threading_headers. now rewrite Hi.
  - split; [split; discriminate|]. split.
    + intros m' Em. injection Em as <-. intros ->. discriminate.
    + intro Hle. specialize (Hfirst ltac:(lia)). discriminate.
Qed.

Lemma first_step_unthreaded_witness :
  rq_in_reply_to (snd Fixtures.prepared1) = None.
Proof.
  apply (first_step_unthreaded Fixtures.env_sent Fixtures.db0 (Fixtures.cl_at 0)
           Fixtures.camp1 (snd Fixtures.prepared1) eq_refl).
  cbn. lia.
Defined.

End Dispatch.

(* ================================================================== *)
(** * The batch of one iteration *)
(* ================================================================== *)

Module Batch.
Import Db Transport CampaignWorker DbFacts.
Local Open Scope Z_scope.

(** X8: candidate selection returns at most 20 pairs; every selected
    CampaignLead has a non-null [next_send_at] that is not after the query
    time, and is paired with the campaign row it belongs to.  A
    CampaignLead whose [next_send_at] is null is never selected. *)
Theorem pending_batch_due :
  forall (now : datetime) (db : DB),
    (List.length (_get_pending_leads now db) <= 20)%nat
    /\ (forall cl c,
          In (cl, c) (_get_pending_leads now db) ->
          In cl (campaign_leads db) /\ In c (campaigns db)
          /\ cl_campaign_id cl = c_id c
          /\ exists t, cl_next_send_at cl = Some t /\ t <= now)
    /\ (forall cl c,
          cl_next_send_at cl = None -> ~ In (cl, c) (_get_pending_leads now db)).
Proof.
  intros now db.
  assert (Hdue : forall cl c,
            In (cl, c) (_get_pending_leads now db) ->
            In cl (campaign_leads db) /\ In c (campaigns db)
            /\ cl_campaign_id cl = c_id c
            /\ exists t, cl_next_send_at cl = Some t /\ t <= now).
  { intros cl c H.
    destruct (Finality.pending_active now db cl c H) as (_ & _ & H1 & H2 & H3 & H4).
    repeat (split; [assumption|]).
    unfold next_send_due in H4. destruct (cl_next_send_at cl) as [t|]; [|discriminate].
    exists t. split; [reflexivity | now apply Z.leb_le]. }
  split; [unfold _get_pending_leads; apply firstn_le_length|].
  split; [exact Hdue|].
  intros cl c Hnone Hin. destruct (Hdue cl c Hin) as (_ & _ & _ & t & Ht & _).
  congruence.
Qed.

Lemma pending_batch_due_witness :
  exists t, cl_next_send_at (Fixtures.cl_at 0) = Some t /\ t <= Fixtures.seconds 10.
Proof.
  apply (proj1 (proj2 (pending_batch_due (Fixtures.seconds 10) Fixtures.db0))
           (Fixtures.cl_at 0) Fixtures.camp1).
  now left.
Defined.

(** One dispatch appends at most one row to the SentEmail log or to the
    bounce list, and only when it made a request. *)
Lemma send_one_appends (env : SendEnv) (db : DB) (cl : CampaignLead)
    (campaign : Campaign) :
  exists new nb,
    sent_emails (fst (_send_one env db cl campaign)) = (sent_emails db ++ new)%list
    /\ bounces (fst (_send_one env db cl campaign)) = (bounces db ++ nb)%list
    /\ (List.length new + List.length nb
        <= match snd (_send_one env db cl campaign) with
           | Some _ => 1
           | None => 0
           end)%nat.
Proof.
  unfold _send_one.
  destruct (get_lead (cl_lead_id cl) db) as [lead|].
  2: { exists [], []. rewrite !app_nil_r. auto. }
  destruct (_is_suppressed db (c_user_id campaign) (l_email lead)).
  { exists [], []. rewrite !app_nil_r. auto. }
  destruct (find_step db (c_id campaign) (cl_current_step cl + 1)) as [step|].
  2: { exists [], []. rewrite !app_nil_r. auto. }
  destruct (_pick_account env db campaign) as [account|].
  2: { exists [], []. rewrite !app_nil_r. auto. }
  destruct (prepare env db campaign lead account step (cl_current_step cl + 1))
    as [[[vi subject] body] request].
  destruct (transport env request) as [mid|error]; cbn [fst snd].
  - eexists. exists [].
    split; [unfold on_success; reflexivity|].
    split; [symmetry; apply app_nil_r|]. cbn. lia.
  - unfold on_failure. destruct (is_hard_bounce error).
    + exists []. eexists.
      split; [symmetry; apply app_nil_r|]. split; [reflexivity|]. cbn. lia.
    + exists [], []. rewrite !app_nil_r. cbn. auto.
Qed.

Lemma process_pending_appends (it : Iteration)
    (pending : list (CampaignLead * Campaign)) :
  forall (k : nat) (db : DB),
    (List.length (snd (process_pending it k pending db)) <= List.length pending)%nat
    /\ exists new nb,
         sent_emails (fst (process_pending it k pending db))
         = (sent_emails db ++ new)%list
         /\ bounces (fst (process_pending it k pending db)) = (bounces db ++ nb)%list
         /\ (List.length new + List.length nb
             <= List.length (snd (process_pending it k pending db)))%nat.
Proof.
  induction pending as [|[cl campaign] rest IH]; intros k db.
  - cbn. split; [lia|]. exists [], []. rewrite !app_nil_r. auto.
  - cbn [process_pending List.length].
    destruct (negb (it_running it k)).
    { cbn. split; [lia|]. exists [], []. rewrite !app_nil_r. auto. }
    destruct (negb (in_send_window (it_now it) campaign)).
    { destruct (IH (S k) db) as [H1 H2]. split; [lia | exact H2]. }
    destruct (negb (on_send_day (it_now it) campaign)).
    { destruct (IH (S k) db) as [H1 H2]. split; [lia | exact H2]. }
    destruct (send_one_appends (it_env it k) db (refresh db cl) campaign)
      as (n1 & b1 & Hs1 & Hb1 & Hl1).
    destruct (_send_one (it_env it k) db (refresh db cl) campaign) as [db1 sent].
    cbn [fst snd] in *.
    destruct (IH (S k) db1) as (Hlen & n2 & b2 & Hs2 & Hb2 & Hl2).
    destruct (process_pending it (S k) rest db1) as [db2 more].
    cbn [fst snd] in *. split.
    + destruct sent; cbn [List.length]; lia.
    + exists (n1 ++ n2)%list, (b1 ++ b2)%list.
      rewrite Hs2, Hs1, Hb2, Hb1, !app_assoc. split; [reflexivity|].
      split; [reflexivity|].
      rewrite !List.length_app. destruct sent; cbn [List.length]; lia.
Qed.

(** X9: one iteration of the loop makes at most 20 requests to the
    transport.  The SentEmail log and the bounce list only grow: the rows
    present before are kept, in place, and the rows appended to the two
    together are no more than the requests made. *)
Theorem iteration_bounded_and_append_only :
  forall (it : Iteration) (db : DB),
    (List.length (snd (worker_iteration it db)) <= 20)%nat
    /\ exists new nb,
         sent_emails (fst (worker_iteration it db)) = (sent_emails db ++ new)%list
         /\ bounces (fst (worker_iteration it db)) = (bounces db ++ nb)%list
         /\ (List.length new + List.length nb
             <= List.length (snd (worker_iteration it db)))%nat.
Proof.
  intros it db. unfold worker_iteration.
  destruct (process_pending_appends it
              (_get_pending_leads (it_query_now it) (midnight_reset (it_now it) db))
              0 (midnight_reset (it_now it) db)) as (Hlen & new & nb & Hs & Hb & Hl).
  split.
  - assert (H : (List.length (_get_pending_leads (it_query_now it)
                                (midnight_reset (it_now it) db)) <= 20)%nat)
      by (unfold _get_pending_leads; apply firstn_le_length).
    lia.
  - exists new, nb.
    assert (E : sent_emails (midnight_reset (it_now it) db) = sent_emails db
                /\ bounces (midnight_reset (it_now it) db) = bounces db).
    { unfold midnight_reset. destruct (at_midnight (it_now it)); split; reflexivity. }
    destruct E as [E1 E2]. rewrite <- E1, <- E2. auto.
Qed.

Lemma process_pending_all_skipped (it : Iteration)
    (pending : list (CampaignLead * Campaign)) :
  forall (k : nat) (db : DB),
    (forall cl c, In (cl, c) pending ->
                  in_send_window (it_now it) c = false
                  \/ on_send_day (it_now it) c = false) ->
    process_pending it k pending db = (db, []).
Proof.
  induction pending as [|[cl campaign] rest IH]; intros k db H; [reflexivity|].
  cbn [process_pending]. destruct (negb (it_running it k)); [reflexivity|].
  assert (Hrest : process_pending it (S k) rest db = (db, [])).
  { apply IH. intros cl' c' Hin. apply (H cl' c'). now right. }
  destruct (H cl campaign (or_introl eq_refl)) as [Hw|Hd].
  - rewrite Hw. exact Hrest.
  - rewrite Hd. destruct (negb (in_send_window (it_now it) campaign)); exact Hrest.
Qed.

(** X10: candidates whose campaign is outside its send window (the hour
    of the iteration's start is not in [start, end)) or outside its send
    days are skipped: when that is so for every candidate, the iteration
    makes no request and, apart from the midnight reset, leaves the whole
    database as it was, so the candidates stay due. *)
Theorem outside_window_nothing_happens :
  forall (it : Iteration) (db : DB),
    (forall cl c,
       In (cl, c) (_get_pending_leads (it_query_now it)
                     (midnight_reset (it_now it) db)) ->
       (hour (it_now it) < c_send_window_start c
        \/ c_send_window_end c <= hour (it_now it))
       \/ on_send_day (it_now it) c = false) ->
    worker_iteration it db = (midnight_reset (it_now it) db, []).
Proof.
  intros it db H. unfold worker_iteration. apply process_pending_all_skipped.
  intros cl c Hin. destruct (H cl c Hin) as [Hw|Hd]; [left | now right].
  unfold in_send_window. apply andb_false_iff.
  destruct Hw; [left; apply Z.leb_gt | right; apply Z.ltb_ge]; assumption.
Qed.

(** Saturday 10:00: the campaign of [db0] sends on weekdays only. *)
Lemma outside_window_nothing_happens_witness :
  worker_iteration (Fixtures.iteration_at (days 2 + Fixtures.seconds 36000))
    Fixtures.db0 = (Fixtures.db0, []).
Proof.
  apply (outside_window_nothing_happens
           (Fixtures.iteration_at (days 2 + Fixtures.seconds 36000)) Fixtures.db0).
  intros cl c Hin. vm_compute in Hin. destruct Hin as [E|[]].
  injection E as <- <-. right. reflexivity.
Defined.

(** X11: the A/B draw.  The index chosen for a step with [K] variants is
    at most [K]; index 0 stands for the step's own subject and body, and
    index [k + 1] for the templates of variant [k], each falling back to
    the step's own when the variant lacks it.  The original takes part in
    the draw: a raw draw [i <= K] gives index [i], the original for 0. *)
Theorem variant_index_in_range :
  forall (env : SendEnv) (step : Step),
    (fst (fst (pick_variant env step)) <= List.length (st_variants step))%nat
    /\ (fst (fst (pick_variant env step)) = 0%nat ->
        snd (fst (pick_variant env step)) = st_subject step
        /\ snd (pick_variant env step) = st_body step)
    /\ (forall k, fst (fst (pick_variant env step)) = S k ->
          exists v, nth_error (st_variants step) k = Some v
                    /\ snd (fst (pick_variant env step))
                       = match v_subject v with
                         | Some t => t
                         | None => st_subject step
                         end
                    /\ snd (pick_variant env step)
                       = match v_body v with
                         | Some t => t
                         | None => st_body step
                         end)
    /\ (st_variants step <> [] ->
        (variant_draw env <= List.length (st_variants step))%nat ->
        fst (fst (pick_variant env step)) = variant_draw env).
Proof.
  intros env step. unfold pick_variant.
  destruct (st_variants step) as [|v0 vs] eqn:Ev.
  - cbn. repeat split; try lia; try discriminate; try congruence.
  - set (K := List.length (v0 :: vs)).
    assert (Hlt : (variant_draw env mod (K + 1) < K + 1)%nat)
      by (apply Nat.mod_upper_bound; lia).
    destruct (variant_draw env mod (K + 1))%nat as [|k] eqn:Em.
    + cbn [fst snd]. split; [lia|]. split; [auto|]. split; [discriminate|].
      intros _ Hle. rewrite Nat.mod_small in Em by (fold K; lia). now symmetry.
    + assert (Hk : (k < K)%nat) by lia.
      destruct (nth_error (v0 :: vs) k) as [v|] eqn:En.
      * cbn [fst snd]. split; [lia|]. split; [discriminate|]. split.
        -- intros k' E. injection E as <-. exists v. auto.
        -- intros _ Hle. rewrite Nat.mod_small in Em by (fold K; lia). now symmetry.
      * apply nth_error_None in En. fold K in En. lia.
Qed.

(** Draw 2 of 0..2 for [step_ab]: the subject of variant B over the
    step's own body. *)
Lemma variant_index_in_range_witness :
  fst (fst (pick_variant (Fixtures.env_draw 2) Fixtures.step_ab)) = 2%nat
  /\ snd (fst (pick_variant (Fixtures.env_draw 2) Fixtures.step_ab))
     = "{{first_name}}, one question"
  /\ snd (pick_variant (Fixtures.env_draw 2) Fixtures.step_ab)
     = "{Hi|Hey} {{first_name}}".
Proof.
  split; [reflexivity|].
  destruct (proj1 (proj2 (proj2 (variant_index_in_range (Fixtures.env_draw 2)
                                   Fixtures.step_ab)))
              1%nat eq_refl) as (v & Hv & Hs & Hb).
  cbn in Hv. injection Hv as <-. split; [exact Hs | exact Hb].
Defined.

End Batch.

(* ================================================================== *)
(** * Enrolment, start, reply and removal *)
(* ================================================================== *)

Module Enrolment.
Import Db CampaignWorker DbFacts Invariants.
Local Open Scope Z_scope.

Lemma nodup_map_inj {A B : Type} (f : A -> B) (l : list A) (x y : A) :
  NoDup (map f l) -> In x l -> In y l -> f x = f y -> x = y.
Proof.
  induction l as [|z l IH]; intros Hnd Hx Hy E; [destruct Hx|].
  cbn [map] in Hnd. inversion Hnd as [|? ? Hnot Hnd']. subst.
  destruct Hx as [->|Hx], Hy as [->|Hy]; auto.
  - exfalso. apply Hnot. rewrite E. now apply in_map.
  - exfalso. apply Hnot. rewrite <- E. now apply in_map.
Qed.

Lemma enrol_present (new_id campaign_id lead_id : string) (db : DB) :
  existsb (fun c => String.eqb (cl_campaign_id c) campaign_id
                    && String.eqb (cl_lead_id c) lead_id)
          (campaign_leads db) = true ->
  Routes.enrol new_id campaign_id lead_id db = db.
Proof. intro H. unfold Routes.enrol. now rewrite H. Qed.

(** X12: enrolment never enrols a lead twice in a campaign.  A pair that
    is already enrolled is skipped: nothing is written.  A pair that is
    not gets one new row, appended under the new key, [active], at step 0,
    with null [last_sent_at] and [next_send_at].  Enrolment keeps the
    (campaign, lead) pairs of [campaign_leads] distinct; once a pair is
    enrolled under an unused key, enrolling it again under any key changes
    nothing; and the new row is not a dispatch candidate at any time, even
    when the campaign is already active, as long as [next_send_at] is not
    set. *)
Theorem enrol_once_and_waiting :
  forall (new_id campaign_id lead_id : string) (db : DB),
    (enrolled_once db -> enrolled_once (Routes.enrol new_id campaign_id lead_id db))
    /\ ((exists r, In r (campaign_leads db)
                   /\ cl_campaign_id r = campaign_id /\ cl_lead_id r = lead_id) ->
        Routes.enrol new_id campaign_id lead_id db = db)
    /\ (~ In new_id (map cl_id (campaign_leads db)) ->
        (forall r, In r (campaign_leads db) ->
                   ~ (cl_campaign_id r = campaign_id /\ cl_lead_id r = lead_id)) ->
        exists row,
          campaign_leads (Routes.enrol new_id campaign_id lead_id db)
          = (campaign_leads db ++ [row])%list
          /\ cl_id row = new_id
          /\ cl_campaign_id row = campaign_id
          /\ cl_lead_id row = lead_id
          /\ cl_current_step row = 0
          /\ cl_status row = Active
          /\ cl_last_sent_at row = None
          /\ cl_next_send_at row = None
          /\ leads (Routes.enrol new_id campaign_id lead_id db) = leads db
          /\ campaigns (Routes.enrol new_id campaign_id lead_id db) = campaigns db
          /\ sent_emails (Routes.enrol new_id campaign_id lead_id db) = sent_emails db)
    /\ (~ In new_id (map cl_id (campaign_leads db)) ->
        (forall other_id,
           Routes.enrol other_id campaign_id lead_id
             (Routes.enrol new_id campaign_id lead_id db)
           = Routes.enrol new_id campaign_id lead_id db)
        /\ (forall now cl c,
              In (cl, c) (_get_pending_leads now
                            (Routes.enrol new_id campaign_id lead_id db)) ->
              cl_id cl <> new_id)).
Proof.
  intros new_id campaign_id lead_id db.
  set (pair := fun c => String.eqb (cl_campaign_id c) campaign_id
                        && String.eqb (cl_lead_id c) lead_id).
  assert (Hpair : forall r, pair r = true <->
                            (cl_campaign_id r, cl_lead_id r) = (campaign_id, lead_id)).
  { intro r. unfold pair. rewrite andb_true_iff, !String.eqb_eq.
    split; [intros [-> ->]; reflexivity | intro E; now injection E]. }
  split.
  - intro Hnd. unfold Routes.enrol. fold pair.
    destruct (existsb pair (campaign_leads db)) eqn:Ex; [exact Hnd|].
    destruct (existsb (fun c => String.eqb (cl_id c) new_id) (campaign_leads db));
      [exact Hnd|].
    unfold enrolled_once in *. cbn [campaign_leads with_campaign_leads].
    rewrite map_app. cbn [map cl_campaign_id cl_lead_id].
    apply NoDup_app; [exact Hnd | repeat constructor; intros [] |].
    intros p Hp [<-|[]]. apply in_map_iff in Hp. destruct Hp as (r & Er & Hr).
    apply Hpair in Er.
    assert (existsb pair (campaign_leads db) = true)
      by (apply existsb_exists; now exists r).
    congruence.
  - split; [|split].
  { intros (r & Hr & Ec & El). unfold Routes.enrol. fold pair.
    assert (E : existsb pair (campaign_leads db) = true).
    { apply existsb_exists. exists r. split; [exact Hr|].
      apply Hpair. now rewrite Ec, El. }
    now rewrite E. }
  { intros Hfresh Hnew.
    assert (Hid : existsb (fun c => String.eqb (cl_id c) new_id) (campaign_leads db)
                  = false).
    { destruct (existsb _ (campaign_leads db)) eqn:Ex; [|reflexivity].
      apply existsb_exists in Ex. destruct Ex as (r & Hr & E).
      apply String.eqb_eq in E. exfalso. apply Hfresh. rewrite <- E. now apply in_map. }
    assert (Hp : existsb pair (campaign_leads db) = false).
    { destruct (existsb pair (campaign_leads db)) eqn:Ex; [|reflexivity].
      apply existsb_exists in Ex. destruct Ex as (r & Hr & E).
      apply Hpair in E. injection E as Ec El. now destruct (Hnew r Hr). }
    unfold Routes.enrol. fold pair. rewrite Hp, Hid.
    eexists. split; [reflexivity|]. repeat split. }
    intro Hfresh.
    assert (Hid : existsb (fun c => String.eqb (cl_id c) new_id) (campaign_leads db)
                  = false).
    { destruct (existsb _ (campaign_leads db)) eqn:Ex; [|reflexivity].
      apply existsb_exists in Ex. destruct Ex as (r & Hr & E).
      apply String.eqb_eq in E. exfalso. apply Hfresh. rewrite <- E. now apply in_map. }
    split.
    + intro other_id. apply enrol_present. fold pair.
      unfold Routes.enrol. fold pair.
      destruct (existsb pair (campaign_leads db)) eqn:Ex; [exact Ex|].
      rewrite Hid. cbn [campaign_leads with_campaign_leads].
      rewrite existsb_app. cbn [existsb]. unfold pair at 2.
      cbn [cl_campaign_id cl_lead_id]. rewrite !String.eqb_refl.
      apply orb_true_r.
    + intros now cl c Hin Eid.
      destruct (Finality.pending_active now _ cl c Hin) as (_ & _ & Hrow & _ & _ & Hdue).
      unfold Routes.enrol in Hrow. fold pair in Hrow.
      destruct (existsb pair (campaign_leads db)).
      { apply Hfresh. rewrite <- Eid. now apply in_map. }
      rewrite Hid in Hrow. cbn [campaign_leads with_campaign_leads] in Hrow.
      apply in_app_or in Hrow. destruct Hrow as [Hrow|[<-|[]]].
      * apply Hfresh. rewrite <- Eid. now apply in_map.
      * discriminate Hdue.
Qed.

(** A second lead enrolled in the campaign of [db0]. *)
Lemma enrol_once_and_waiting_witness :
  exists row,
    campaign_leads (Routes.enrol "cl2" "c1" "l2" Fixtures.db0)
    = [Fixtures.cl_at 0; row]
    /\ cl_id row = "cl2" /\ cl_current_step row = 0 /\ cl_next_send_at row = None.
Proof.
  destruct (proj1 (proj2 (proj2 (enrol_once_and_waiting "cl2" "c1" "l2" Fixtures.db0)))
              ltac:(cbn; intuition discriminate)
              ltac:(intros r [<-|[]] [_ H]; discriminate))
    as (row & Hrows & Hid & _ & _ & Hstep & _ & _ & Hnext & _).
  exists row. repeat split; assumption.
Defined.

(** X13: starting a campaign.  The start is refused, and nothing is
    written, when the campaign is not one of the tenant's, has no step, no
    linked account or no active lead.  Otherwise the campaign becomes
    [active], exactly the active leads of the campaign that have not yet
    received a step get [next_send_at = now] and are due from then on, and
    every other CampaignLead row, in particular a lead that has already
    received steps, keeps its schedule.  No status of a lead changes. *)
Theorem start_campaign_schedules_new_leads :
  forall (now : datetime) (user_id campaign_id : string) (db : DB),
    (Routes.owned_campaign db user_id campaign_id = None ->
     Routes.start_campaign now user_id campaign_id db = db)
    /\ (forall campaign,
          Routes.owned_campaign db user_id campaign_id = Some campaign ->
          ((forall s, In s (steps db) -> st_campaign_id s <> c_id campaign)
           \/ (forall l, In l (campaign_accounts db) ->
                         ca_campaign_id l <> c_id campaign)
           \/ (forall r, In r (campaign_leads db) ->
                         cl_campaign_id r = c_id campaign -> cl_status r <> Active)) ->
          Routes.start_campaign now user_id campaign_id db = db)
    /\ (forall campaign s l r0,
          Routes.owned_campaign db user_id campaign_id = Some campaign ->
          In s (steps db) -> st_campaign_id s = c_id campaign ->
          In l (campaign_accounts db) -> ca_campaign_id l = c_id campaign ->
          In r0 (campaign_leads db) -> cl_campaign_id r0 = c_id campaign ->
          cl_status r0 = Active ->
          (exists c', get_campaign (c_id campaign)
                        (Routes.start_campaign now user_id campaign_id db) = Some c'
                      /\ c_status c' = CampActive)
          /\ campaign_leads (Routes.start_campaign now user_id campaign_id db)
             = map (fun r =>
                      if String.eqb (cl_campaign_id r) (c_id campaign)
                         && link_active (cl_status r)
                         && (cl_current_step r =? 0)
                      then cl_with_next_send_at (Some now) r
                      else r)
                   (campaign_leads db)
          /\ (forall r, In r (campaign_leads
                                (Routes.start_campaign now user_id campaign_id db)) ->
                        cl_campaign_id r = c_id campaign ->
                        cl_status r = Active -> cl_current_step r = 0 ->
                        forall t, now <= t -> next_send_due t r = true)
          /\ (forall r, In r (campaign_leads db) ->
                        cl_current_step r <> 0 ->
                        In r (campaign_leads
                                (Routes.start_campaign now user_id campaign_id db)))
          /\ map cl_status (campaign_leads
                              (Routes.start_campaign now user_id campaign_id db))
             = map cl_status (campaign_leads db)).
Proof.
  intros now user_id campaign_id db. split; [|split].
  - intro H. unfold Routes.start_campaign. now rewrite H.
  - intros campaign Ho Hmiss. unfold Routes.start_campaign. rewrite Ho. cbv zeta.
    destruct Hmiss as [Hs|[Hl|Hr]].
    + replace (existsb _ (steps db)) with false; [reflexivity|].
      symmetry. destruct (existsb _ (steps db)) eqn:Ex; [|reflexivity].
      apply existsb_exists in Ex. destruct Ex as (s & Hin & E).
      apply String.eqb_eq in E. now destruct (Hs s Hin).
    + replace (existsb _ (campaign_accounts db)) with false;
        [now rewrite andb_false_r|].
      symmetry. destruct (existsb _ (campaign_accounts db)) eqn:Ex; [|reflexivity].
      apply existsb_exists in Ex. destruct Ex as (l & Hin & E).
      apply String.eqb_eq in E. now destruct (Hl l Hin).
    + replace (existsb _ (campaign_leads db)) with false;
        [now rewrite andb_false_r|].
      symmetry. destruct (existsb _ (campaign_leads db)) eqn:Ex; [|reflexivity].
      apply existsb_exists in Ex. destruct Ex as (r & Hin & E).
      apply andb_true_iff in E. destruct E as [E Ha]. apply String.eqb_eq in E.
      exfalso. apply (Hr r Hin E). unfold link_active in Ha.
      now destruct (cl_status r).
  - intros campaign s l r0 Ho Hs Es Hl El Hr Er Ha.
    assert (Hgo : Routes.start_campaign now user_id campaign_id db
                  = update_campaign (c_id campaign) (campaign_with_status CampActive)
                      (with_campaign_leads
                         (update_where
                            (fun c => String.eqb (cl_campaign_id c) (c_id campaign)
                                      && link_active (cl_status c)
                                      && (cl_current_step c =? 0))
                            (cl_with_next_send_at (Some now))
                            (campaign_leads db))
                         db)).
    { unfold Routes.start_campaign. rewrite Ho. cbv zeta.
      replace (existsb _ (steps db)) with true
        by (symmetry; apply existsb_exists; exists s; split; [exact Hs|];
            now apply String.eqb_eq).
      replace (existsb _ (campaign_accounts db)) with true
        by (symmetry; apply existsb_exists; exists l; split; [exact Hl|];
            now apply String.eqb_eq).
      replace (existsb _ (campaign_leads db)) with true; [reflexivity|].
      symmetry. apply existsb_exists. exists r0. split; [exact Hr|].
      rewrite Ha. cbn [link_active]. rewrite andb_true_r. now apply String.eqb_eq. }
    rewrite Hgo. clear Hgo.
    split; [|split; [reflexivity|split; [|split]]].
    + unfold get_campaign, update_campaign.
      cbn [campaigns with_campaigns with_campaign_leads].
      rewrite find_update_same by reflexivity.
      unfold Routes.owned_campaign in Ho.
      assert (Hin : In campaign (campaigns db)) by (apply find_some in Ho; tauto).
      destruct (find_present (fun c => String.eqb (c_id c) (c_id campaign))
                  (campaigns db) campaign Hin (String.eqb_refl _)) as [c0 Hc0].
      rewrite Hc0. cbn [option_map]. eexists. split; reflexivity.
    + intros r Hin Ec Hact Hstep t Ht.
      cbn [campaign_leads update_campaign with_campaigns with_campaign_leads] in Hin.
      unfold update_where in Hin. apply in_map_iff in Hin.
      destruct Hin as (r1 & E1 & _).
      destruct (String.eqb (cl_campaign_id r1) (c_id campaign)
                && link_active (cl_status r1) && (cl_current_step r1 =? 0)) eqn:Ep.
      * subst r. cbn. now apply Z.leb_le.
      * subst r1. rewrite Ec, Hact, Hstep in Ep.
        rewrite String.eqb_refl in Ep. discriminate Ep.
    + intros r Hin Hne.
      cbn [campaign_leads update_campaign with_campaigns with_campaign_leads].
      unfold update_where. apply in_map_iff. exists r. split; [|exact Hin].
      destruct (Z.eqb_spec (cl_current_step r) 0); [contradiction|].
      now rewrite andb_false_r.
    + cbn [campaign_leads update_campaign with_campaigns with_campaign_leads].
      unfold update_where. rewrite map_map. apply map_ext.
      intro r. now destruct (_ && _ && _).
Qed.

Lemma start_campaign_schedules_new_leads_witness :
  campaign_leads (Routes.start_campaign (days 5) "u1" "c1" Fixtures.db0)
  = [cl_with_next_send_at (Some (days 5)) (Fixtures.cl_at 0)].
Proof.
  destruct (proj2 (proj2 (start_campaign_schedules_new_leads (days 5) "u1" "c1"
                            Fixtures.db0))
              Fixtures.camp1 (Fixtures.step 1 0) (Fixtures.link "a1")
              (Fixtures.cl_at 0) eq_refl
              ltac:(now left) eq_refl ltac:(now left) eq_refl ltac:(now left)
              eq_refl eq_refl) as (_ & H & _).
  rewrite H. reflexivity.
Defined.

End Enrolment.

(* ================================================================== *)
(** * Replies and removal *)
(* ================================================================== *)

Module Replies.
Import Db CampaignWorker DbFacts Invariants.
Local Open Scope Z_scope.

Lemma already_stored_iff (stored : list Routes.InboxMessage) (account_id : string)
    (reply : Routes.Reply) :
  Routes.already_stored stored account_id reply = true
  <-> exists m, In m stored
                /\ Routes.im_account_id m = account_id
                /\ Routes.im_from_email m = Routes.r_from_email reply
                /\ Routes.im_subject m = Routes.r_subject reply.
Proof.
  unfold Routes.already_stored. rewrite existsb_exists.
  split; intros (m & Hin & H); exists m; (split; [exact Hin|]).
  - apply andb_true_iff in H. destruct H as [H H3].
    apply andb_true_iff in H. now rewrite !String.eqb_eq in *.
  - destruct H as (-> & -> & ->). now rewrite !String.eqb_refl.
Qed.

(** The writes of lines 152 to 169 for a matched reply. *)
Lemma match_reply_matched (now : datetime) (irt : string) (db : DB)
    (sent : SentEmail) (cl : CampaignLead) :
  irt <> EmptyString ->
  find (fun e => match se_message_id e with
                 | Some m => String.eqb m irt
                 | None => false
                 end) (sent_emails db) = Some sent ->
  find (fun c => String.eqb (cl_campaign_id c) (se_campaign_id sent)
                 && String.eqb (cl_lead_id c) (se_lead_id sent))
       (campaign_leads db) = Some cl ->
  Routes.match_reply now irt db
  = update_cl (cl_id cl) (cl_with_status Replied)
      (with_sent_emails
         (update_where (fun e => String.eqb (se_id e) (se_id sent))
            (sent_with_replied_at (Some now)) (sent_emails db))
         db).
Proof.
  intros Hne Hsent Hcl. unfold Routes.match_reply.
  destruct irt as [|c irt]; [congruence|].
  cbv zeta. rewrite Hsent.
  cbn [campaign_leads with_sent_emails]. now rewrite Hcl.
Qed.

Lemma match_reply_unmatched (now : datetime) (irt : string) (db : DB) :
  irt = EmptyString
  \/ (forall e, In e (sent_emails db) -> se_message_id e <> Some irt) ->
  Routes.match_reply now irt db = db /\ Routes.matched_email irt db = None.
Proof.
  intros [->|Hnone]; [split; reflexivity|].
  unfold Routes.match_reply, Routes.matched_email.
  destruct irt as [|c irt]; [split; reflexivity|]. cbv zeta.
  destruct (find _ (sent_emails db)) as [sent|] eqn:E; [|split; reflexivity].
  apply find_some in E. destruct E as [Hin E].
  destruct (se_message_id sent) as [m|] eqn:Em; [|discriminate].
  apply String.eqb_eq in E. subst m. now destruct (Hnone sent Hin).
Qed.

(** X14: one reply of an inbox sync.  A reply from a sender and with a
    subject that the account's inbox already holds is skipped: nothing is
    written, even when its [In-Reply-To] names a SentEmail.  Any other
    reply is stored as a new, unread InboxMessage of the account.  When
    its [In-Reply-To] is empty or is not the transport id of any
    SentEmail, the message carries no campaign and no lead and the
    database is left as it was.  Otherwise the message carries the
    campaign and lead of the first SentEmail with that id, that SentEmail
    gets [replied_at = now], and every CampaignLead row with the key of
    the first CampaignLead of the pair ends with status [replied],
    whatever its status was before, and is no candidate of a later fetch;
    accounts, leads, unsubscribes and bounces are not written. *)
Theorem reply_marks_replied :
  forall (env : Routes.ReplyEnv) (account_id : string)
         (stored added : list Routes.InboxMessage) (reply : Routes.Reply) (db : DB),
    ((exists m, In m stored
                /\ Routes.im_account_id m = account_id
                /\ Routes.im_from_email m = Routes.r_from_email reply
                /\ Routes.im_subject m = Routes.r_subject reply) ->
     Routes.sync_reply env account_id stored reply (added, db) = (added, db))
    /\ ((forall m, In m stored ->
                   ~ (Routes.im_account_id m = account_id
                      /\ Routes.im_from_email m = Routes.r_from_email reply
                      /\ Routes.im_subject m = Routes.r_subject reply)) ->
        exists msg,
          fst (Routes.sync_reply env account_id stored reply (added, db))
          = (added ++ [msg])%list
          /\ Routes.im_account_id msg = account_id
          /\ Routes.im_from_email msg = Routes.r_from_email reply
          /\ Routes.im_subject msg = Routes.r_subject reply
          /\ Routes.im_body msg = Routes.r_body reply
          /\ Routes.im_is_read msg = false
          /\ (Routes.r_in_reply_to reply = EmptyString
              \/ (forall e, In e (sent_emails db) ->
                            se_message_id e <> Some (Routes.r_in_reply_to reply)) ->
              snd (Routes.sync_reply env account_id stored reply (added, db)) = db
              /\ Routes.im_campaign_id msg = None
              /\ Routes.im_lead_id msg = None)
          /\ (forall sent cl,
                Routes.r_in_reply_to reply <> EmptyString ->
                find (fun e => match se_message_id e with
                               | Some m => String.eqb m (Routes.r_in_reply_to reply)
                               | None => false
                               end) (sent_emails db) = Some sent ->
                find (fun c => String.eqb (cl_campaign_id c) (se_campaign_id sent)
                               && String.eqb (cl_lead_id c) (se_lead_id sent))
                     (campaign_leads db) = Some cl ->
                Routes.im_campaign_id msg = Some (se_campaign_id sent)
                /\ Routes.im_lead_id msg = Some (se_lead_id sent)
                /\ (forall r,
                      In r (campaign_leads
                              (snd (Routes.sync_reply env account_id stored reply
                                      (added, db)))) ->
                      cl_id r = cl_id cl -> cl_status r = Replied)
                /\ (forall t r c,
                      In (r, c)
                         (_get_pending_leads t
                            (snd (Routes.sync_reply env account_id stored reply
                                    (added, db)))) ->
                      cl_id r <> cl_id cl)
                /\ (forall e,
                      In e (sent_emails
                              (snd (Routes.sync_reply env account_id stored reply
                                      (added, db)))) ->
                      se_id e = se_id sent ->
                      se_replied_at e = Some (Routes.re_now env))
                /\ email_accounts
                     (snd (Routes.sync_reply env account_id stored reply (added, db)))
                   = email_accounts db
                /\ leads (snd (Routes.sync_reply env account_id stored reply (added, db)))
                   = leads db
                /\ unsubscribes
                     (snd (Routes.sync_reply env account_id stored reply (added, db)))
                   = unsubscribes db
                /\ bounces
                     (snd (Routes.sync_reply env account_id stored reply (added, db)))
                   = bounces db)).
Proof.
  intros env account_id stored added reply db. split.
  - intro H. apply already_stored_iff in H. unfold Routes.sync_reply. now rewrite H.
  - intro Hnew.
    assert (Hs : Routes.already_stored stored account_id reply = false).
    { destruct (Routes.already_stored stored account_id reply) eqn:E; [|reflexivity].
      apply already_stored_iff in E. destruct E as (m & Hin & H).
      now destruct (Hnew m Hin). }
    unfold Routes.sync_reply. rewrite Hs. cbn [fst snd].
    eexists. split; [reflexivity|]. cbn [Routes.im_account_id Routes.im_from_email
      Routes.im_subject Routes.im_body Routes.im_is_read Routes.im_campaign_id
      Routes.im_lead_id].
    do 5 (split; [reflexivity|]). split.
    + intro Hun.
      destruct (match_reply_unmatched (Routes.re_now env) _ db Hun) as [E1 E2].
      rewrite E1, E2. repeat split.
    + intros sent cl Hne Hsent Hcl.
      assert (Em : Routes.matched_email (Routes.r_in_reply_to reply) db = Some sent).
      { unfold Routes.matched_email.
        destruct (Routes.r_in_reply_to reply); [congruence | exact Hsent]. }
      rewrite Em. cbn [option_map].
      split; [reflexivity|]. split; [reflexivity|].
      rewrite (match_reply_matched (Routes.re_now env) _ db sent cl Hne Hsent Hcl).
      assert (Hst : forall r,
                In r (campaign_leads
                        (update_cl (cl_id cl) (cl_with_status Replied)
                           (with_sent_emails
                              (update_where (fun e => String.eqb (se_id e) (se_id sent))
                                 (sent_with_replied_at (Some (Routes.re_now env)))
                                 (sent_emails db))
                              db))) ->
                cl_id r = cl_id cl -> cl_status r = Replied).
      { intros r Hin Hid.
        cbn [campaign_leads update_cl with_campaign_leads with_sent_emails] in Hin.
        unfold update_where in Hin. apply in_map_iff in Hin.
        destruct Hin as (r0 & E & _).
        destruct (String.eqb_spec (cl_id r0) (cl_id cl)) as [_|Hn]; subst r;
          [reflexivity | contradiction]. }
      split; [exact Hst|]. split.
      * intros t r c Hin Hid.
        destruct (Finality.pending_active t _ r c Hin) as (Hact & _ & Hrow & _).
        rewrite (Hst r Hrow Hid) in Hact. discriminate.
      * split; [|repeat split].
        intros e Hin Hid.
        cbn [sent_emails update_cl with_campaign_leads with_sent_emails] in Hin.
        unfold update_where in Hin. apply in_map_iff in Hin.
        destruct Hin as (e0 & E & _).
        destruct (String.eqb_spec (se_id e0) (se_id sent)) as [_|Hn]; subst e;
          [reflexivity | contradiction].
Qed.

(** A reply to the first message that went out in [db1], read from the
    mailbox of [a1]. *)
Lemma reply_marks_replied_witness :
  exists msg,
    fst (Routes.sync_reply (Fixtures.reply_env (days 3) 0) "a1" []
           (Fixtures.reply_to "<m1@x.io>") ([], Fixtures.db1))
    = [msg]
    /\ Routes.im_lead_id msg = Some "l1"
    /\ forall r,
         In r (campaign_leads
                 (snd (Routes.sync_reply (Fixtures.reply_env (days 3) 0) "a1" []
                         (Fixtures.reply_to "<m1@x.io>") ([], Fixtures.db1)))) ->
         cl_id r = "cl1" -> cl_status r = Replied.
Proof.
  destruct (proj2 (reply_marks_replied (Fixtures.reply_env (days 3) 0) "a1" [] []
                     (Fixtures.reply_to "<m1@x.io>") Fixtures.db1)
              ltac:(intros m []))
    as (msg & Hfst & _ & _ & _ & _ & _ & _ & Hmatch).
  destruct (Hmatch (nth 0 (sent_emails Fixtures.db1) Fixtures.second_sent)
              (refresh Fixtures.db1 (Fixtures.cl_at 0))
              ltac:(discriminate) eq_refl eq_refl)
    as (_ & Hlead & Hst & _).
  exists msg. split; [exact Hfst|]. split; [exact Hlead | exact Hst].
Defined.

(** X15: removing a lead from a campaign.  A tenant that does not own
    the campaign removes nothing.  For the owner, when no lead is enrolled
    twice and the rows have distinct primary keys, the (campaign, lead)
    pair is no longer enrolled afterwards,
    every other CampaignLead row is kept, and the SentEmail log of the
    pair is left in place. *)
Theorem remove_lead_unenrols :
  forall (user_id campaign_id lead_id : string) (db : DB),
    (Routes.owned_campaign db user_id campaign_id = None ->
     Routes.remove_lead_from_campaign user_id campaign_id lead_id db = db)
    /\ (forall campaign,
          Routes.owned_campaign db user_id campaign_id = Some campaign ->
          enrolled_once db ->
          NoDup (map cl_id (campaign_leads db)) ->
          (forall r, In r (campaign_leads
                             (Routes.remove_lead_from_campaign user_id campaign_id
                                lead_id db)) ->
                     ~ (cl_campaign_id r = campaign_id /\ cl_lead_id r = lead_id))
          /\ (forall r, In r (campaign_leads db) ->
                        ~ (cl_campaign_id r = campaign_id /\ cl_lead_id r = lead_id) ->
                        In r (campaign_leads
                                (Routes.remove_lead_from_campaign user_id campaign_id
                                   lead_id db)))
          /\ sent_emails (Routes.remove_lead_from_campaign user_id campaign_id
                            lead_id db)
             = sent_emails db).
Proof.
  intros user_id campaign_id lead_id db. split.
  - intro H. unfold Routes.remove_lead_from_campaign. now rewrite H.
  - intros campaign Ho Hnd Hpk. unfold Routes.remove_lead_from_campaign. rewrite Ho.
    set (pair := fun c => String.eqb (cl_campaign_id c) campaign_id
                          && String.eqb (cl_lead_id c) lead_id).
    assert (Hpair : forall r, pair r = true <->
                              cl_campaign_id r = campaign_id /\ cl_lead_id r = lead_id).
    { intro r. unfold pair. now rewrite andb_true_iff, !String.eqb_eq. }
    destruct (find pair (campaign_leads db)) as [cl|] eqn:Ef.
    + pose proof (find_some _ _ Ef) as [Hcl Hp]. apply Hpair in Hp.
      cbn [campaign_leads with_campaign_leads sent_emails].
      split; [|split; [|reflexivity]].
      * intros r Hin Hr. apply filter_In in Hin. destruct Hin as [Hin Hid].
        assert (r = cl).
        { apply (Enrolment.nodup_map_inj
                   (fun c => (cl_campaign_id c, cl_lead_id c)) _ r cl Hnd Hin Hcl).
          destruct Hr as [-> ->], Hp as [-> ->]. reflexivity. }
        subst r. now rewrite String.eqb_refl in Hid.
      * intros r Hin Hr. apply filter_In. split; [exact Hin|].
        destruct (String.eqb_spec (cl_id r) (cl_id cl)) as [E|_]; [|reflexivity].
        exfalso. apply Hr.
        assert (r = cl) as ->; [|exact Hp].
        exact (Enrolment.nodup_map_inj cl_id _ r cl Hpk Hin Hcl E).
    + split; [|split; [auto | reflexivity]].
      intros r Hin Hr. apply Hpair in Hr.
      now rewrite (find_none _ _ Ef r Hin) in Hr.
Qed.

Lemma remove_lead_unenrols_witness :
  campaign_leads (Routes.remove_lead_from_campaign "u1" "c1" "l1" Fixtures.db0) = [].
Proof.
  destruct (proj2 (remove_lead_unenrols "u1" "c1" "l1" Fixtures.db0) Fixtures.camp1
              eq_refl
              ltac:(unfold enrolled_once; cbn; repeat constructor; intros [])
              ltac:(cbn; repeat constructor; intros [])) as (H & _).
  reflexivity.
Defined.

End Replies.

(* ================================================================== *)
(** * One warmup turn *)
(* ================================================================== *)

Module WarmupTurn.
Import Db Transport WarmupWorker DbFacts.
Local Open Scope Z_scope.




(** X17: the start of the day used to count today's warmup sends keeps
    the microseconds of the clock reading: it lies on the same day as
    [now], not after [now], and its time of day is the sub-second part of
    [now] rather than 00:00:00.  A send logged today but before that
    instant, within the first second of the day, is therefore not counted:
    an account all of whose sends of today are that early counts 0. *)
Theorem today_start_keeps_subsecond :
  forall (now : datetime),
    today_start now <= now
    /\ CampaignWorker.date (today_start now) = CampaignWorker.date now
    /\ today_start now mod usec_per_day = now mod usec_per_second
    /\ (forall (db : DB) (id : string),
          (forall w, In w (warmup_logs db) ->
                     wl_sender_account_id w = id ->
                     CampaignWorker.date (wl_sent_at w) = CampaignWorker.date now
                     /\ wl_sent_at w mod usec_per_day < now mod usec_per_second) ->
          sent_since db id (today_start now) = 0).
Proof.
  intro now.
  assert (H1 : today_start now <= now
               /\ CampaignWorker.date (today_start now) = CampaignWorker.date now
               /\ today_start now mod usec_per_day = now mod usec_per_second).
  { unfold today_start, CampaignWorker.date, usec_per_day, usec_per_second.
    change (86400 * 1000000) with 86400000000.
    Z.div_mod_to_equations. lia. }
  destruct H1 as (Ha & Hb & Hc).
  split; [exact Ha|]. split; [exact Hb|]. split; [exact Hc|].
  intros db id Hearly. unfold sent_since. apply WarmupStatus.count_none.
  apply Forall_forall. intros w Hin.
  destruct (String.eqb_spec (wl_sender_account_id w) id) as [E|_]; [|reflexivity].
  destruct (Hearly w Hin E) as [Hd Ht]. cbn [andb]. apply Z.leb_gt.
  revert Hd Ht. unfold today_start, CampaignWorker.date, usec_per_day, usec_per_second.
  change (86400 * 1000000) with 86400000000.
  Z.div_mod_to_equations. lia.
Qed.

(** A send logged at 00:00:00.2 of day 10, counted at 12:00:00.5. *)
Lemma today_start_keeps_subsecond_witness :
  sent_since
    (with_warmup_logs [Fixtures.warmup_log "w1" "w2" (days 10 + 200000)] Fixtures.db_pool)
    "w1" (today_start (days 10 + Fixtures.seconds 43200 + 500000)) = 0.
Proof.
  apply (proj2 (proj2 (proj2 (today_start_keeps_subsecond
                                (days 10 + Fixtures.seconds 43200 + 500000))))).
  intros w [<-|[]] _. split; reflexivity.
Defined.

End WarmupTurn.

(* ================================================================== *)
(** * The warmup ramp over time, and what a warmup cycle writes *)
(* ================================================================== *)

Module WarmupScope.
Import Db Transport WarmupWorker DbFacts Invariants.
Local Open Scope Z_scope.

Ltac ramp_cases :=
  repeat match goal with
         | |- context [?a <=? ?b] => destruct (Z.leb_spec a b)
         end;
  try lia.

(** X18: the ramp over time.  During the first 21 days the target is
    between 2 and 20 and does not depend on the configured target.  When
    the target the function reads (the configured one, or 40) is at least
    20, the daily target never exceeds it and never decreases as time
    passes. *)
Theorem ramp_monotone :
  forall (a : EmailAccount) (started : datetime),
    ea_warmup_started_at a = Some started ->
    (forall now, days_between now started <= 21 ->
                 2 <= _calc_daily_target now a <= 20)
    /\ (20 <= or_default (ea_warmup_daily_target a) 40 ->
        forall now1 now2,
          now1 <= now2 ->
          _calc_daily_target now1 a <= _calc_daily_target now2 a
          /\ 2 <= _calc_daily_target now1 a
             <= or_default (ea_warmup_daily_target a) 40).
Proof.
  intros a started Hs. unfold _calc_daily_target. rewrite Hs. split.
  - intros now Hd. ramp_cases.
  - intros Ht now1 now2 Hle.
    assert (Hd : days_between now1 started <= days_between now2 started).
    { unfold days_between, usec_per_day, usec_per_second.
      apply Z.div_le_mono; lia. }
    set (d1 := days_between now1 started) in *.
    set (d2 := days_between now2 started) in *.
    set (T := or_default (ea_warmup_daily_target a) 40) in *.
    set (R := or_default (ea_warmup_ramp_days a) 30) in *.
    ramp_cases.
Qed.

Lemma ramp_monotone_witness :
  _calc_daily_target (days 10) (Fixtures.account "a1" AccWarming 0 40 true (Some 0))
  <= _calc_daily_target (days 25) (Fixtures.account "a1" AccWarming 0 40 true (Some 0)).
Proof.
  apply (proj2 (ramp_monotone (Fixtures.account "a1" AccWarming 0 40 true (Some 0)) 0
                  eq_refl) ltac:(cbn; lia) (days 10) (days 25)).
  cbn. lia.
Defined.

Lemma only_warmup_written_refl (db : DB) : only_warmup_written db db.
Proof.
  unfold only_warmup_written. repeat (split; [reflexivity|]).
  exists []. now rewrite app_nil_r.
Qed.

Lemma only_warmup_written_trans (db1 db2 db3 : DB) :
  only_warmup_written db1 db2 -> only_warmup_written db2 db3 ->
  only_warmup_written db1 db3.
Proof.
  unfold only_warmup_written.
  intros (A1 & A2 & A3 & A4 & A5 & A6 & A7 & A8 & A9 & n1 & A10)
         (B1 & B2 & B3 & B4 & B5 & B6 & B7 & B8 & B9 & n2 & B10).
  repeat (split; [congruence|]).
  exists (n1 ++ n2)%list. now rewrite B10, A10, app_assoc.
Qed.

Lemma update_account_only_warmup (id : string) (f : EmailAccount -> EmailAccount)
    (new : list WarmupLog) (db : DB) :
  (forall r, ea_id (f r) = ea_id r) ->
  only_warmup_written db
    (update_account id f (with_warmup_logs (warmup_logs db ++ new) db)).
Proof.
  intro Hf. unfold only_warmup_written. repeat (split; [reflexivity|]).
  split; [|now exists new].
  cbn [email_accounts update_account with_email_accounts with_warmup_logs].
  now apply Capacity.ids_update_where.
Qed.

Lemma send_to_targets_only_warmup (env : AccountEnv) (account : EmailAccount)
    (targets : list EmailAccount) :
  forall (k : nat) (db : DB),
    only_warmup_written db (fst (send_to_targets env k account targets db)).
Proof.
  induction targets as [|t rest IH]; intros k db; [apply only_warmup_written_refl|].
  cbn [send_to_targets].
  match goal with
  | |- context [send_to_targets env (S k) account rest ?d] =>
      set (db1 := d); assert (H1 : only_warmup_written db db1)
  end.
  { subst db1. destruct (w_transport env k _); [|apply only_warmup_written_refl].
    now apply update_account_only_warmup. }
  specialize (IH (S k) db1).
  destruct (send_to_targets env (S k) account rest db1) as [db2 more].
  cbn [fst] in *. eapply only_warmup_written_trans; eassumption.
Qed.

Lemma warmup_account_only_warmup (env : AccountEnv) (accounts : list EmailAccount)
    (account : EmailAccount) (db : DB) :
  only_warmup_written db (fst (warmup_account env accounts account db)).
Proof.
  unfold warmup_account. cbv zeta.
  destruct (_ <=? 0); [apply only_warmup_written_refl|].
  match goal with
  | |- context [send_to_targets env 0 ?acc ?ts db] =>
      pose proof (send_to_targets_only_warmup env acc ts 0 db) as H;
      destruct (send_to_targets env 0 acc ts db) as [db1 sent]
  end.
  cbn [fst] in *. eapply only_warmup_written_trans; [exact H|].
  match goal with
  | |- only_warmup_written db1 (update_account ?i ?f db1) =>
      pose proof (update_account_only_warmup i f [] db1 ltac:(reflexivity)) as H2
  end.
  rewrite app_nil_r in H2.
  destruct H2 as (B1 & B2 & B3 & B4 & B5 & B6 & B7 & B8 & B9 & n2 & B10).
  unfold only_warmup_written. repeat (split; [assumption|]).
  exists []. now rewrite app_nil_r.
Qed.

Lemma warmup_accounts_only_warmup (envs : nat -> AccountEnv)
    (accounts todo : list EmailAccount) :
  forall (i : nat) (db : DB),
    only_warmup_written db (fst (warmup_accounts envs i accounts todo db)).
Proof.
  induction todo as [|a rest IH]; intros i db; [apply only_warmup_written_refl|].
  cbn [warmup_accounts].
  pose proof (warmup_account_only_warmup (envs i) accounts a db) as H1.
  destruct (warmup_account (envs i) accounts a db) as [db1 out].
  cbn [fst] in *. specialize (IH (S i) db1).
  destruct (warmup_accounts envs (S i) accounts rest db1) as [db2 more].
  cbn [fst] in *. eapply only_warmup_written_trans; eassumption.
Qed.

Lemma warmup_cycle_only_warmup (envs : nat -> AccountEnv) (db : DB) :
  only_warmup_written db (fst (_warmup_cycle envs db)).
Proof.
  unfold _warmup_cycle.
  destruct (_ <? 2)%nat; [apply only_warmup_written_refl|].
  apply warmup_accounts_only_warmup.
Qed.

(** X19: what a warmup cycle writes.  It never writes a campaign, a link,
    a step, a lead, a CampaignLead, a SentEmail, an unsubscribe or a
    bounce; the warmup log only grows; the account rows keep their primary
    keys, and an account that is not in the pool (warmup disabled, or
    status neither [active] nor [warming]) keeps its row unchanged. *)
Theorem warmup_cycle_scope :
  forall (envs : nat -> AccountEnv) (db : DB),
    only_warmup_written db (fst (_warmup_cycle envs db))
    /\ forall id,
         ~ In id (map ea_id (filter in_pool (email_accounts db))) ->
         get_account id (fst (_warmup_cycle envs db)) = get_account id db.
Proof.
  intros envs db. unfold _warmup_cycle.
  destruct (_ <? 2)%nat; [split; [apply only_warmup_written_refl | reflexivity]|].
  split; [apply warmup_accounts_only_warmup|].
  intros id Hnot. now apply WarmupStatus.warmup_accounts_frame.
Qed.

(** A cycle in which both pool accounts send: the account outside the
    pool keeps its row, the log grows by two. *)
Lemma warmup_cycle_scope_witness :
  get_account "a9" (fst (_warmup_cycle Fixtures.env_pool Fixtures.db_pool_and_other))
  = get_account "a9" Fixtures.db_pool_and_other
  /\ List.length
       (warmup_logs (fst (_warmup_cycle Fixtures.env_pool Fixtures.db_pool_and_other)))
     = (List.length (warmup_logs Fixtures.db_pool_and_other) + 2)%nat.
Proof.
  split; [|reflexivity].
  apply (proj2 (warmup_cycle_scope Fixtures.env_pool Fixtures.db_pool_and_other)).
  cbn. intuition discriminate.
Defined.

End WarmupScope.

(* ================================================================== *)
(** * Rendering: plain text, single-brace tokens, spintax groups *)
(* ================================================================== *)

Module Rendering.
Import PyStr Spintax EmailSender Chars.

Lemma free_of_app (a : ascii) (s t : string) :
  free_of a (s ++ t) = free_of a s && free_of a t.
Proof.
  unfold free_of. induction s as [|c s IH]; [reflexivity|].
  cbn [append all_chars]. now rewrite IH, andb_assoc.
Qed.

Lemma free_of_cons (a c : ascii) (s : string) :
  free_of a (String c s) = true -> Ascii.eqb a c = false /\ free_of a s = true.
Proof.
  unfold free_of. cbn [all_chars]. intro H. apply andb_true_iff in H.
  destruct H as [H1 H2]. split; [|exact H2].
  rewrite Ascii.eqb_sym. now apply negb_true_iff.
Qed.

Lemma replace_from_free (a : ascii) (p new s : string) :
  free_of a s = true -> replace_from (String a p) new 0 s = s.
Proof.
  induction s as [|c s IH]; intro H; [reflexivity|].
  apply free_of_cons in H. destruct H as [Hc Hs].
  cbn [replace_from startswith]. rewrite Hc. cbn [andb]. now rewrite IH.
Qed.

Lemma replace_from_absent (a : ascii) (p new s : string) :
  contains (String a p) s = false -> replace_from (String a p) new 0 s = s.
Proof.
  induction s as [|c s IH]; intro H; [reflexivity|].
  cbn [contains] in H. apply orb_false_iff in H. destruct H as [H1 H2].
  cbn [replace_from]. rewrite H1. now rewrite IH.
Qed.

Lemma replace_from_prefix_free (a : ascii) (p new s t : string) :
  free_of a s = true ->
  replace_from (String a p) new 0 (s ++ t) = s ++ replace_from (String a p) new 0 t.
Proof.
  induction s as [|c s IH]; intro H; [reflexivity|].
  apply free_of_cons in H. destruct H as [Hc Hs].
  cbn [append replace_from startswith]. rewrite Hc. cbn [andb]. now rewrite IH.
Qed.

Lemma replace_at_marker (new t : string) :
  replace_from "__BRACE__" new 0 ("__BRACE__" ++ t)
  = new ++ replace_from "__BRACE__" new 0 t.
Proof. reflexivity. Qed.

Lemma substitute_free (vars : list (string * string)) (text : string) :
  free_of "{" text = true -> substitute vars text = text.
Proof.
  intro H. unfold substitute. induction vars as [|[k v] vars IH]; [reflexivity|].
  cbn [fold_left fst snd]. cbn [append]. unfold replace at 2.
  now rewrite replace_from_free.
Qed.

Lemma strip_placeholders_free (text : string) :
  free_of "{" text = true -> strip_placeholders text = text.
Proof.
  unfold strip_placeholders. induction text as [|c s IH]; intro H; [reflexivity|].
  apply free_of_cons in H. destruct H as [Hc Hs].
  cbn [strip_placeholders_from].
  assert (E : match_placeholder (String c s) = None).
  { unfold match_placeholder. destruct s as [|c2 r]; [reflexivity|].
    rewrite (Ascii.eqb_sym c), Hc. reflexivity. }
  rewrite E. now rewrite IH.
Qed.

Lemma search_block_free (s : string) :
  free_of "{" s = true -> search_block s = None.
Proof.
  induction s as [|c s IH]; intro H; [reflexivity|].
  apply free_of_cons in H. destruct H as [Hc Hs].
  cbn [search_block]. unfold match_block. rewrite (Ascii.eqb_sym c), Hc.
  now rewrite IH.
Qed.

Lemma render_loop_free (fuel i : nat) (draws : nat -> nat) (s : string) :
  free_of "{" s = true -> render_loop fuel i draws s = s.
Proof.
  intro H. destruct fuel; [reflexivity|].
  cbn [render_loop]. now rewrite search_block_free.
Qed.

Lemma render_of_loop (draws : nat -> nat) (text : string) :
  render draws text
  = match text with
    | EmptyString => text
    | _ =>
        replace "__BRACE__" "{"
          (replace "__BRACE__" "}"
             (replace "__BRACE__" "{" (render_loop max_iterations 0 draws text)))
    end.
Proof. destruct text; reflexivity. Qed.

Lemma render_absent (draws : nat -> nat) (text : string) :
  free_of "{" text = true -> contains "__BRACE__" text = false ->
  render draws text = text.
Proof.
  intros H B. rewrite render_of_loop. destruct text as [|c s]; [reflexivity|].
  rewrite render_loop_free by exact H.
  unfold replace. rewrite (replace_from_absent _ _ "{" _ B).
  rewrite (replace_from_absent _ _ "}" _ B).
  apply (replace_from_absent _ _ "{" _ B).
Qed.

(** X20: plain text passes through unchanged.  A text with no opening
    brace and no occurrence of [__BRACE__] is returned as it is by
    [spintax.render] and by [render_template], for every lead, sender and
    random draw. *)
Theorem plain_text_unchanged :
  forall (draws : nat -> nat) (text : string) (lead : LeadData)
         (sender : option SenderData),
    free_of "{" text = true ->
    contains "__BRACE__" text = false ->
    render draws text = text
    /\ render_template draws text lead sender = text.
Proof.
  intros draws text lead sender H B. split; [now apply render_absent|].
  unfold render_template. destruct text as [|c s]; [reflexivity|].
  rewrite substitute_free by exact H.
  rewrite strip_placeholders_free by exact H.
  now apply render_absent.
Qed.

Lemma plain_text_unchanged_witness :
  render_template (fun _ => 0) "Hello there, how are you?" Fixtures.sam None
  = "Hello there, how are you?".
Proof.
  apply (plain_text_unchanged (fun _ => 0) "Hello there, how are you?" Fixtures.sam None
           eq_refl eq_refl).
Defined.

Lemma span_app (p : ascii -> bool) (inner : string) (c : ascii) (after : string) :
  all_chars p inner = true -> p c = false ->
  span p (inner ++ String c after) = (inner, String c after).
Proof.
  intros H Hc. induction inner as [|x inner IH]; cbn [append span].
  - now rewrite Hc.
  - cbn [all_chars] in H. apply andb_true_iff in H. destruct H as [Hx H].
    now rewrite Hx, IH.
Qed.

Lemma no_brace (s : string) :
  free_of "{" s = true -> free_of "}" s = true ->
  all_chars (fun c => negb (is_brace c)) s = true.
Proof.
  unfold free_of, is_brace. induction s as [|c s IH]; [reflexivity|].
  cbn [all_chars]. intros H1 H2.
  apply andb_true_iff in H1. apply andb_true_iff in H2.
  destruct H1 as [A1 B1], H2 as [A2 B2].
  rewrite negb_orb, A1, A2. now apply IH.
Qed.

Lemma search_block_found (before inner after : string) :
  free_of "{" before = true -> inner <> EmptyString ->
  all_chars (fun c => negb (is_brace c)) inner = true ->
  search_block (before ++ String "{" (inner ++ String "}" after))
  = Some (before, inner, after).
Proof.
  intros Hb Hne Hi. induction before as [|c before IH].
  - cbn [append]. destruct inner as [|x inner]; [contradiction|].
    unfold search_block, match_block. cbn [Ascii.eqb Bool.eqb].
    rewrite (span_app _ (String x inner) "}" after Hi eq_refl).
    reflexivity.
  - apply free_of_cons in Hb. destruct Hb as [Hc Hb].
    cbn [append search_block]. unfold match_block at 1.
    rewrite (Ascii.eqb_sym c), Hc. now rewrite IH.
Qed.

Lemma contains_char_free (a : ascii) (s : string) :
  free_of a s = true -> contains (String a EmptyString) s = false.
Proof.
  induction s as [|c s IH]; intro H; [reflexivity|].
  apply free_of_cons in H. destruct H as [Hc Hs].
  cbn [contains startswith]. rewrite Hc. now rewrite IH.
Qed.

Lemma render_loop_S (fuel i : nat) (draws : nat -> nat) (text : string) :
  render_loop (S fuel) i draws text
  = match search_block text with
    | None => text
    | Some (before, inner, after) =>
        if contains "|" inner then
          render_loop fuel (S i) draws
            (before ++ strip (choice (draws i) (split "|" inner)) ++ after)
        else
          render_loop fuel (S i) draws
            (before ++ "__BRACE__" ++ inner ++ "__BRACE__" ++ after)
    end.
Proof. reflexivity. Qed.

Lemma token_nonempty (before rest : string) :
  before ++ String "{" rest <> EmptyString.
Proof. destruct before; discriminate. Qed.

Lemma render_nonempty (draws : nat -> nat) (text : string) :
  text <> EmptyString ->
  render draws text
  = replace "__BRACE__" "{"
      (replace "__BRACE__" "}"
         (replace "__BRACE__" "{" (render_loop max_iterations 0 draws text))).
Proof. destruct text; [contradiction | reflexivity]. Qed.

Lemma restore_free (s : string) :
  free_of "_" s = true ->
  replace "__BRACE__" "{" (replace "__BRACE__" "}" s) = s.
Proof.
  intro H. unfold replace. now rewrite !(replace_from_free "_" _ _ s H).
Qed.

(** X21: a single-brace token is not restored.  A group [{inner}] without
    a pipe is set aside as [__BRACE__inner__BRACE__], and both markers are
    then replaced by an opening brace: the text comes back with [{inner{]
    in place of [{inner}].  Stated for a text with this one group, no
    other opening brace and no underscore. *)
Theorem single_brace_token_reopened :
  forall (draws : nat -> nat) (before inner after : string),
    free_of "{" before = true -> free_of "_" before = true ->
    inner <> EmptyString ->
    free_of "{" inner = true -> free_of "}" inner = true ->
    free_of "|" inner = true -> free_of "_" inner = true ->
    free_of "{" after = true -> free_of "_" after = true ->
    render draws (before ++ "{" ++ inner ++ "}" ++ after)
    = before ++ "{" ++ inner ++ "{" ++ after.
Proof.
  intros draws before inner after Hb Hb_ Hne Hi1 Hi2 Hip Hi_ Ha Ha_.
  change (before ++ "{" ++ inner ++ "}" ++ after)
    with (before ++ String "{" (inner ++ String "}" after)).
  rewrite render_nonempty by apply token_nonempty.
  change max_iterations with 10. rewrite render_loop_S.
  rewrite search_block_found by (auto using no_brace).
  rewrite (contains_char_free "|" inner Hip).
  rewrite render_loop_free.
  2: { rewrite !free_of_app, Hb, Hi1, Ha. reflexivity. }
  unfold replace at 3.
  rewrite (replace_from_prefix_free "_" _ _ before _ Hb_), replace_at_marker.
  rewrite (replace_from_prefix_free "_" _ _ inner _ Hi_), replace_at_marker.
  rewrite (replace_from_free "_" _ _ after Ha_).
  apply restore_free.
  rewrite !free_of_app, Hb_, Hi_, Ha_. reflexivity.
Qed.

Lemma single_brace_token_reopened_witness :
  render (fun _ => 0) ("p " ++ "{" ++ "color:red" ++ "}" ++ " done")
  = "p " ++ "{" ++ "color:red" ++ "{" ++ " done".
Proof.
  apply (single_brace_token_reopened (fun _ => 0) "p " "color:red" " done");
    try reflexivity.
  discriminate.
Defined.

Lemma all_chars_lstrip (p : ascii -> bool) (s : string) :
  all_chars p s = true -> all_chars p (lstrip s) = true.
Proof.
  induction s as [|c s IH]; intro H; [reflexivity|].
  cbn [lstrip]. destruct (is_space c); [|exact H].
  cbn [all_chars] in H. apply andb_true_iff in H. now apply IH.
Qed.

Lemma all_chars_rstrip (p : ascii -> bool) (s : string) :
  all_chars p s = true -> all_chars p (rstrip s) = true.
Proof.
  induction s as [|c s IH]; intro H; [reflexivity|].
  cbn [all_chars] in H. apply andb_true_iff in H. destruct H as [Hc Hs].
  cbn [rstrip]. specialize (IH Hs). destruct (rstrip s) as [|x r].
  - destruct (is_space c); [reflexivity|]. cbn [all_chars]. now rewrite Hc.
  - cbn [all_chars] in *. now rewrite Hc, IH.
Qed.

Lemma all_chars_split (p : ascii -> bool) (sep : ascii) (s : string) :
  all_chars p s = true ->
  Forall (fun w => all_chars p w = true) (split sep s).
Proof.
  induction s as [|c s IH]; intro H; [now constructor|].
  cbn [all_chars] in H. apply andb_true_iff in H. destruct H as [Hc Hs].
  cbn [split]. specialize (IH Hs). destruct (Ascii.eqb c sep).
  - now constructor.
  - destruct (split sep s) as [|w ws].
    + constructor; [|constructor]. cbn [all_chars]. now rewrite Hc.
    + inversion IH as [|? ? Hw Hws]; subst. constructor; [|exact Hws].
      cbn [all_chars]. now rewrite Hc, Hw.
Qed.

Lemma split_nonempty (sep : ascii) (s : string) : split sep s <> [].
Proof.
  destruct s as [|c s]; [discriminate|]. cbn [split].
  destruct (Ascii.eqb c sep); [discriminate|].
  destruct (split sep s); discriminate.
Qed.

Lemma choice_in (draw : nat) (options : list string) :
  options <> [] -> In (choice draw options) options.
Proof.
  intro H. unfold choice. apply nth_In. apply Nat.mod_upper_bound.
  destruct options; [contradiction | discriminate].
Qed.

Lemma option_free (a : ascii) (draw : nat) (inner : string) :
  free_of a inner = true ->
  free_of a (strip (choice draw (split "|" inner))) = true.
Proof.
  intro H. unfold free_of, strip. apply all_chars_rstrip, all_chars_lstrip.
  pose proof (all_chars_split _ "|" inner H) as HF.
  rewrite Forall_forall in HF. apply HF, choice_in, split_nonempty.
Qed.

Lemma is_space_python (c : ascii) : is_space c = python_space c.
Proof. destruct c as [[] [] [] [] [] [] [] []]; reflexivity. Qed.

Lemma all_chars_ext (p q : ascii -> bool) (s : string) :
  (forall c, p c = q c) -> all_chars p s = all_chars q s.
Proof.
  intro H. induction s as [|c s IH]; [reflexivity|]. cbn [all_chars].
  now rewrite H, IH.
Qed.

Lemma lstrip_spec (s : string) :
  (exists ws, s = ws ++ lstrip s /\ all_chars is_space ws = true)
  /\ forall c r, lstrip s = String c r -> is_space c = false.
Proof.
  induction s as [|a s [(ws & E & Hws) Hfirst]].
  - split; [now exists EmptyString | discriminate].
  - cbn [lstrip]. destruct (is_space a) eqn:Ea.
    + split; [|exact Hfirst]. exists (String a ws). cbn [append all_chars].
      now rewrite <- E, Ea, Hws.
    + split; [now exists EmptyString|]. intros c r H. now injection H as <- _.
Qed.

Lemma rstrip_spec (s : string) :
  (exists ws, s = rstrip s ++ ws /\ all_chars is_space ws = true)
  /\ (forall p c, rstrip s = p ++ String c EmptyString -> is_space c = false)
  /\ (forall c r, rstrip s = String c r -> exists r', s = String c r').
Proof.
  induction s as [|a s [(ws & E & Hws) [Hlast _]]].
  - split; [now exists EmptyString|]. split; [|discriminate].
    intros [|x p] c H; discriminate.
  - cbn [rstrip]. destruct (rstrip s) as [|b r] eqn:Er.
    + cbn [append] in E. subst ws. destruct (is_space a) eqn:Ea.
      * split; [|split; [intros [|x p] c H; discriminate | discriminate]].
        exists (String a s). cbn [append all_chars]. now rewrite Ea, Hws.
      * split; [exists s; now split|]. split.
        -- intros [|x p] c H; [now injection H as <- | ].
           injection H as _ H. now destruct p.
        -- intros c r H. injection H as <- _. now exists s.
    + split; [exists ws; split; [cbn [append] in *; now rewrite <- E | exact Hws]|].
      split.
      * intros [|x p] c H; [discriminate|]. injection H as _ H.
        now apply (Hlast p c).
      * intros c r' H. injection H as <- _. now exists s.
Qed.

(** [o.strip()] is [o] without a run of white space at either end, and
    has none left there. *)
Lemma strip_spec (o : string) :
  (exists lead_ws trail_ws,
     o = lead_ws ++ strip o ++ trail_ws
     /\ all_chars python_space lead_ws = true
     /\ all_chars python_space trail_ws = true)
  /\ (forall c r, strip o = String c r -> python_space c = false)
  /\ (forall p c, strip o = p ++ String c EmptyString -> python_space c = false).
Proof.
  unfold strip.
  destruct (lstrip_spec o) as [(ws1 & E1 & H1) Hfirst].
  destruct (rstrip_spec (lstrip o)) as [(ws2 & E2 & H2) [Hlast Hhead]].
  split; [|split].
  - exists ws1, ws2. split; [now rewrite <- E2|].
    rewrite <- !(all_chars_ext is_space python_space) by apply is_space_python.
    now split.
  - intros c r H. rewrite <- is_space_python.
    destruct (Hhead c r H) as [r' E]. now apply (Hfirst c r').
  - intros p c H. rewrite <- is_space_python. now apply (Hlast p c).
Qed.

Lemma join_split (sep : ascii) (s : string) :
  join (String sep EmptyString) (split sep s) = s
  /\ Forall (fun w => free_of sep w = true) (split sep s).
Proof.
  induction s as [|c s [IHj IHf]]; [split; [reflexivity | repeat constructor]|].
  cbn [split]. destruct (Ascii.eqb_spec c sep) as [->|Hne].
  - split; [|constructor; [reflexivity | exact IHf]].
    destruct (split sep s) as [|w ws] eqn:E; [now destruct (split_nonempty sep s)|].
    cbn [join append] in *. now rewrite IHj.
  - assert (Hc : negb (Ascii.eqb c sep) = true)
      by (apply negb_true_iff; now apply Ascii.eqb_neq).
    destruct (split sep s) as [|w ws] eqn:E; [now destruct (split_nonempty sep s)|].
    apply Forall_cons_iff in IHf. destruct IHf as [Hw Hws]. split.
    + destruct ws as [|w' ws]; cbn [join append] in *; now rewrite IHj.
    + constructor; [|exact Hws]. unfold free_of in *. cbn [all_chars].
      now rewrite Hc, Hw.
Qed.

(** X22: a spintax group renders to one of its options.  A group
    [{a|b|...}] with no brace inside is replaced, in place, by one of the
    options listed between the pipes (the pieces of [inner] between its
    pipes, the one the first random draw selects), with the white space at
    its two ends removed; the text before and after the group is kept.
    Stated for a text with this one group, no other opening brace and no
    underscore. *)
Theorem spintax_group_picks_option :
  forall (draws : nat -> nat) (before inner after : string),
    free_of "{" before = true -> free_of "_" before = true ->
    contains "|" inner = true ->
    free_of "{" inner = true -> free_of "}" inner = true ->
    free_of "_" inner = true ->
    free_of "{" after = true -> free_of "_" after = true ->
    exists options o lead_ws trail_ws stripped,
      join "|" options = inner
      /\ Forall (fun w => free_of "|" w = true) options
      /\ o = nth (draws 0 mod List.length options) options EmptyString
      /\ In o options
      /\ o = lead_ws ++ stripped ++ trail_ws
      /\ all_chars python_space lead_ws = true
      /\ all_chars python_space trail_ws = true
      /\ (forall c r, stripped = String c r -> python_space c = false)
      /\ (forall p c, stripped = p ++ String c EmptyString -> python_space c = false)
      /\ render draws (before ++ "{" ++ inner ++ "}" ++ after)
         = before ++ stripped ++ after.
Proof.
  intros draws before inner after Hb Hb_ Hp Hi1 Hi2 Hi_ Ha Ha_.
  destruct (join_split "|" inner) as [Hjoin Hpieces].
  destruct (strip_spec (choice (draws 0) (split "|" inner)))
    as [(ws1 & ws2 & Ews & H1 & H2) [Hfirst Hlast]].
  exists (split "|" inner), (choice (draws 0) (split "|" inner)), ws1, ws2,
         (strip (choice (draws 0) (split "|" inner))).
  split; [exact Hjoin|]. split; [exact Hpieces|]. split; [reflexivity|].
  split; [apply choice_in, split_nonempty|].
  split; [exact Ews|]. split; [exact H1|]. split; [exact H2|].
  split; [exact Hfirst|]. split; [exact Hlast|].
  change (before ++ "{" ++ inner ++ "}" ++ after)
    with (before ++ String "{" (inner ++ String "}" after)).
  rewrite render_nonempty by apply token_nonempty.
  change max_iterations with 10. rewrite render_loop_S.
  rewrite search_block_found;
    [| exact Hb | intros ->; discriminate | now apply no_brace].
  rewrite Hp. rewrite render_loop_free.
  2: { rewrite !free_of_app, Hb, Ha, (option_free "{" _ inner Hi1). reflexivity. }
  assert (H_ : free_of "_" (before ++ strip (choice (draws 0) (split "|" inner))
                             ++ after) = true).
  { rewrite !free_of_app, Hb_, Ha_, (option_free "_" _ inner Hi_). reflexivity. }
  rewrite restore_free.
  - unfold replace. now apply replace_from_free.
  - unfold replace. now rewrite (replace_from_free "_" _ _ _ H_).
Qed.

(** Draw 4 of three options picks the second, [ Hey ], and strips it. *)
Lemma spintax_group_picks_option_witness :
  (exists options o lead_ws trail_ws stripped,
     join "|" options = "Hi | Hey |Hello"
     /\ Forall (fun w => free_of "|" w = true) options
     /\ o = nth (4 mod List.length options) options EmptyString
     /\ In o options
     /\ o = lead_ws ++ stripped ++ trail_ws
     /\ all_chars python_space lead_ws = true
     /\ all_chars python_space trail_ws = true
     /\ (forall c r, stripped = String c r -> python_space c = false)
     /\ (forall p c, stripped = p ++ String c EmptyString -> python_space c = false)
     /\ render (fun _ => 4) ("Well, " ++ "{" ++ "Hi | Hey |Hello" ++ "}" ++ " Sam")
        = "Well, " ++ stripped ++ " Sam")
  /\ render (fun _ => 4) ("Well, " ++ "{" ++ "Hi | Hey |Hello" ++ "}" ++ " Sam")
     = "Well, Hey Sam".
Proof.
  split; [|reflexivity].
  apply (spintax_group_picks_option (fun _ => 4) "Well, " "Hi | Hey |Hello" " Sam");
    reflexivity.
Defined.

End Rendering.

(* ================================================================== *)
(** * Reordering the steps of a campaign *)
(* ================================================================== *)

Module StepOrder.
Import Db StepRoutes.
Local Open Scope Z_scope.

Lemma position_none (id : string) (ids : list string) :
  ~ In id ids -> position id ids = None.
Proof.
  induction ids as [|x r IH]; intro H; [reflexivity|]. cbn [position].
  destruct (String.eqb_spec x id) as [E|_]; [exfalso; apply H; now left|].
  rewrite IH; [reflexivity|]. intro Hin. apply H. now right.
Qed.

Lemma position_some (id : string) (ids : list string) :
  In id ids -> exists k, position id ids = Some k.
Proof.
  induction ids as [|x r IH]; [intros []|]. intro H. cbn [position].
  destruct (String.eqb_spec x id) as [_|NE]; [now exists O|].
  destruct H as [E|H]; [contradiction|].
  destruct (IH H) as [k ->]. now exists (S k).
Qed.

Lemma position_in (id : string) (ids : list string) (k : nat) :
  position id ids = Some k -> In id ids.
Proof.
  revert k. induction ids as [|x r IH]; intros k H; [discriminate|].
  cbn [position] in H. destruct (String.eqb_spec x id) as [E|_]; [now left|].
  destruct (position id r) as [j|]; [|discriminate]. right. now apply (IH j).
Qed.

Lemma renumbered_keeps (i : Z) (ordered : list Step) (r : Step) :
  st_id (renumbered i ordered r) = st_id r
  /\ st_campaign_id (renumbered i ordered r) = st_campaign_id r
  /\ renumbered i ordered r
     = step_with_number (st_step_number (renumbered i ordered r)) r.
Proof.
  unfold renumbered. destruct (position _ _); repeat split; try reflexivity.
  now destruct r.
Qed.

Lemma renumber_spec (ordered : list Step) :
  forall (i : Z) (rows : list Step),
    NoDup (map st_id ordered) ->
    renumber i ordered rows = map (renumbered i ordered) rows.
Proof.
  induction ordered as [|s rest IH]; intros i rows Hnd.
  - cbn [renumber]. symmetry. apply map_id.
  - cbn [map] in Hnd. inversion Hnd as [|? ? Hnot Hnd']. subst.
    cbn [renumber]. rewrite IH by exact Hnd'. unfold update_where.
    rewrite map_map. apply map_ext. intro r. unfold renumbered.
    cbn [map position].
    destruct (String.eqb_spec (st_id r) (st_id s)) as [E|NE].
    + cbn [st_id step_with_number]. rewrite E, String.eqb_refl.
      rewrite (position_none _ _ Hnot). f_equal. cbn. lia.
    + destruct (String.eqb_spec (st_id s) (st_id r)) as [E|_];
        [symmetry in E; contradiction|].
      destruct (position (st_id r) (map st_id rest)) as [k|]; [|reflexivity].
      cbn [option_map]. f_equal. lia.
Qed.

Lemma numbers_of_ordered (ordered : list Step) :
  forall (i : Z),
    NoDup (map st_id ordered) ->
    map (fun r => st_step_number (renumbered i ordered r)) ordered
    = map (fun k => i + Z.of_nat k) (seq 1 (List.length ordered)).
Proof.
  induction ordered as [|s rest IH]; intros i Hnd; [reflexivity|].
  cbn [map] in Hnd. inversion Hnd as [|? ? Hnot Hnd']. subst.
  cbn [map List.length seq]. f_equal.
  - unfold renumbered. cbn [map position]. rewrite String.eqb_refl.
    cbn [st_step_number step_with_number]. lia.
  - transitivity (map (fun r => st_step_number (renumbered (i + 1) rest r)) rest).
    + apply map_ext_in. intros r Hr. unfold renumbered. cbn [map position].
      destruct (String.eqb_spec (st_id s) (st_id r)) as [E|_].
      { exfalso. apply Hnot. rewrite E. now apply in_map. }
      destruct (position_some (st_id r) (map st_id rest)) as [k ->];
        [now apply in_map|].
      cbn [option_map st_step_number step_with_number]. lia.
    + rewrite (IH (i + 1) Hnd'), <- (seq_shift (List.length rest) 1), map_map.
      apply map_ext. intro k. lia.
Qed.

Lemma perm_insert {A : Type} (x : A) (l : list A) :
  forall k, Permutation (list_insert k x l) (x :: l).
Proof.
  induction l as [|y r IH]; intros [|k]; cbn [list_insert]; try reflexivity.
  rewrite IH. apply perm_swap.
Qed.

Lemma map_insert (s : Step) (l : list Step) :
  forall k, map st_id (list_insert k s l) = list_insert k (st_id s) (map st_id l).
Proof.
  induction l as [|y r IH]; intros [|k]; cbn [list_insert map]; try reflexivity.
  now rewrite IH.
Qed.

Lemma map_remove (sid : string) (l : list Step) :
  map st_id (filter (fun s => negb (String.eqb (st_id s) sid)) l)
  = filter (fun y => negb (String.eqb y sid)) (map st_id l).
Proof.
  induction l as [|y r IH]; [reflexivity|]. cbn [filter map].
  destruct (negb (String.eqb (st_id y) sid)); cbn [map]; now rewrite IH.
Qed.

Lemma filter_all {A : Type} (p : A -> bool) (l : list A) :
  (forall x, In x l -> p x = true) -> filter p l = l.
Proof.
  induction l as [|y r IH]; intro H; [reflexivity|]. cbn [filter].
  rewrite (H y (or_introl eq_refl)). f_equal. apply IH. intros x Hx. apply H. now right.
Qed.

Lemma perm_remove (s : Step) (l : list Step) :
  NoDup (map st_id l) -> In s l ->
  Permutation (s :: filter (fun x => negb (String.eqb (st_id x) (st_id s))) l) l.
Proof.
  induction l as [|y r IH]; intros Hnd Hin; [destruct Hin|].
  cbn [map] in Hnd. inversion Hnd as [|? ? Hnot Hnd']. subst. cbn [filter].
  destruct (String.eqb_spec (st_id y) (st_id s)) as [E|NE]; cbn [negb].
  - assert (y = s).
    { apply (Enrolment.nodup_map_inj st_id (y :: r)); auto. now left. }
    subst y. rewrite filter_all; [reflexivity|].
    intros x Hx. apply negb_true_iff. apply String.eqb_neq. intro Ex.
    apply Hnot. rewrite <- Ex. now apply in_map.
  - destruct Hin as [->|Hin]; [contradiction|].
    rewrite perm_swap. apply perm_skip. now apply IH.
Qed.

Lemma step_ids_filter (keep : Step -> bool) (rows : list Step) :
  NoDup (map st_id rows) -> NoDup (map st_id (filter keep rows)).
Proof.
  induction rows as [|x rows IH]; intro H; [constructor|].
  cbn [map] in H. inversion H as [|? ? Hnot Hnd]. subst.
  cbn [filter]. destruct (keep x); [|now apply IH].
  cbn [map]. constructor; [|now apply IH].
  intro Hin. apply Hnot. apply in_map_iff in Hin. destruct Hin as (y & Ey & Hy).
  apply filter_In in Hy. rewrite <- Ey. apply in_map. tauto.
Qed.

Lemma position_inserted (x : string) (ids : list string) :
  forall k, ~ In x ids ->
            position x (list_insert k x ids) = Some (Nat.min k (List.length ids)).
Proof.
  induction ids as [|y r IH]; intros [|k] Hnot; cbn [list_insert position List.length];
    try (rewrite String.eqb_refl; reflexivity).
  destruct (String.eqb_spec y x) as [E|_]; [exfalso; apply Hnot; now left|].
  rewrite IH; [reflexivity|]. intro H. apply Hnot. now right.
Qed.

Lemma before_skip (y id1 id2 : string) (r : list string) :
  y <> id1 -> y <> id2 -> before id1 id2 r -> before id1 id2 (y :: r).
Proof.
  intros N1 N2 (j1 & j2 & P1 & P2 & Hlt). exists (S j1), (S j2).
  cbn [position].
  destruct (String.eqb_spec y id1); [contradiction|].
  destruct (String.eqb_spec y id2); [contradiction|].
  rewrite P1, P2. repeat split. lia.
Qed.

Lemma before_head (y id2 : string) (r : list string) :
  y <> id2 -> In id2 r -> before y id2 (y :: r).
Proof.
  intros N2 Hin. destruct (position_some id2 r Hin) as [j Pj].
  exists O, (S j). cbn [position]. rewrite String.eqb_refl.
  destruct (String.eqb_spec y id2); [contradiction|].
  rewrite Pj. repeat split. lia.
Qed.

Lemma before_inv (y id1 id2 : string) (r : list string) :
  before id1 id2 (y :: r) ->
  (y = id1 /\ y <> id2 /\ In id2 r) \/ (y <> id1 /\ y <> id2 /\ before id1 id2 r).
Proof.
  intros (j1 & j2 & P1 & P2 & Hlt). cbn [position] in P1, P2.
  destruct (String.eqb_spec y id1) as [E1|N1];
    destruct (String.eqb_spec y id2) as [E2|N2].
  - injection P1 as <-. injection P2 as <-. lia.
  - left. split; [exact E1|]. split; [exact N2|].
    destruct (position id2 r) as [j|] eqn:Pj; [|discriminate].
    now apply (position_in id2 r j).
  - injection P2 as <-. lia.
  - right. split; [exact N1|]. split; [exact N2|].
    destruct (position id1 r) as [a|] eqn:Pa; [|discriminate].
    destruct (position id2 r) as [b|] eqn:Pb; [|discriminate].
    injection P1 as <-. injection P2 as <-.
    exists a, b. split; [exact Pa|]. split; [exact Pb|]. lia.
Qed.

Lemma in_insert {A : Type} (z x : A) (l : list A) (k : nat) :
  In z l -> In z (list_insert k x l).
Proof.
  intro H. apply (Permutation_in z (Permutation_sym (perm_insert x l k))). now right.
Qed.

Lemma before_insert (x id1 id2 : string) (ids : list string) :
  x <> id1 -> x <> id2 ->
  forall k, before id1 id2 ids -> before id1 id2 (list_insert k x ids).
Proof.
  intros N1 N2. induction ids as [|y r IH]; intros k Hb.
  - destruct Hb as (j1 & j2 & P1 & _). discriminate.
  - destruct k as [|k]; cbn [list_insert]; [now apply before_skip|].
    apply before_inv in Hb. destruct Hb as [(-> & Hy & Hin)|(H1 & H2 & Hb)].
    + apply before_head; [exact Hy | now apply in_insert].
    + apply before_skip; auto.
Qed.

Lemma before_remove (x id1 id2 : string) (ids : list string) :
  x <> id1 -> x <> id2 ->
  before id1 id2 ids ->
  before id1 id2 (filter (fun y => negb (String.eqb y x)) ids).
Proof.
  intros N1 N2. induction ids as [|y r IH]; intro Hb.
  - destruct Hb as (j1 & j2 & P1 & _). discriminate.
  - apply before_inv in Hb. cbn [filter].
    destruct Hb as [(-> & Hy & Hin)|(H1 & H2 & Hb)].
    + destruct (String.eqb_spec id1 x) as [E|_]; [symmetry in E; contradiction|].
      cbn [negb]. apply before_head; [exact Hy|].
      apply filter_In. split; [exact Hin|].
      apply negb_true_iff, String.eqb_neq. auto.
    + destruct (String.eqb y x); cbn [negb]; [now apply IH|].
      apply before_skip; auto.
Qed.

Lemma sorted_before (l : list Step) (r1 r2 : Step) :
  StronglySorted (fun a b => st_step_number a <= st_step_number b) l ->
  NoDup (map st_id l) ->
  In r1 l -> In r2 l ->
  st_step_number r1 < st_step_number r2 ->
  before (st_id r1) (st_id r2) (map st_id l).
Proof.
  intros Hs Hnd H1 H2 Hlt. induction l as [|y rest IH]; [destruct H1|].
  inversion Hs as [|? ? Hs' Hall]. subst.
  cbn [map] in *. inversion Hnd as [|? ? Hnot Hnd']. subst.
  rewrite Forall_forall in Hall.
  assert (Hne : forall r, In r rest -> st_id y <> st_id r).
  { intros r Hr E. apply Hnot. rewrite E. now apply in_map. }
  destruct H1 as [->|H1], H2 as [->|H2].
  - lia.
  - apply before_head; [now apply Hne | now apply in_map].
  - specialize (Hall r1 H1). lia.
  - apply before_skip; auto.
Qed.

Lemma insert_sorted_perm (s : Step) (l : list Step) :
  Permutation (insert_sorted s l) (s :: l).
Proof.
  induction l as [|x r IH]; [reflexivity|]. cbn [insert_sorted].
  destruct (st_step_number s <? st_step_number x); [reflexivity|].
  rewrite IH. apply perm_swap.
Qed.

Lemma insert_sorted_sorted (s : Step) (l : list Step) :
  StronglySorted (fun a b => st_step_number a <= st_step_number b) l ->
  StronglySorted (fun a b => st_step_number a <= st_step_number b) (insert_sorted s l).
Proof.
  induction l as [|x r IH]; intro Hs.
  - cbn. constructor; constructor.
  - inversion Hs as [|? ? Hs' Hall]. subst. cbn [insert_sorted].
    rewrite Forall_forall in Hall.
    destruct (Z.ltb_spec (st_step_number s) (st_step_number x)) as [Hlt|Hge].
    + constructor; [exact Hs|]. apply Forall_forall. intros z [<-|Hz]; [lia|].
      specialize (Hall z Hz). lia.
    + constructor; [now apply IH|]. apply Forall_forall. intros z Hz.
      apply (Permutation_in z (insert_sorted_perm s r)) in Hz.
      destruct Hz as [<-|Hz]; [lia | now apply Hall].
Qed.

Lemma table_order_sorts : sorts_by_step_number table_order.
Proof.
  intro l. unfold table_order. induction l as [|x r [IHp IHs]].
  - split; [reflexivity | constructor].
  - cbn [fold_right]. split.
    + rewrite insert_sorted_perm. now apply perm_skip.
    + now apply insert_sorted_sorted.
Qed.

Lemma forall2_map {A : Type} (P : A -> A -> Prop) (f : A -> A) (l : list A) :
  (forall r, In r l -> P r (f r)) -> Forall2 P l (map f l).
Proof.
  induction l as [|x l IH]; intro H; [constructor|]. cbn [map].
  constructor; [apply H; now left|]. apply IH. intros r Hr. apply H. now right.
Qed.

Lemma filter_map_keeps (cid : string) (g : Step -> Step) (l : list Step) :
  (forall r, st_campaign_id (g r) = st_campaign_id r) ->
  filter (fun s => String.eqb (st_campaign_id s) cid) (map g l)
  = map g (filter (fun s => String.eqb (st_campaign_id s) cid) l).
Proof.
  intro Hg. induction l as [|x l IH]; [reflexivity|]. cbn [map filter].
  rewrite Hg. destruct (String.eqb (st_campaign_id x) cid); cbn [map]; now rewrite IH.
Qed.

(** X23: moving a step.  When [reorder_step] finds the step, every row of
    [steps] keeps all its columns but [step_number], and rows of other
    campaigns are untouched; the numbers of the campaign's steps become
    1..n, each used once; the moved step gets the requested position,
    clamped to 1..n; and the other steps keep the order they had among
    themselves. *)
Theorem reorder_step_renumbers :
  forall (order_by : list Step -> list Step) (user_id step_id : string)
         (new_position : Z) (db db' : DB) (step : Step),
    sorts_by_step_number order_by ->
    NoDup (map st_id (steps db)) ->
    owned_step db user_id step_id = Some step ->
    reorder_step order_by user_id step_id new_position db = Some db' ->
    Forall2 (fun r r' => r' = step_with_number (st_step_number r') r
                         /\ (st_campaign_id r <> st_campaign_id step -> r' = r))
            (steps db) (steps db')
    /\ Permutation
         (map st_step_number (campaign_steps (st_campaign_id step) db'))
         (map Z.of_nat
            (seq 1 (List.length (campaign_steps (st_campaign_id step) db))))
    /\ (forall r',
          In r' (steps db') -> st_id r' = step_id ->
          st_step_number r'
          = Z.min (Z.max 1 new_position)
              (Z.of_nat (List.length (campaign_steps (st_campaign_id step) db))))
    /\ (forall r1 r2 r1' r2',
          In r1 (campaign_steps (st_campaign_id step) db) ->
          In r2 (campaign_steps (st_campaign_id step) db) ->
          st_id r1 <> step_id -> st_id r2 <> step_id ->
          st_step_number r1 < st_step_number r2 ->
          In r1' (steps db') -> In r2' (steps db') ->
          st_id r1' = st_id r1 -> st_id r2' = st_id r2 ->
          st_step_number r1' < st_step_number r2').
Proof.
  intros order_by user_id step_id p db db' step Hsort Hnd Hown Hre.
  unfold reorder_step in Hre. rewrite Hown in Hre. cbv zeta in Hre.
  injection Hre as <-.
  set (cid := st_campaign_id step) in *.
  set (R := campaign_steps cid db) in *.
  set (others := filter (fun s => negb (String.eqb (st_id s) (st_id step)))
                   (order_by R)) in *.
  set (k := Z.to_nat (Z.max 0 (p - 1))) in *.
  set (ordered := list_insert k step others) in *.
  destruct (Hsort R) as [Hperm Hsorted].
  unfold owned_step in Hown. apply find_some in Hown. destruct Hown as [Hin Hid].
  apply andb_true_iff in Hid. destruct Hid as [Hid _].
  apply String.eqb_eq in Hid.
  assert (HinR : In step R).
  { apply filter_In. split; [exact Hin | apply String.eqb_refl]. }
  assert (HndR : NoDup (map st_id R)) by (now apply step_ids_filter).
  assert (HndS : NoDup (map st_id (order_by R))).
  { apply (Permutation_NoDup (Permutation_map st_id (Permutation_sym Hperm)) HndR). }
  assert (HinS : In step (order_by R)).
  { apply (Permutation_in step (Permutation_sym Hperm) HinR). }
  assert (Hrem : Permutation (step :: others) (order_by R)).
  { now apply perm_remove. }
  assert (Hord : Permutation ordered R).
  { unfold ordered. rewrite perm_insert, Hrem. exact Hperm. }
  assert (HndO : NoDup (map st_id ordered)).
  { apply (Permutation_NoDup (Permutation_map st_id (Permutation_sym Hord)) HndR). }
  assert (Hlen : List.length R = S (List.length others)).
  { rewrite <- (Permutation_length Hperm), <- (Permutation_length Hrem). reflexivity. }
  assert (Hnot : ~ In (st_id step) (map st_id others)).
  { intro H. apply in_map_iff in H. destruct H as (x & Ex & Hx).
    apply filter_In in Hx. destruct Hx as [_ Hx].
    rewrite Ex, String.eqb_refl in Hx. discriminate. }
  assert (Hsteps : steps (with_steps (renumber 0 ordered (steps db)) db)
                   = map (renumbered 0 ordered) (steps db)).
  { cbn [steps with_steps]. now apply renumber_spec. }
  assert (Hrow : forall r', In r' (map (renumbered 0 ordered) (steps db)) ->
                   forall j, position (st_id r') (map st_id ordered) = Some j ->
                             st_step_number r' = Z.of_nat j + 1).
  { intros r' Hr' j Pj. apply in_map_iff in Hr'. destruct Hr' as (r0 & <- & _).
    destruct (renumbered_keeps 0 ordered r0) as (E & _ & _). rewrite E in Pj.
    unfold renumbered. rewrite Pj. cbn. lia. }
  split; [|split; [|split]].
  - rewrite Hsteps. apply forall2_map. intros r Hr.
    destruct (renumbered_keeps 0 ordered r) as (_ & _ & E). split; [exact E|].
    intro Hc. unfold renumbered. rewrite position_none; [reflexivity|].
    intro H. apply in_map_iff in H. destruct H as (x & Ex & Hx).
    apply (Permutation_in x Hord) in Hx. apply filter_In in Hx.
    destruct Hx as [Hx Hcx]. apply String.eqb_eq in Hcx.
    assert (x = r) by (apply (Enrolment.nodup_map_inj st_id (steps db)); auto).
    subst x. contradiction.
  - unfold campaign_steps at 1. rewrite Hsteps.
    rewrite filter_map_keeps by (intro r; apply renumbered_keeps).
    fold (campaign_steps cid db). fold R. rewrite map_map.
    rewrite (Permutation_map (fun r => st_step_number (renumbered 0 ordered r))
               (Permutation_sym Hord)).
    rewrite (numbers_of_ordered ordered 0 HndO).
    rewrite (Permutation_length Hord). reflexivity.
  - intros r' Hr' Er'. rewrite Hsteps in Hr'.
    rewrite (Hrow r' Hr' (Nat.min k (List.length (map st_id others)))).
    + rewrite length_map, Hlen. unfold k. lia.
    + rewrite Er', <- Hid. unfold ordered. rewrite map_insert.
      now apply position_inserted.
  - intros r1 r2 r1' r2' H1 H2 N1 N2 Hlt H1' H2' E1 E2. rewrite Hsteps in H1', H2'.
    assert (Hb : before (st_id r1) (st_id r2) (map st_id ordered)).
    { unfold ordered. rewrite map_insert.
      apply before_insert; [congruence | congruence |].
      unfold others. rewrite map_remove.
      apply before_remove; [congruence | congruence |].
      apply sorted_before; auto.
      - apply (Permutation_in r1 (Permutation_sym Hperm) H1).
      - apply (Permutation_in r2 (Permutation_sym Hperm) H2). }
    destruct Hb as (j1 & j2 & P1 & P2 & Hj).
    rewrite <- E1 in P1. rewrite <- E2 in P2.
    rewrite (Hrow r1' H1' j1 P1), (Hrow r2' H2' j2 P2). lia.
Qed.

Lemma reorder_step_renumbers_witness :
  Permutation
    (map st_step_number
       (campaign_steps "c1"
          (with_steps
             [step_with_number 2 (Fixtures.step 1 0);
              step_with_number 3 (Fixtures.step 2 2);
              step_with_number 1 (Fixtures.step 3 4)] Fixtures.db0)))
    (map Z.of_nat (seq 1 3)).
Proof.
  apply (reorder_step_renumbers table_order "u1" "s3" 1 Fixtures.db0
           (with_steps
              [step_with_number 2 (Fixtures.step 1 0);
               step_with_number 3 (Fixtures.step 2 2);
               step_with_number 1 (Fixtures.step 3 4)] Fixtures.db0)
           (Fixtures.step 3 4) table_order_sorts).
  - repeat constructor; cbn; intuition discriminate.
  - reflexivity.
  - reflexivity.
Defined.

End StepOrder.

(* ================================================================== *)
(** * Threading over the log the platform writes *)
(* ================================================================== *)

Module ThreadOrder.
Import Db Transport CampaignWorker Platform Invariants.
Local Open Scope Z_scope.

Lemma chronological_times (l : list SentEmail) :
  chronological l <-> StronglySorted Z.le (map se_sent_at l).
Proof.
  unfold chronological. induction l as [|x l IH]; cbn [map].
  - split; constructor.
  - split; intro H; inversion H as [|? ? Hs Hall]; subst; constructor;
      try (now apply IH).
    + rewrite Forall_forall in *. intros t Ht. apply in_map_iff in Ht.
      destruct Ht as (e & <- & He). now apply Hall.
    + rewrite Forall_forall in *. intros e He. apply Hall. now apply in_map.
Qed.

Lemma sorted_snoc (times : list Z) (t : Z) :
  StronglySorted Z.le times -> Forall (fun x => x <= t) times ->
  StronglySorted Z.le (times ++ [t]).
Proof.
  induction 1 as [|x l Hs IH Hx]; intro Hall; cbn [app].
  - constructor; constructor.
  - inversion Hall as [|? ? Hxt Hrest]. subst. constructor; [now apply IH|].
    apply Forall_app. split; [exact Hx | constructor; [exact Hxt | constructor]].
Qed.

(** A dispatch leaves the log as it is or appends one row stamped with
    the database clock. *)
Lemma send_one_log (env : SendEnv) (db : DB) (cl : CampaignLead) (campaign : Campaign) :
  map se_sent_at (sent_emails (fst (_send_one env db cl campaign)))
  = map se_sent_at (sent_emails db)
  \/ map se_sent_at (sent_emails (fst (_send_one env db cl campaign)))
     = (map se_sent_at (sent_emails db) ++ [now_db env])%list.
Proof.
  unfold _send_one.
  destruct (get_lead (cl_lead_id cl) db) as [lead|]; [|now left].
  destruct (_is_suppressed db (c_user_id campaign) (l_email lead)); [now left|].
  destruct (find_step db (c_id campaign) (cl_current_step cl + 1)) as [step|];
    [|now left].
  destruct (_pick_account env db campaign) as [account|]; [|now left].
  destruct (prepare env db campaign lead account step (cl_current_step cl + 1))
    as [[[vi subject] body] request].
  destruct (transport env request) as [mid|error]; cbn [fst].
  - right. unfold on_success.
    cbn [sent_emails update_account with_email_accounts update_cl
         with_campaign_leads with_sent_emails].
    now rewrite map_app.
  - left. unfold on_failure. now destruct (is_hard_bounce error).
Qed.

Lemma match_reply_log (now : datetime) (irt : string) (db : DB) :
  map se_sent_at (sent_emails (Routes.match_reply now irt db))
  = map se_sent_at (sent_emails db).
Proof.
  unfold Routes.match_reply. destruct irt as [|c irt]; [reflexivity|].
  destruct (find _ (sent_emails db)) as [sent|]; [|reflexivity]. cbv zeta.
  assert (E : map se_sent_at
                (update_where (fun e => String.eqb (se_id e) (se_id sent))
                   (sent_with_replied_at (Some now)) (sent_emails db))
              = map se_sent_at (sent_emails db)).
  { unfold update_where. rewrite map_map. apply map_ext. intro e.
    now destruct (String.eqb (se_id e) (se_id sent)). }
  destruct (find _ (campaign_leads _)); exact E.
Qed.

Lemma sync_accounts_log (fetch_replies : EmailAccount -> list Routes.Reply)
    (envs : nat -> Routes.ReplyEnv) (stored : list Routes.InboxMessage)
    (accounts : list EmailAccount) :
  forall (k : nat) (st : list Routes.InboxMessage * DB),
    map se_sent_at
      (sent_emails (snd (Routes.sync_accounts fetch_replies envs k stored accounts st)))
    = map se_sent_at (sent_emails (snd st)).
Proof.
  induction accounts as [|a rest IH]; intros k st; [reflexivity|].
  cbn [Routes.sync_accounts]. rewrite IH. generalize k. clear IH.
  revert st. induction (fetch_replies a) as [|reply more IHr]; intros st j;
    [reflexivity|].
  cbn [Routes.sync_replies]. rewrite IHr. unfold Routes.sync_reply.
  destruct (Routes.already_stored stored (ea_id a) reply); [reflexivity|].
  cbn [snd]. apply match_reply_log.
Qed.

(** Apart from a turn of the loop, no operation changes the times of the
    log. *)
Lemma apply_op_log (op : Op) (st : State) :
  (forall running env, op <> WorkerTurn running env) ->
  map se_sent_at (sent_emails (s_db (apply_op op st)))
  = map se_sent_at (sent_emails (s_db st)).
Proof.
  intro Hop. destruct op; cbn [apply_op with_db s_db].
  - unfold midnight_reset. now destruct (at_midnight now).
  - now destruct (Hop running env).
  - destruct (WarmupScope.warmup_cycle_only_warmup envs (s_db st))
      as (_ & _ & _ & _ & _ & E & _). now rewrite E.
  - destruct (WarmupScope.warmup_account_only_warmup env pool account (s_db st))
      as (_ & _ & _ & _ & _ & E & _). now rewrite E.
  - unfold Routes.sync_inbox. cbv zeta.
    match goal with
    | |- context [Routes.sync_accounts ?f ?e ?k ?i ?a ?s0] =>
        pose proof (sync_accounts_log f e i a k s0) as H;
        destruct (Routes.sync_accounts f e k i a s0) as [added db']
    end.
    exact H.
  - unfold Routes.public_unsubscribe. cbv zeta.
    destruct (find _ (unsubscribes (s_db st))); destruct (find _ (leads _));
      reflexivity.
  - unfold Routes.start_campaign.
    destruct (Routes.owned_campaign _ _ _); [|reflexivity].
    cbv zeta. now destruct (_ && _ && _).
  - unfold Routes.pause_campaign. now destruct (Routes.owned_campaign _ _ _).
  - unfold Routes.enrol. now repeat destruct (existsb _ _).
  - unfold Routes.remove_lead_from_campaign.
    destruct (Routes.owned_campaign _ _ _); [|reflexivity].
    now destruct (find _ _).
Qed.

(** While the database clock does not go back, the log stays in the
    order of its [sent_at]. *)
Lemma run_log (ops : list Op) :
  forall (st : State) (t : datetime),
    StronglySorted Z.le (map se_sent_at (sent_emails (s_db st))) ->
    Forall (fun x => x <= t) (map se_sent_at (sent_emails (s_db st))) ->
    clock_never_back t ops ->
    StronglySorted Z.le (map se_sent_at (sent_emails (s_db (run ops st)))).
Proof.
  induction ops as [|op ops IH]; intros st t Hs Hall Hclock; [exact Hs|].
  rewrite Finality.run_cons.
  assert (Hother : (forall running env, op <> WorkerTurn running env) ->
                   clock_never_back t ops ->
                   StronglySorted Z.le
                     (map se_sent_at (sent_emails (s_db (run ops (apply_op op st)))))).
  { intros Hop Hc. apply (IH _ t); [| |exact Hc];
      now rewrite (apply_op_log op st Hop). }
  destruct op; try (apply Hother; [discriminate | exact Hclock]).
  cbn [clock_never_back] in Hclock. destruct Hclock as [Hle Hclock].
  assert (Hwiden : Forall (fun x => x <= now_db env)
                     (map se_sent_at (sent_emails (s_db st)))).
  { eapply Forall_impl; [|exact Hall]. cbn. intros. lia. }
  cbn [apply_op].
  destruct (s_batch st) as [|[cl0 c0] rest] eqn:Eb;
    [apply (IH _ (now_db env)); assumption|].
  destruct running; cbn [negb]; [|apply (IH _ (now_db env)); assumption].
  cbn [dispatched]. rewrite Eb.
  destruct (_ && _ && _); [|apply (IH _ (now_db env)); assumption].
  apply (IH _ (now_db env)); cbn [with_batch with_db s_db]; [| |exact Hclock];
    destruct (send_one_log env (s_db st) (refresh (s_db st) cl0) c0) as [E|E];
    rewrite E; try assumption.
  - now apply sorted_snoc.
  - apply Forall_app. split; [exact Hwiden|]. constructor; [lia | constructor].
Qed.

(** C6: on the log that the platform writes from an empty log on, under a
    database clock that does not go back: when the step to send has a
    number greater than 1 and the most recent SentEmail of the (lead,
    campaign) pair has a transport id, the request handed to the transport
    has that id as [in_reply_to] and, as [references], the non-empty
    transport ids of all the pair's SentEmails joined by single spaces,
    oldest first.  In particular, when the pair has two earlier messages
    [e1] and [e2], sent in that order with ids [m1] and [m2], message 3
    goes out with [in_reply_to = m2] and [references = m1 ++ " " ++ m2]. *)
Theorem send_one_threading :
  forall (ops : list Op) (st0 : State) (t0 : datetime)
         (env : SendEnv) (cl : CampaignLead) (campaign : Campaign)
         (lead : Lead) (step : Step) (account : EmailAccount)
         (prev : SentEmail) (m : string),
    sent_emails (s_db st0) = [] ->
    clock_never_back t0 ops ->
    get_lead (cl_lead_id cl) (s_db (run ops st0)) = Some lead ->
    _is_suppressed (s_db (run ops st0)) (c_user_id campaign) (l_email lead) = false ->
    find_step (s_db (run ops st0)) (c_id campaign) (cl_current_step cl + 1)
    = Some step ->
    _pick_account env (s_db (run ops st0)) campaign = Some account ->
    1 < st_step_number step ->
    most_recent
      (filter (fun e => String.eqb (se_lead_id e) (l_id lead)
                        && String.eqb (se_campaign_id e) (c_id campaign))
              (sent_emails (s_db (run ops st0))))
    = Some prev ->
    se_message_id prev = Some m ->
    m <> EmptyString ->
    exists rq thread,
      thread = filter (fun e => String.eqb (se_lead_id e) (l_id lead)
                                && String.eqb (se_campaign_id e) (c_id campaign))
                      (sent_emails (s_db (run ops st0)))
      /\ snd (_send_one env (s_db (run ops st0)) cl campaign) = Some rq
      /\ rq_in_reply_to rq = Some m
      /\ rq_references rq
         = Some (PyStr.join " "
                   (flat_map (fun e => match se_message_id e with
                                       | Some (String a r) => [String a r]
                                       | _ => []
                                       end) thread))
      /\ StronglySorted (fun a b => se_sent_at a <= se_sent_at b) thread
      /\ In prev thread
      /\ (forall e, In e thread -> se_sent_at e <= se_sent_at prev)
      /\ (forall e1 e2 m1,
            thread = [e1; e2] ->
            se_sent_at e1 < se_sent_at e2 ->
            se_message_id e1 = Some m1 ->
            m1 <> EmptyString ->
            se_message_id e2 = Some m
            /\ rq_in_reply_to rq = Some m
            /\ rq_references rq = Some (m1 ++ " " ++ m)).
Proof.
  intros ops st0 t0 env cl campaign lead step account prev m
         Hempty Hclock Hlead Hsup Hstep Hpick Hnum Hprev Hmid Hne.
  set (db := s_db (run ops st0)) in *.
  assert (Hchron : chronological (sent_emails db)).
  { apply chronological_times. apply (run_log ops st0 t0); [| |exact Hclock];
      rewrite Hempty; constructor. }
  change (filter (fun e => String.eqb (se_lead_id e) (l_id lead)
                           && String.eqb (se_campaign_id e) (c_id campaign))
                 (sent_emails db))
    with (filter (same_thread (l_id lead) (c_id campaign)) (sent_emails db)) in *.
  destruct (Threading.threading_request env db cl campaign lead step account prev m
              Hlead Hsup Hstep Hpick Hnum Hprev Hmid Hne)
    as (rq & Hsnd & Hirt & Hrefs).
  destruct (Threading.most_recent_latest _ _ Hprev) as [Hin Hmax].
  exists rq, (filter (same_thread (l_id lead) (c_id campaign)) (sent_emails db)).
  split; [reflexivity|]. split; [exact Hsnd|]. split; [exact Hirt|].
  split; [now rewrite <- Threading.message_ids_listed|].
  split; [now apply Threading.chronological_filter|].
  split; [exact Hin|]. split; [exact Hmax|].
  intros e1 e2 m1 Hprior Hlt Hm1 Hne1.
  rewrite Hprior in Hprev. unfold most_recent in Hprev. cbn [fold_left] in Hprev.
  destruct (Z.ltb_spec (se_sent_at e1) (se_sent_at e2)) as [_|Hge]; [|lia].
  injection Hprev as <-.
  split; [exact Hmid|]. split; [exact Hirt|].
  rewrite Hrefs, Hprior. cbn [message_ids]. rewrite Hm1, Hmid.
  rewrite (Threading.truthy_nonempty m1 Hne1), (Threading.truthy_nonempty m Hne).
  reflexivity.
Qed.

(** The third message of the three-step sequence of [db0], after the two
    sends of [ops_two_sends]. *)
Lemma send_one_threading_witness :
  exists rq,
    snd (_send_one Fixtures.env_third
           (s_db (run Fixtures.ops_two_sends (Fixtures.state_of Fixtures.db0)))
           (refresh (s_db (run Fixtures.ops_two_sends (Fixtures.state_of Fixtures.db0)))
                    (Fixtures.cl_at 0))
           Fixtures.camp1) = Some rq
    /\ rq_in_reply_to rq = Some "<m2@x.io>"
    /\ rq_references rq = Some "<m1@x.io> <m2@x.io>".
Proof.
  destruct (send_one_threading Fixtures.ops_two_sends
              (Fixtures.state_of Fixtures.db0) 0
              Fixtures.env_third
              (refresh (s_db (run Fixtures.ops_two_sends
                                (Fixtures.state_of Fixtures.db0)))
                       (Fixtures.cl_at 0))
              Fixtures.camp1 Fixtures.lead1 (Fixtures.step 3 4) Fixtures.a1
              (nth 1 (sent_emails (s_db (run Fixtures.ops_two_sends
                                           (Fixtures.state_of Fixtures.db0))))
                   Fixtures.second_sent)
              "<m2@x.io>" eq_refl
              ltac:(cbn; unfold Fixtures.seconds, days, usec_per_day,
                    usec_per_second; lia)
              eq_refl eq_refl eq_refl eq_refl eq_refl eq_refl eq_refl
              ltac:(discriminate))
    as (rq & thread & Hthread & Hsnd & Hirt & Hrefs & _).
  exists rq. split; [exact Hsnd|]. split; [exact Hirt|].
  rewrite Hrefs, Hthread. reflexivity.
Defined.

End ThreadOrder.
